(** * sample1.cpp: not_null, RAII handles and a transaction guard over sqlite3

    A shallow embedding of [sample1.cpp].  The program is glue code over the
    C interface of sqlite3; the engine itself is not part of the program, so
    it is a parameter of the development: a record of transition functions
    over an arbitrary engine state ([sqlite3_api]).  Every function of the
    program is a computation in a small monad that threads

      - the engine state,
      - the chronological list of calls made into the engine ([calls]),
      - what was written to [std::cout] and [std::cerr],

    and that distinguishes normal return from [throw], [std::exit],
    [std::terminate], undefined behaviour and an exhausted loop budget. *)

From Stdlib Require Import ZArith List String Ascii Bool Lia.
From Stdlib Require Import Floats.PrimFloat.
From Stdlib Require Import Numbers.DecimalString Init.Decimal.
Import ListNotations.

Open Scope string_scope.
Open Scope list_scope.
Open Scope Z_scope.

Infix "+++" := String.append (at level 60, right associativity).

(** ** Values of the C and C++ types the program uses *)

(** [T*]: an address; [nullptr] is address zero. *)
Definition pointer := Z.
Definition nullptr : pointer := 0.

(** [double]: IEEE binary64. *)
Definition double := float.

(** Result and type codes of <sqlite3.h>, and [EXIT_FAILURE] of <cstdlib>. *)
Definition SQLITE_OK : Z := 0.
Definition SQLITE_ROW : Z := 100.
Definition SQLITE_DONE : Z := 101.
Definition SQLITE_INTEGER : Z := 1.
Definition SQLITE_FLOAT : Z := 2.
Definition SQLITE_TEXT : Z := 3.
Definition SQLITE_BLOB : Z := 4.
Definition SQLITE_NULL : Z := 5.
Definition EXIT_FAILURE : Z := 1.

(** Integer conversions the program performs implicitly:
    [std::size_t] to [int] (the length arguments of [sqlite3_prepare_v2] and
    [sqlite3_bind_text]) and [int] to [std::size_t] (the result of
    [sqlite3_column_bytes]).  [int] is 32 bits, [std::size_t] 64. *)
Definition int_of_size_t (n : Z) : Z :=
  (n + 2 ^ 31) mod 2 ^ 32 - 2 ^ 31.
Definition size_t_of_int (n : Z) : Z := n mod 2 ^ 64.

(** [std::ostream << int64_t]: decimal digits, a minus sign when negative. *)
Definition show_int64 (n : Z) : string := NilZero.string_of_int (Z.to_int n).

(** The line feed written by ["\n"] and [std::endl]. *)
Definition endl : string := String (ascii_of_nat 10) EmptyString.

(** ** How a computation ends *)

Inductive outcome (A : Type) : Type :=
| Returned (a : A)          (* the function returned [a] *)
| Thrown (what : string)    (* [throw what;] is propagating *)
| Exited (status : Z)       (* [std::exit (status)] was called *)
| Terminated                (* [std::terminate ()] *)
| Undefined                 (* undefined behaviour *)
| OutOfFuel.                (* the loop budget of the model ran out *)
Arguments Returned {A} a.
Arguments Thrown {A} what.
Arguments Exited {A} status.
Arguments Terminated {A}.
Arguments Undefined {A}.
Arguments OutOfFuel {A}.

(** An outcome that is not a normal return carries no value, so it can be
    seen at any result type. *)
Definition abrupt {A B : Type} (o : outcome A) : outcome B :=
  match o with
  | Returned _ => Terminated
  | Thrown e => Thrown e
  | Exited c => Exited c
  | Terminated => Terminated
  | Undefined => Undefined
  | OutOfFuel => OutOfFuel
  end.

(** ** not_null *)

Module NotNull.

(** [not_null<T>] for a raw pointer type [T]: the one data member. *)
Record not_null : Type := Build { ptr_ : pointer }.

(** [void Ensure (bool flag) const { if (not flag) throw "Ensure failed"; }] *)
Definition Ensure (flag : bool) : outcome unit :=
  if negb flag then Thrown "Ensure failed" else Returned tt.

(** [void ensure_invariant () const { Ensure (ptr_ != nullptr); }] *)
Definition ensure_invariant (this : not_null) : outcome unit :=
  Ensure (negb (ptr_ this =? nullptr)).

(** [not_null (T t) : ptr_ (t) { ensure_invariant (); }] *)
Definition ctor (t : pointer) : outcome not_null :=
  let this := Build t in
  match ensure_invariant this with
  | Returned _ => Returned this
  | o => abrupt o
  end.

(** [not_null& operator= (const T& t)] *)
Definition assign (this : not_null) (t : pointer) : outcome not_null :=
  let this := Build t in
  match ensure_invariant this with
  | Returned _ => Returned this
  | o => abrupt o
  end.

(** [T get () const { return ptr_; }] *)
Definition get (this : not_null) : pointer := ptr_ this.

(** [operator T () const { return get (); }] *)
Definition to_T (this : not_null) : pointer := get this.

(** [T operator-> () const { return get (); }] *)
Definition arrow (this : not_null) : pointer := get this.

(** [bool operator== (const T& rhs) const { return ptr_ == rhs; }] *)
Definition eq (this : not_null) (rhs : pointer) : bool := ptr_ this =? rhs.

(** [bool operator!= (const T& rhs) const { return not (this->operator== (rhs)); }] *)
Definition ne (this : not_null) (rhs : pointer) : bool := negb (eq this rhs).

(** What a constructor call is given: an expression of type [T], of type
    [std::nullptr_t] (the literal [nullptr]) or of type [int] (the
    literal [0] among them). *)
Inductive argument : Type :=
| of_T (t : pointer)
| of_nullptr_t
| of_int (n : Z).

(** Overload resolution picks [not_null (T)], [not_null (std::nullptr_t)]
    or [not_null (int)] by the type of the argument.  The last two are
    [= delete]: choosing them makes the program ill-formed, so nothing is
    ever evaluated.  The first one is evaluated when the program runs. *)
Inductive construction : Type :=
| ill_formed
| evaluated (result : outcome not_null).

Definition construct (a : argument) : construction :=
  match a with
  | of_T t => evaluated (ctor t)
  | of_nullptr_t => ill_formed
  | of_int _ => ill_formed
  end.

(** The argument denotes a null pointer. *)
Definition denotes_null (a : argument) : bool :=
  match a with
  | of_T t => t =? nullptr
  | of_nullptr_t => true
  | of_int n => n =? 0
  end.

End NotNull.
Import NotNull.

(** ** The engine *)

(** One constructor per entry point of sqlite3 the program calls, with the
    arguments it passes; [read_string first n] stands for
    [std::string (first, n)], which reads [n] bytes behind [first]. *)
Inductive call : Type :=
| call_open (name : string)
| call_close (db : pointer)
| call_errmsg (db : pointer)
| call_exec (db : pointer) (sql : string)
| call_free
| call_prepare_v2 (db : pointer) (sql : string) (nByte : Z)
| call_finalize (stmt : pointer)
| call_step (stmt : pointer)
| call_reset (stmt : pointer)
| call_column_count (stmt : pointer)
| call_column_type (stmt : pointer) (i : Z)
| call_column_int64 (stmt : pointer) (i : Z)
| call_column_double (stmt : pointer) (i : Z)
| call_column_text (stmt : pointer) (i : Z)
| call_column_bytes (stmt : pointer) (i : Z)
| call_bind_int64 (stmt : pointer) (index : Z) (value : Z)
| call_bind_double (stmt : pointer) (index : Z) (value : double)
| call_bind_text (stmt : pointer) (index : Z) (value : string) (n : Z)
| read_string (first : pointer) (n : Z).

(** The engine as the program sees it.  [S] is whatever state the engine
    keeps; each entry point maps the arguments and the state to the values
    it hands back and the next state.  Out-parameters are part of the
    result: [sqlite3_open] gives the code and [*ppDb], [sqlite3_exec] the
    code and the text of [*errmsg], [sqlite3_prepare_v2] the code and
    [*ppStmt].  [chars_at first n] is the [n] bytes of engine memory behind
    [first], or [None] if they cannot be read. *)
Record sqlite3_api (S : Type) : Type := {
  sqlite3_open : string -> S -> (Z * pointer) * S;
  sqlite3_close : pointer -> S -> Z * S;
  sqlite3_errmsg : pointer -> S -> string * S;
  sqlite3_exec : pointer -> string -> S -> (Z * string) * S;
  sqlite3_free : S -> unit * S;
  sqlite3_prepare_v2 : pointer -> string -> Z -> S -> (Z * pointer) * S;
  sqlite3_finalize : pointer -> S -> Z * S;
  sqlite3_step : pointer -> S -> Z * S;
  sqlite3_reset : pointer -> S -> Z * S;
  sqlite3_column_count : pointer -> S -> Z * S;
  sqlite3_column_type : pointer -> Z -> S -> Z * S;
  sqlite3_column_int64 : pointer -> Z -> S -> Z * S;
  sqlite3_column_double : pointer -> Z -> S -> double * S;
  sqlite3_column_text : pointer -> Z -> S -> pointer * S;
  sqlite3_column_bytes : pointer -> Z -> S -> Z * S;
  sqlite3_bind_int64 : pointer -> Z -> Z -> S -> Z * S;
  sqlite3_bind_double : pointer -> Z -> double -> S -> Z * S;
  sqlite3_bind_text : pointer -> Z -> string -> Z -> S -> Z * S;
  chars_at : pointer -> Z -> S -> option string
}.
Arguments sqlite3_open {S}.
Arguments sqlite3_close {S}.
Arguments sqlite3_errmsg {S}.
Arguments sqlite3_exec {S}.
Arguments sqlite3_free {S}.
Arguments sqlite3_prepare_v2 {S}.
Arguments sqlite3_finalize {S}.
Arguments sqlite3_step {S}.
Arguments sqlite3_reset {S}.
Arguments sqlite3_column_count {S}.
Arguments sqlite3_column_type {S}.
Arguments sqlite3_column_int64 {S}.
Arguments sqlite3_column_double {S}.
Arguments sqlite3_column_text {S}.
Arguments sqlite3_column_bytes {S}.
Arguments sqlite3_bind_int64 {S}.
Arguments sqlite3_bind_double {S}.
Arguments sqlite3_bind_text {S}.
Arguments chars_at {S}.

(** ** The world and the monad *)

Record world (S : Type) : Type := World {
  engine : S;
  calls : list call;
  cout : string;
  cerr : string
}.
Arguments World {S}.
Arguments engine {S}.
Arguments calls {S}.
Arguments cout {S}.
Arguments cerr {S}.

Definition M (S A : Type) : Type := world S -> outcome A * world S.

Definition ret {S A : Type} (a : A) : M S A := fun w => (Returned a, w).

Definition bind {S A B : Type} (m : M S A) (k : A -> M S B) : M S B :=
  fun w =>
    match m w with
    | (Returned a, w') => k a w'
    | (o, w') => (abrupt o, w')
    end.

Declare Scope cpp_scope.
Delimit Scope cpp_scope with cpp.
Notation "x <- m ;; k" := (bind m (fun x => k))
  (at level 100, m at next level, right associativity) : cpp_scope.
Notation "m ;; k" := (bind m (fun _ => k))
  (at level 100, right associativity) : cpp_scope.
Open Scope cpp_scope.

(** An outcome computed without touching the world. *)
Definition lift {S A : Type} (o : outcome A) : M S A := fun w => (o, w).

(** [throw what;], [std::exit (status);], undefined behaviour, no budget. *)
Definition throw {S A : Type} (what : string) : M S A := lift (Thrown what).
Definition std_exit {S A : Type} (status : Z) : M S A := lift (Exited status).
Definition undefined {S A : Type} : M S A := lift Undefined.
Definition out_of_fuel {S A : Type} : M S A := lift OutOfFuel.

(** [std::cout << s] and [std::cerr << s]. *)
Definition print {S : Type} (s : string) : M S unit :=
  fun w => (Returned tt, World (engine w) (calls w) (cout w +++ s) (cerr w)).
Definition eprint {S : Type} (s : string) : M S unit :=
  fun w => (Returned tt, World (engine w) (calls w) (cout w) (cerr w +++ s)).

(** A call into the engine: it is appended to [calls], and the engine
    moves to its next state. *)
Definition invoke {S R : Type} (c : call) (f : S -> R * S) : M S R :=
  fun w =>
    let r := f (engine w) in
    (Returned (fst r), World (snd r) (calls w ++ [c]) (cout w) (cerr w)).

(** A destructor is [noexcept]: an exception leaving it ends the program. *)
Definition destructor {S : Type} (d : M S unit) : M S unit :=
  fun w =>
    match d w with
    | (Thrown _, w') => (Terminated, w')
    | r => r
    end.

(** [body] runs in the scope of an object whose destructor is [cleanup]:
    the destructor runs when [body] returns and when an exception leaves
    it (stack unwinding), and not when the process exits inside [body]. *)
Definition finally {S A : Type} (body : M S A) (cleanup : M S unit) : M S A :=
  fun w =>
    match body w with
    | (Returned a, w1) =>
        match destructor cleanup w1 with
        | (Returned _, w2) => (Returned a, w2)
        | (o, w2) => (abrupt o, w2)
        end
    | (Thrown e, w1) =>
        match destructor cleanup w1 with
        | (Returned _, w2) => (Thrown e, w2)
        | (o, w2) => (abrupt o, w2)
        end
    | r => r
    end.

(** As [finally], for an object whose destruction on the normal path is
    written out after [body] (its state changes, or it is moved from): the
    destructor runs only when an exception leaves [body]. *)
Definition unwinding {S A : Type} (body : M S A) (cleanup : M S unit) : M S A :=
  fun w =>
    match body w with
    | (Thrown e, w1) =>
        match destructor cleanup w1 with
        | (Returned _, w2) => (Thrown e, w2)
        | (o, w2) => (abrupt o, w2)
        end
    | r => r
    end.

(** As [finally], when nobody up the stack catches the exception: the
    program built with g++ then ends in [std::terminate] where it throws,
    the stack is not unwound and no destructor runs; the destructor runs
    only when [body] returns. *)
Definition on_return {S A : Type} (body : M S A) (cleanup : M S unit) : M S A :=
  fun w =>
    match body w with
    | (Returned a, w1) =>
        match destructor cleanup w1 with
        | (Returned _, w2) => (Returned a, w2)
        | (o, w2) => (abrupt o, w2)
        end
    | r => r
    end.

(** [~unique_ptr ()]: the deleter is called on a pointer that is not null;
    what the deleter returns is dropped. *)
Definition unique_ptr_dtor {S : Type}
    (c : pointer -> call) (deleter : pointer -> S -> Z * S) (p : pointer) : M S unit :=
  if p =? nullptr then ret tt else (_ <- invoke (c p) (deleter p) ;; ret tt).

(** ** The program *)

Section Program.

Context {S : Type}.

(** The engine the program is linked with. *)
Variable api : sqlite3_api S.

(** [std::ostream << double], as the C++ library formats it. *)
Variable show_double : double -> string.

Local Abbreviation M := (M S).

(** [using database = std::unique_ptr<sqlite3, decltype (&sqlite3_close)>]
    and [using statement = std::unique_ptr<sqlite3_stmt, ...>]: the owned
    pointer; the deleter is named where the owner goes out of scope. *)
Definition database := pointer.
Definition statement := pointer.

(** [database open_database (const char* name)] *)
Definition open_database (name : string) : M database :=
  r <- invoke (call_open name) (sqlite3_open api name) ;;
  let rc := fst r in
  let db := snd r in
  if negb (rc =? SQLITE_OK) then
    msg <- invoke (call_errmsg db) (sqlite3_errmsg api db) ;;
    eprint ("Unable to open database '" +++ name +++ "': " +++ msg) ;;
    invoke (call_close db) (sqlite3_close api db) ;;
    std_exit EXIT_FAILURE
  else ret db.

(** [void execute (not_null<sqlite3*> db, const char* sql)] *)
Definition execute (db : not_null) (sql : string) : M unit :=
  r <- invoke (call_exec (to_T db) sql) (sqlite3_exec api (to_T db) sql) ;;
  let rc := fst r in
  let errmsg := snd r in
  if negb (rc =? SQLITE_OK) then
    eprint ("Unable to execute '" +++ sql +++ "': " +++ errmsg) ;;
    invoke call_free (sqlite3_free api) ;;
    std_exit EXIT_FAILURE
  else ret tt.

(** [statement create_statement (not_null<sqlite3*> db, const std::string& sql)] *)
Definition create_statement (db : not_null) (sql : string) : M statement :=
  let nByte := int_of_size_t (Z.of_nat (String.length sql)) in
  r <- invoke (call_prepare_v2 (to_T db) sql nByte)
              (sqlite3_prepare_v2 api (to_T db) sql nByte) ;;
  let rc := fst r in
  let stmt := snd r in
  if negb (rc =? SQLITE_OK) then
    msg <- invoke (call_errmsg (to_T db)) (sqlite3_errmsg api (to_T db)) ;;
    eprint ("Unable to create statement '" +++ sql +++ "': " +++ msg) ;;
    std_exit EXIT_FAILURE
  else ret stmt.

(** [using stmt_callback = std::function<bool (not_null<sqlite3_stmt*>)>];
    [None] is the empty function object [stmt_callback{}]. *)
Definition stmt_callback := option (not_null -> M bool).

(** The lambda [step_next] of [run]. *)
Definition step_next (stmt : not_null) (callback : stmt_callback) (rc : Z) : M bool :=
  if (rc =? SQLITE_OK) || (rc =? SQLITE_DONE) then ret false
  else if rc =? SQLITE_ROW then
    match callback with
    | Some f => f stmt
    | None => ret false
    end
  else ret false.

(** [while (step_next (sqlite3_step (stmt))) ;] *)
Fixpoint run_loop (fuel : nat) (stmt : not_null) (callback : stmt_callback) : M unit :=
  match fuel with
  | O => out_of_fuel
  | Datatypes.S fuel' =>
      rc <- invoke (call_step (to_T stmt)) (sqlite3_step api (to_T stmt)) ;;
      again <- step_next stmt callback rc ;;
      if again then run_loop fuel' stmt callback else ret tt
  end.

(** The destructor of the [reset_guard] of [run]. *)
Definition reset_guard_dtor (stmt : not_null) : M unit :=
  unique_ptr_dtor call_reset (sqlite3_reset api) (get stmt).

(** [void run (not_null<sqlite3_stmt*> stmt, stmt_callback callback = stmt_callback{})] *)
Definition run (fuel : nat) (stmt : not_null) (callback : stmt_callback) : M unit :=
  finally (run_loop fuel stmt callback) (reset_guard_dtor stmt).

(** [std::string (first, s)]: the [s] bytes behind [first]. *)
Definition std_string (first : pointer) (s : Z) : M string :=
  fun w =>
    let w' := World (engine w) (calls w ++ [read_string first s]) (cout w) (cerr w) in
    match chars_at api first s (engine w) with
    | Some text => (Returned text, w')
    | None => (Undefined, w')
    end.

(** [sqlite3_column_text] and [sqlite3_column_bytes] on column [i], then
    [s > 0 ? std::string (first, s) : std::string{}]: the text three
    functions of the program read in this same way. *)
Definition column_string (stmt : not_null) (i : Z) : M string :=
  first <- invoke (call_column_text (to_T stmt) i) (sqlite3_column_text api (to_T stmt) i) ;;
  n <- invoke (call_column_bytes (to_T stmt) i) (sqlite3_column_bytes api (to_T stmt) i) ;;
  let s := size_t_of_int n in
  if 0 <? s then std_string first s else ret "".

(** The body of the loop of [dump_current_row], for column [i]. *)
Definition dump_column (stmt : not_null) (i : Z) : M unit :=
  columntype <- invoke (call_column_type (to_T stmt) i)
                       (sqlite3_column_type api (to_T stmt) i) ;;
  (if columntype =? SQLITE_NULL then print "<NULL>"
   else if columntype =? SQLITE_INTEGER then
     v <- invoke (call_column_int64 (to_T stmt) i)
                 (sqlite3_column_int64 api (to_T stmt) i) ;;
     print (show_int64 v)
   else if columntype =? SQLITE_FLOAT then
     v <- invoke (call_column_double (to_T stmt) i)
                 (sqlite3_column_double api (to_T stmt) i) ;;
     print (show_double v)
   else if columntype =? SQLITE_TEXT then
     text <- column_string stmt i ;;
     print ("'" +++ text +++ "'")
   else if columntype =? SQLITE_BLOB then print "<BLO000B>"
   else ret tt) ;;
  print "|".

(** [for (int i = 0 ; i < sqlite3_column_count (stmt); ++i) { ... }],
    from column [i] on. *)
Fixpoint dump_columns (fuel : nat) (stmt : not_null) (i : Z) : M unit :=
  match fuel with
  | O => out_of_fuel
  | Datatypes.S fuel' =>
      count <- invoke (call_column_count (to_T stmt))
                      (sqlite3_column_count api (to_T stmt)) ;;
      if i <? count then
        dump_column stmt i ;;
        dump_columns fuel' stmt (i + 1)
      else ret tt
  end.

(** [bool dump_current_row (not_null<sqlite3_stmt*> stmt)] *)
Definition dump_current_row (fuel : nat) (stmt : not_null) : M bool :=
  dump_columns fuel stmt 0 ;;
  print endl ;;
  ret true.

(** [bool print_thing (not_null<sqlite3_stmt*> stmt)]; the three lambdas
    are run from left to right. *)
Definition print_thing (stmt : not_null) : M bool :=
  id <- invoke (call_column_int64 (to_T stmt) 0) (sqlite3_column_int64 api (to_T stmt) 0) ;;
  name <- column_string stmt 1 ;;
  value <- invoke (call_column_double (to_T stmt) 2)
                  (sqlite3_column_double api (to_T stmt) 2) ;;
  print (show_int64 id +++ ", " +++ name +++ ", " +++ show_double value +++ endl) ;;
  ret true.


(** [std::string value (not_null<sqlite3_stmt*> stmt)] *)
Definition value (stmt : not_null) : M string :=
  column_string stmt 1.

(** [void parameter (not_null<sqlite3_stmt*> stmt, int index, int64_t value)] *)
Definition parameter_int64 (stmt : not_null) (index : Z) (value : Z) : M unit :=
  rc <- invoke (call_bind_int64 (to_T stmt) index value)
               (sqlite3_bind_int64 api (to_T stmt) index value) ;;
  if negb (rc =? SQLITE_OK) then throw "TODO" else ret tt.

(** [void parameter (not_null<sqlite3_stmt*> stmt, int index, double value)] *)
Definition parameter_double (stmt : not_null) (index : Z) (value : double) : M unit :=
  rc <- invoke (call_bind_double (to_T stmt) index value)
               (sqlite3_bind_double api (to_T stmt) index value) ;;
  if negb (rc =? SQLITE_OK) then throw "TODO" else ret tt.

(** [void parameter (not_null<sqlite3_stmt*> stmt, int index, const std::string& value)] *)
Definition parameter_string (stmt : not_null) (index : Z) (value : string) : M unit :=
  let n := int_of_size_t (Z.of_nat (String.length value)) in
  rc <- invoke (call_bind_text (get stmt) index value n)
               (sqlite3_bind_text api (get stmt) index value n) ;;
  if negb (rc =? SQLITE_OK) then throw "TODO" else ret tt.

(** [struct Transaction]: the one data member. *)
Record Transaction : Type := { _db : pointer }.

(** [Transaction (not_null<sqlite3*> db) : _db{db} { execute (_db, "BEGIN TRANSACTION;"); }] *)
Definition Transaction_ctor (db : not_null) : M Transaction :=
  let this := {| _db := to_T db |} in
  nn <- lift (NotNull.ctor (_db this)) ;;
  execute nn "BEGIN TRANSACTION;" ;;
  ret this.

(** [~Transaction () { if (_db) execute (_db, "ROLLBACK TRANSACTION;"); }] *)
Definition Transaction_dtor (this : Transaction) : M unit :=
  destructor
    (if negb (_db this =? nullptr) then
       nn <- lift (NotNull.ctor (_db this)) ;;
       execute nn "ROLLBACK TRANSACTION;"
     else ret tt).

(** [void commit () { if (_db) execute (_db, "COMMIT TRANSACTION;"); _db = nullptr; }];
    the object after the call is the result. *)
Definition commit (this : Transaction) : M Transaction :=
  (if negb (_db this =? nullptr) then
     nn <- lift (NotNull.ctor (_db this)) ;;
     execute nn "COMMIT TRANSACTION;"
   else ret tt) ;;
  ret {| _db := nullptr |}.

(** [Transaction (Transaction&&) = default;]: the new object; moving a raw
    pointer copies it, the source keeps its [_db]. *)
Definition Transaction_move (other : Transaction) : Transaction :=
  {| _db := _db other |}.

(** [commit ()] called [n] times in a row. *)
Fixpoint commits (n : nat) (this : Transaction) : M Transaction :=
  match n with
  | O => ret this
  | Datatypes.S n' => this' <- commit this ;; commits n' this'
  end.

(** The SQL text of the program. *)
Definition create_table_things : string :=
  "CREATE TABLE things" +++ endl +++
  "  (id INTEGER PRIMARY KEY, name TEXT,value REAL); ".
Definition insert_into_things : string :=
  "INSERT INTO things VALUES(@id,@name,@value);".
Definition select_things : string := "SELECT * FROM things;".

(** [statement create_things2 (not_null<sqlite3*> db)].  The locals are
    [transaction] and [insert_thing]; an exception leaving the function
    destroys them in reverse order, [insert_thing] is moved from on the
    normal path, and [commit] is the last call that can end the scope. *)
Definition create_things2 (fuel : nat) (db : not_null) : M statement :=
  transaction <- Transaction_ctor db ;;
  insert_thing <-
    unwinding
      (execute db create_table_things ;;
       insert_thing <- create_statement db insert_into_things ;;
       unwinding
         (s <- lift (NotNull.ctor insert_thing) ;;
          parameter_int64 s 1 0 ;;
          s <- lift (NotNull.ctor insert_thing) ;;
          parameter_string s 2 "" ;;
          s <- lift (NotNull.ctor insert_thing) ;;
          parameter_double s 3 0%float ;;
          s <- lift (NotNull.ctor insert_thing) ;;
          run fuel s None ;;
          ret insert_thing)
         (unique_ptr_dtor call_finalize (sqlite3_finalize api) insert_thing))
      (Transaction_dtor transaction) ;;
  transaction <- commit transaction ;;
  Transaction_dtor transaction ;;
  ret insert_thing.

(** The block of [main1] that holds the second [Transaction]. *)
Definition add_first_thing (fuel : nat) (db : database) (add_thing : statement) : M unit :=
  d <- lift (NotNull.ctor db) ;;
  transaction <- Transaction_ctor d ;;
  unwinding
    (s <- lift (NotNull.ctor add_thing) ;;
     parameter_int64 s 1 1 ;;
     s <- lift (NotNull.ctor add_thing) ;;
     parameter_string s 2 "first" ;;
     s <- lift (NotNull.ctor add_thing) ;;
     parameter_string s 3 "second" ;;
     s <- lift (NotNull.ctor add_thing) ;;
     run fuel s None)
    (Transaction_dtor transaction) ;;
  transaction <- commit transaction ;;
  Transaction_dtor transaction.

(** The two [run] calls that end [main1]. *)
Definition query_things (fuel : nat) (stmt : statement) : M unit :=
  s <- lift (NotNull.ctor stmt) ;;
  run fuel s (Some (dump_current_row fuel)) ;;
  s <- lift (NotNull.ctor stmt) ;;
  run fuel s (Some print_thing).

(** [void main1 ()]: [db], [add_thing] and [stmt] are destroyed in reverse
    order when the function is left. *)
Definition main1 (fuel : nat) : M unit :=
  db <- open_database ":memory:" ;;
  finally
    (d <- lift (NotNull.ctor db) ;;
     add_thing <- create_things2 fuel d ;;
     finally
       (add_first_thing fuel db add_thing ;;
        d <- lift (NotNull.ctor db) ;;
        stmt <- create_statement d select_things ;;
        finally
          (query_things fuel stmt)
          (unique_ptr_dtor call_finalize (sqlite3_finalize api) stmt))
       (unique_ptr_dtor call_finalize (sqlite3_finalize api) add_thing))
    (unique_ptr_dtor call_close (sqlite3_close api) db).

(** The same functions as [main] runs them: the program has no handler,
    so an exception thrown below [main] is not caught, the stack is not
    unwound and the guards act only where their scope is left by
    returning. *)
Definition run_unhandled (fuel : nat) (stmt : not_null) (callback : stmt_callback) : M unit :=
  on_return (run_loop fuel stmt callback) (reset_guard_dtor stmt).

Definition create_things2_unhandled (fuel : nat) (db : not_null) : M statement :=
  transaction <- Transaction_ctor db ;;
  execute db create_table_things ;;
  insert_thing <- create_statement db insert_into_things ;;
  s <- lift (NotNull.ctor insert_thing) ;;
  parameter_int64 s 1 0 ;;
  s <- lift (NotNull.ctor insert_thing) ;;
  parameter_string s 2 "" ;;
  s <- lift (NotNull.ctor insert_thing) ;;
  parameter_double s 3 0%float ;;
  s <- lift (NotNull.ctor insert_thing) ;;
  run_unhandled fuel s None ;;
  transaction <- commit transaction ;;
  Transaction_dtor transaction ;;
  ret insert_thing.

Definition add_first_thing_unhandled (fuel : nat) (db : database) (add_thing : statement)
  : M unit :=
  d <- lift (NotNull.ctor db) ;;
  transaction <- Transaction_ctor d ;;
  s <- lift (NotNull.ctor add_thing) ;;
  parameter_int64 s 1 1 ;;
  s <- lift (NotNull.ctor add_thing) ;;
  parameter_string s 2 "first" ;;
  s <- lift (NotNull.ctor add_thing) ;;
  parameter_string s 3 "second" ;;
  s <- lift (NotNull.ctor add_thing) ;;
  run_unhandled fuel s None ;;
  transaction <- commit transaction ;;
  Transaction_dtor transaction.

Definition query_things_unhandled (fuel : nat) (stmt : statement) : M unit :=
  s <- lift (NotNull.ctor stmt) ;;
  run_unhandled fuel s (Some (dump_current_row fuel)) ;;
  s <- lift (NotNull.ctor stmt) ;;
  run_unhandled fuel s (Some print_thing).

Definition main1_unhandled (fuel : nat) : M unit :=
  db <- open_database ":memory:" ;;
  on_return
    (d <- lift (NotNull.ctor db) ;;
     add_thing <- create_things2_unhandled fuel d ;;
     on_return
       (add_first_thing_unhandled fuel db add_thing ;;
        d <- lift (NotNull.ctor db) ;;
        stmt <- create_statement d select_things ;;
        on_return
          (query_things_unhandled fuel stmt)
          (unique_ptr_dtor call_finalize (sqlite3_finalize api) stmt))
       (unique_ptr_dtor call_finalize (sqlite3_finalize api) add_thing))
    (unique_ptr_dtor call_close (sqlite3_close api) db).

(** [int main () { main1 (); }]: [main1] with no handler above it; an
    exception that reaches [main] has ended the program in
    [std::terminate] where it was thrown; falling off the end returns 0. *)
Definition main (fuel : nat) : M Z :=
  fun w =>
    match main1_unhandled fuel w with
    | (Returned _, w') => (Returned 0, w')
    | (Thrown _, w') => (Terminated, w')
    | (o, w') => (abrupt o, w')
    end.

End Program.

(** ** Row iteration, in the words of the specification *)

Section RowIteration.

Context {S : Type}.
Variable api : sqlite3_api S.

(** "Row iteration stops when the underlying engine reports completion and
    forwards each row to a caller-supplied callback until it returns false
    or rows are exhausted": from world [w], the statement is stepped; on
    [SQLITE_DONE] or [SQLITE_OK] the iteration is over; on [SQLITE_ROW] the
    callback gets the statement, and its answer decides whether the
    iteration goes on from the world it leaves. *)
Inductive row_iteration (stmt : not_null) (callback : not_null -> M S bool)
  : world S -> world S -> Prop :=
| rows_exhausted : forall w rc w1,
    invoke (call_step (get stmt)) (sqlite3_step api (get stmt)) w = (Returned rc, w1) ->
    rc = SQLITE_DONE \/ rc = SQLITE_OK ->
    row_iteration stmt callback w w1
| callback_stops : forall w w1 w2,
    invoke (call_step (get stmt)) (sqlite3_step api (get stmt)) w = (Returned SQLITE_ROW, w1) ->
    callback stmt w1 = (Returned false, w2) ->
    row_iteration stmt callback w w2
| callback_continues : forall w w1 w2 w3,
    invoke (call_step (get stmt)) (sqlite3_step api (get stmt)) w = (Returned SQLITE_ROW, w1) ->
    callback stmt w1 = (Returned true, w2) ->
    row_iteration stmt callback w2 w3 ->
    row_iteration stmt callback w w3.

End RowIteration.

(** ** Engines to run the program against *)

Module Mock.

(** A table of things that remembers how many rows it holds ([stored]) and
    how many of them the select statement has yet to report ([cursor]).
    Row 0 is [(0, '', 0.0)]; row 1 is [(1, 'first', 'second')]. *)
Record state : Type := { stored : nat; cursor : nat }.

Definition db_handle : pointer := 4096.
Definition insert_handle : pointer := 8192.
Definition select_handle : pointer := 8200.
Definition text_base : pointer := 12288.

(** The index of the row the select statement is on. *)
Definition row (s : state) : Z := Z.of_nat (stored s) - Z.of_nat (cursor s) - 1.

Definition text_of (s : state) (i : Z) : string :=
  if (row s =? 1) && (i =? 1) then "first"
  else if (row s =? 1) && (i =? 2) then "second"
  else "".

Definition step (stmt : pointer) (s : state) : Z * state :=
  if stmt =? select_handle then
    match cursor s with
    | O => (SQLITE_DONE, s)
    | Datatypes.S n => (SQLITE_ROW, {| stored := stored s; cursor := n |})
    end
  else (SQLITE_DONE, {| stored := Datatypes.S (stored s); cursor := cursor s |}).

Definition rewind (stmt : pointer) (s : state) : Z * state :=
  if stmt =? select_handle
  then (SQLITE_OK, {| stored := stored s; cursor := stored s |})
  else (SQLITE_OK, s).

Definition prepare (sql : string) (s : state) : (Z * pointer) * state :=
  if String.eqb sql "SELECT * FROM things;"
  then ((SQLITE_OK, select_handle), {| stored := stored s; cursor := stored s |})
  else ((SQLITE_OK, insert_handle), s).

Definition column_type (i : Z) (s : state) : Z :=
  if i =? 0 then SQLITE_INTEGER
  else if i =? 1 then SQLITE_TEXT
  else if i =? 2 then (if row s =? 1 then SQLITE_TEXT else SQLITE_FLOAT)
  else SQLITE_NULL.

Definition memory (first : pointer) (n : Z) : option string :=
  if (first =? text_base + 16 + 1) && (n =? 5) then Some "first"
  else if (first =? text_base + 16 + 2) && (n =? 6) then Some "second"
  else None.

Definition things : sqlite3_api state := {|
  sqlite3_open := fun _ s => ((SQLITE_OK, db_handle), s);
  sqlite3_close := fun _ s => (SQLITE_OK, s);
  sqlite3_errmsg := fun _ s => ("not an error", s);
  sqlite3_exec := fun _ _ s => ((SQLITE_OK, ""), s);
  sqlite3_free := fun s => (tt, s);
  sqlite3_prepare_v2 := fun _ sql _ s => prepare sql s;
  sqlite3_finalize := fun _ s => (SQLITE_OK, s);
  sqlite3_step := step;
  sqlite3_reset := rewind;
  sqlite3_column_count := fun _ s => (3, s);
  sqlite3_column_type := fun _ i s => (column_type i s, s);
  sqlite3_column_int64 := fun _ i s => (if i =? 0 then row s else 0, s);
  sqlite3_column_double := fun _ _ s => (0%float, s);
  sqlite3_column_text := fun _ i s => (text_base + 16 * row s + i, s);
  sqlite3_column_bytes := fun _ i s => (Z.of_nat (String.length (text_of s i)), s);
  sqlite3_bind_int64 := fun _ _ _ s => (SQLITE_OK, s);
  sqlite3_bind_double := fun _ _ _ s => (SQLITE_OK, s);
  sqlite3_bind_text := fun _ _ _ _ s => (SQLITE_OK, s);
  chars_at := fun first n _ => memory first n
|}.

(** An engine that refuses everything: no file can be opened
    ([SQLITE_CANTOPEN], 14), no SQL is accepted ([SQLITE_ERROR], 1), no
    parameter index is in range ([SQLITE_RANGE], 25), no statement can be
    stepped ([SQLITE_MISUSE], 21). *)
Definition refusing : sqlite3_api unit := {|
  sqlite3_open := fun _ s => ((14, 4096), s);
  sqlite3_close := fun _ s => (SQLITE_OK, s);
  sqlite3_errmsg := fun _ s => ("unable to open database file", s);
  sqlite3_exec := fun _ _ s => ((1, "SQL logic error"), s);
  sqlite3_free := fun s => (tt, s);
  sqlite3_prepare_v2 := fun _ _ _ s => ((1, nullptr), s);
  sqlite3_finalize := fun _ s => (SQLITE_OK, s);
  sqlite3_step := fun _ s => (21, s);
  sqlite3_reset := fun _ s => (21, s);
  sqlite3_column_count := fun _ s => (0, s);
  sqlite3_column_type := fun _ _ s => (SQLITE_NULL, s);
  sqlite3_column_int64 := fun _ _ s => (0, s);
  sqlite3_column_double := fun _ _ s => (0%float, s);
  sqlite3_column_text := fun _ _ s => (nullptr, s);
  sqlite3_column_bytes := fun _ _ s => (0, s);
  sqlite3_bind_int64 := fun _ _ _ s => (25, s);
  sqlite3_bind_double := fun _ _ _ s => (25, s);
  sqlite3_bind_text := fun _ _ _ _ s => (25, s);
  chars_at := fun _ _ _ => None
|}.

(** [std::ostream << double] for the one value the table engine holds. *)
Definition show_double (x : double) : string := "0".

(** A world in which nothing has happened yet. *)
Definition fresh {S : Type} (s : S) : world S := World s [] "" "".

Definition empty_table : world state := fresh {| stored := 0; cursor := 0 |}.
Definition two_rows : world state := fresh {| stored := 2; cursor := 2 |}.

End Mock.

(** ** Worlds after a call *)

Section After.

Context {S : Type}.
Variable api : sqlite3_api S.

(** The world after [sqlite3_step (stmt)] and after [sqlite3_reset (stmt)]. *)
Definition after_step (stmt : pointer) (w : world S) : world S :=
  World (snd (sqlite3_step api stmt (engine w))) (calls w ++ [call_step stmt])
        (cout w) (cerr w).

Definition after_reset (stmt : pointer) (w : world S) : world S :=
  World (snd (sqlite3_reset api stmt (engine w))) (calls w ++ [call_reset stmt])
        (cout w) (cerr w).

(** [w'] comes after [w] by the calls [cs], with nothing written. *)
Definition quietly (w : world S) (cs : list call) (w' : world S) : Prop :=
  calls w' = calls w ++ cs /\ cout w' = cout w /\ cerr w' = cerr w.

(** The calls [main1] makes before it runs the select statement, on the
    database [db], with [ins] the insert and [sel] the select statement. *)
Definition calls_of_setup (db ins sel : pointer) : list call :=
  [ call_open ":memory:";
    call_exec db "BEGIN TRANSACTION;";
    call_exec db create_table_things;
    call_prepare_v2 db insert_into_things 44;
    call_bind_int64 ins 1 0;
    call_bind_text ins 2 "" 0;
    call_bind_double ins 3 0%float;
    call_step ins;
    call_reset ins;
    call_exec db "COMMIT TRANSACTION;";
    call_exec db "BEGIN TRANSACTION;";
    call_bind_int64 ins 1 1;
    call_bind_text ins 2 "first" 5;
    call_bind_text ins 3 "second" 6;
    call_step ins;
    call_reset ins;
    call_exec db "COMMIT TRANSACTION;";
    call_prepare_v2 db select_things 21 ].

(** The calls that destroy [stmt], [add_thing] and [db] at the end of [main1]. *)
Definition calls_of_teardown (db ins sel : pointer) : list call :=
  [ call_finalize sel; call_finalize ins; call_close db ].

End After.

(** ** What the engine does during one run of the program *)

(** A column of the current row, as the accessors show it: its type code
    and what [sqlite3_column_int64], [sqlite3_column_double] and
    [sqlite3_column_text] with [sqlite3_column_bytes] make of it. *)
Record cell : Type := {
  sql_type : Z;
  as_int64 : Z;
  as_double : double;
  as_text : string
}.

(** What [dump_current_row] is to write for a column, and for a row. *)
Definition dumped_cell (show_double : double -> string) (c : cell) : string :=
  if sql_type c =? SQLITE_NULL then "<NULL>"
  else if sql_type c =? SQLITE_INTEGER then show_int64 (as_int64 c)
  else if sql_type c =? SQLITE_FLOAT then show_double (as_double c)
  else if sql_type c =? SQLITE_TEXT then "'" +++ as_text c +++ "'"
  else if sql_type c =? SQLITE_BLOB then "<BLO000B>"
  else "".

Definition dumped (show_double : double -> string) (r : list cell) : string :=
  String.concat "" (map (fun c => dumped_cell show_double c +++ "|") r) +++ endl.

(** What [print_thing] is to write for a row of the table [things]. *)
Definition printed (show_double : double -> string) (r : list cell) : string :=
  match r with
  | id :: name :: value :: _ =>
      show_int64 (as_int64 id) +++ ", " +++ as_text name +++ ", "
        +++ show_double (as_double value) +++ endl
  | _ => ""
  end.

(** From [w] to [w'] the text [out] went to [std::cout], nothing to
    [std::cerr], and the engine is in the state it was in. *)
Definition wrote {S : Type} (w : world S) (out : string) (w' : world S) : Prop :=
  engine w' = engine w /\ cout w' = cout w +++ out /\ cerr w' = cerr w.

Section OneRun.

Context {S : Type}.
Variable api : sqlite3_api S.

(** In state [s] the statement [stmt] is on the row [r]: the accessors
    answer with the cells of [r] and leave the state as it is; a text can
    be read where [sqlite3_column_text] points, and is shorter than 2^31
    bytes. *)
Record presents (stmt : pointer) (s : S) (r : list cell) : Prop := {
  presents_count :
    sqlite3_column_count api stmt s = (Z.of_nat (List.length r), s);
  presents_type : forall i c, nth_error r i = Some c ->
    sqlite3_column_type api stmt (Z.of_nat i) s = (sql_type c, s);
  presents_int64 : forall i c, nth_error r i = Some c ->
    sqlite3_column_int64 api stmt (Z.of_nat i) s = (as_int64 c, s);
  presents_double : forall i c, nth_error r i = Some c ->
    sqlite3_column_double api stmt (Z.of_nat i) s = (as_double c, s);
  presents_text : forall i c, nth_error r i = Some c ->
    exists first,
      sqlite3_column_text api stmt (Z.of_nat i) s = (first, s) /\
      sqlite3_column_bytes api stmt (Z.of_nat i) s =
        (Z.of_nat (String.length (as_text c)), s) /\
      Z.of_nat (String.length (as_text c)) < 2 ^ 31 /\
      (as_text c <> "" ->
       chars_at api first (Z.of_nat (String.length (as_text c))) s = Some (as_text c))
}.

(** Stepped from state [s], the statement [stmt] reports the rows [rows],
    one at each step, and then something that is not a row (completion,
    if all is well), which leaves it in state [s']. *)
Inductive reports (stmt : pointer) : list (list cell) -> S -> S -> Prop :=
| reports_end : forall s,
    fst (sqlite3_step api stmt s) <> SQLITE_ROW ->
    reports stmt [] s (snd (sqlite3_step api stmt s))
| reports_row : forall s r rows s',
    fst (sqlite3_step api stmt s) = SQLITE_ROW ->
    presents stmt (snd (sqlite3_step api stmt s)) r ->
    reports stmt rows (snd (sqlite3_step api stmt s)) s' ->
    reports stmt (r :: rows) s s'.

(** The engine, in state [s], takes the call [c] and moves to [s']:
    [sqlite3_exec] and the binds answer [SQLITE_OK]; what
    [sqlite3_step] and [sqlite3_reset] answer does not matter. *)
Definition accepted (c : call) (s s' : S) : Prop :=
  match c with
  | call_exec db sql =>
      fst (fst (sqlite3_exec api db sql s)) = SQLITE_OK /\
      s' = snd (sqlite3_exec api db sql s)
  | call_bind_int64 stmt index value =>
      fst (sqlite3_bind_int64 api stmt index value s) = SQLITE_OK /\
      s' = snd (sqlite3_bind_int64 api stmt index value s)
  | call_bind_double stmt index value =>
      fst (sqlite3_bind_double api stmt index value s) = SQLITE_OK /\
      s' = snd (sqlite3_bind_double api stmt index value s)
  | call_bind_text stmt index value n =>
      fst (sqlite3_bind_text api stmt index value n s) = SQLITE_OK /\
      s' = snd (sqlite3_bind_text api stmt index value n s)
  | call_step stmt => s' = snd (sqlite3_step api stmt s)
  | call_reset stmt => s' = snd (sqlite3_reset api stmt s)
  | _ => False
  end.

(** The same for the calls [cs], one after the other. *)
Fixpoint accepts (cs : list call) (s s' : S) : Prop :=
  match cs with
  | [] => s' = s
  | c :: cs' => exists s1, accepted c s s1 /\ accepts cs' s1 s'
  end.

(** The engine lets [main1] get as far as the query: from state [s0] it
    opens the database and gives the handle [db], takes the calls of
    [create_things2] and of the second transaction, prepares the insert
    statement as [ins] and the select statement as [sel], which leaves it
    in state [s5]; no handle is null. *)
Record sets_up (s0 : S) (db ins sel : pointer) (s5 : S) : Prop := {
  set_up_db : db <> nullptr;
  set_up_ins : ins <> nullptr;
  set_up_sel : sel <> nullptr;
  set_up_calls : exists s1 s2 s3 s4 s4',
    sqlite3_open api ":memory:" s0 = ((SQLITE_OK, db), s1) /\
    accepts [ call_exec db "BEGIN TRANSACTION;";
              call_exec db create_table_things ] s1 s2 /\
    sqlite3_prepare_v2 api db insert_into_things 44 s2 = ((SQLITE_OK, ins), s3) /\
    accepts [ call_bind_int64 ins 1 0;
              call_bind_text ins 2 "" 0;
              call_bind_double ins 3 0%float;
              call_step ins;
              call_reset ins;
              call_exec db "COMMIT TRANSACTION;" ] s3 s4 /\
    accepts [ call_exec db "BEGIN TRANSACTION;";
              call_bind_int64 ins 1 1;
              call_bind_text ins 2 "first" 5;
              call_bind_text ins 3 "second" 6;
              call_step ins;
              call_reset ins;
              call_exec db "COMMIT TRANSACTION;" ] s4 s4' /\
    sqlite3_prepare_v2 api db select_things 21 s4' = ((SQLITE_OK, sel), s5)
}.

(** The calls of the two runs of the select statement that are not reads
    of the current row: a step for each of the [n] rows and one more, and
    the reset; the same for the [n'] rows of the second run. *)
Definition steps_of_query (sel : pointer) (n n' : nat) : list call :=
  repeat (call_step sel) (Datatypes.S n) ++ [call_reset sel] ++
  repeat (call_step sel) (Datatypes.S n') ++ [call_reset sel].

End OneRun.

(** The two rows of the table engine, as its accessors show them. *)
Definition identity_thing : list cell :=
  [ {| sql_type := SQLITE_INTEGER; as_int64 := 0; as_double := 0%float; as_text := "" |};
    {| sql_type := SQLITE_TEXT; as_int64 := 0; as_double := 0%float; as_text := "" |};
    {| sql_type := SQLITE_FLOAT; as_int64 := 0; as_double := 0%float; as_text := "" |} ].

Definition first_thing : list cell :=
  [ {| sql_type := SQLITE_INTEGER; as_int64 := 1; as_double := 0%float; as_text := "" |};
    {| sql_type := SQLITE_TEXT; as_int64 := 0; as_double := 0%float; as_text := "first" |};
    {| sql_type := SQLITE_TEXT; as_int64 := 0; as_double := 0%float; as_text := "second" |} ].

(** ** not_null: assignment and conversion *)

(** [not_null& operator= (const T& t) { ptr_ = t; ensure_invariant (); return *this; }]:
    how the call ends and the object it leaves; the member is written
    before it is checked. *)
Definition operator_assign (this : not_null) (t : pointer) : outcome unit * not_null :=
  let this' := Build t in
  (ensure_invariant this', this').

(** [not_null& operator= (const not_null<U>& other) { ptr_ = other.get (); return *this; }] *)
Definition operator_assign_from (this other : not_null) : not_null :=
  Build (get other).

(** [not_null (const not_null<U>& other) { *this = other; }]; the member
    starts out with an indeterminate value. *)
Definition converting_ctor (indeterminate : pointer) (other : not_null) : not_null :=
  operator_assign_from (Build indeterminate) other.

(** The objects a program can come to hold without an exception: built by
    the constructor, left by an assignment that returned, or converted
    from such an object. *)
Inductive established : not_null -> Prop :=
| by_ctor : forall t nn,
    NotNull.ctor t = Returned nn -> established nn
| by_assignment : forall this t,
    fst (operator_assign this t) = Returned tt ->
    established (snd (operator_assign this t))
| by_assignment_from : forall this other,
    established other -> established (operator_assign_from this other)
| by_conversion : forall indeterminate other,
    established other -> established (converting_ctor indeterminate other).

(** ** Calls that only read the current row *)

(** [c] is a column accessor on [stmt], or the read of a text it gave. *)
Definition reads_row (stmt : pointer) (c : call) : bool :=
  match c with
  | call_column_count s => s =? stmt
  | call_column_type s _ => s =? stmt
  | call_column_int64 s _ => s =? stmt
  | call_column_double s _ => s =? stmt
  | call_column_text s _ => s =? stmt
  | call_column_bytes s _ => s =? stmt
  | read_string _ _ => true
  | _ => false
  end.

(** [m] only adds calls that satisfy [ok], however it ends. *)
Definition adds_only {S : Type} (ok : call -> bool) {A : Type} (m : M S A) : Prop :=
  forall w, exists cs, calls (snd (m w)) = calls w ++ cs /\ forallb ok cs = true.

(** ** Engines with faults *)

Module Faulty.

(** What goes wrong: [sqlite3_open] hands back a null handle with
    [SQLITE_OK]; the SQL texts [sqlite3_exec] refuses ([SQLITE_ERROR], 1);
    the parameter indexes no bind accepts ([SQLITE_RANGE], 25). *)
Record faults : Type := {
  null_handle : bool;
  refused_sql : string -> bool;
  refused_index : Z -> bool
}.

Definition bind_code (f : faults) (index : Z) : Z :=
  if refused_index f index then 25 else SQLITE_OK.

(** An engine without a table: every statement is done at its first step. *)
Definition engine (f : faults) : sqlite3_api unit := {|
  sqlite3_open := fun _ s => ((SQLITE_OK, if null_handle f then nullptr else 4096), s);
  sqlite3_close := fun _ s => (SQLITE_OK, s);
  sqlite3_errmsg := fun _ s => ("not an error", s);
  sqlite3_exec := fun _ sql s =>
    (if refused_sql f sql then (1, "SQL logic error") else (SQLITE_OK, ""), s);
  sqlite3_free := fun s => (tt, s);
  sqlite3_prepare_v2 := fun _ _ _ s => ((SQLITE_OK, 8192), s);
  sqlite3_finalize := fun _ s => (SQLITE_OK, s);
  sqlite3_step := fun _ s => (SQLITE_DONE, s);
  sqlite3_reset := fun _ s => (SQLITE_OK, s);
  sqlite3_column_count := fun _ s => (0, s);
  sqlite3_column_type := fun _ _ s => (SQLITE_NULL, s);
  sqlite3_column_int64 := fun _ _ s => (0, s);
  sqlite3_column_double := fun _ _ s => (0%float, s);
  sqlite3_column_text := fun _ _ s => (nullptr, s);
  sqlite3_column_bytes := fun _ _ s => (0, s);
  sqlite3_bind_int64 := fun _ index _ s => (bind_code f index, s);
  sqlite3_bind_double := fun _ index _ s => (bind_code f index, s);
  sqlite3_bind_text := fun _ index _ _ s => (bind_code f index, s);
  chars_at := fun _ _ _ => None
|}.

(** Open gives a null handle. *)
Definition no_handle : faults :=
  {| null_handle := true; refused_sql := fun _ => false; refused_index := fun _ => false |}.

(** The statement has two parameters only: index 3 is out of range. *)
Definition two_parameters : faults :=
  {| null_handle := false; refused_sql := fun _ => false;
     refused_index := fun index => 2 <? index |}.

(** No parameter can be bound. *)
Definition no_parameters : faults :=
  {| null_handle := false; refused_sql := fun _ => false;
     refused_index := fun _ => true |}.


End Faulty.

(** ** An engine that keeps what is bound *)

Module Store.

(** What a parameter or a column holds. *)
Inductive datum : Type :=
| Null
| Integer (i : Z)
| Real (r : double)
| Text (t : string).

(** The parameters bound to the insert statement, by index; the rows of
    the table [things], oldest first; the row the select statement is on,
    if it is on one. *)
Record state : Type := {
  bound : Z -> datum;
  table : list (list datum);
  position : option nat
}.

Definition db_handle : pointer := 4096.
Definition insert_handle : pointer := 8192.
Definition select_handle : pointer := 8200.
Definition text_base : pointer := 12288.

Definition SQLITE_MISUSE : Z := 21.
Definition SQLITE_RANGE : Z := 25.

(** The bytes of [value] up to its first zero byte. *)
Fixpoint c_str (value : string) : string :=
  match value with
  | EmptyString => EmptyString
  | String c rest => if Ascii.eqb c Ascii.zero then EmptyString else String c (c_str rest)
  end.

(** The text [sqlite3_bind_text (stmt, index, value, n, SQLITE_TRANSIENT)]
    copies: the first [n] bytes of [value], or, if [n] is negative, the
    bytes up to the first zero byte. *)
Definition taken (value : string) (n : Z) : string :=
  if n <? 0 then c_str value else substring 0 (Z.to_nat n) value.

(** The insert statement has the parameters 1, 2 and 3. *)
Definition bind_parameter (stmt : pointer) (index : Z) (v : datum) (s : state) : Z * state :=
  if (stmt =? insert_handle) && (1 <=? index) && (index <=? 3)
  then (SQLITE_OK, {| bound := fun i => if i =? index then v else bound s i;
                      table := table s;
                      position := position s |})
  else (SQLITE_RANGE, s).

(** A step of the insert statement adds the row of what is bound; a step
    of the select statement goes to the next row, if there is one. *)
Definition step (stmt : pointer) (s : state) : Z * state :=
  if stmt =? insert_handle then
    (SQLITE_DONE, {| bound := bound s;
                     table := table s ++ [[bound s 1; bound s 2; bound s 3]];
                     position := position s |})
  else if stmt =? select_handle then
    let next := match position s with Some r => Datatypes.S r | None => O end in
    match nth_error (table s) next with
    | Some _ => (SQLITE_ROW, {| bound := bound s; table := table s; position := Some next |})
    | None => (SQLITE_DONE, {| bound := bound s; table := table s; position := None |})
    end
  else (SQLITE_MISUSE, s).

(** A reset leaves the bindings as they are. *)
Definition rewind (stmt : pointer) (s : state) : Z * state :=
  if stmt =? select_handle
  then (SQLITE_OK, {| bound := bound s; table := table s; position := None |})
  else (SQLITE_OK, s).

Definition prepare (sql : string) (s : state) : (Z * pointer) * state :=
  if String.eqb sql "SELECT * FROM things;"
  then ((SQLITE_OK, select_handle), s)
  else ((SQLITE_OK, insert_handle), s).

(** Column [i] of the row the select statement is on. *)
Definition column (i : Z) (s : state) : datum :=
  match position s with
  | Some r =>
      match nth_error (table s) r with
      | Some row => if i <? 0 then Null else nth (Z.to_nat i) row Null
      | None => Null
      end
  | None => Null
  end.

Definition column_type (d : datum) : Z :=
  match d with
  | Null => SQLITE_NULL
  | Integer _ => SQLITE_INTEGER
  | Real _ => SQLITE_FLOAT
  | Text _ => SQLITE_TEXT
  end.

(** What the accessors make of a column; one of another type is
    answered with 0, 0.0 or no text. *)
Definition column_int64 (d : datum) : Z :=
  match d with Integer i => i | _ => 0 end.

Definition column_double (d : datum) : double :=
  match d with Real r => r | _ => 0%float end.

Definition column_text (d : datum) : string :=
  match d with Text t => t | _ => EmptyString end.

(** The text of column [i] is at [text_base + i]. *)
Definition memory (first : pointer) (n : Z) (s : state) : option string :=
  let t := column_text (column (first - text_base) s) in
  if (0 <=? n) && (n <=? Z.of_nat (String.length t))
  then Some (substring 0 (Z.to_nat n) t)
  else None.

Definition things : sqlite3_api state := {|
  sqlite3_open := fun _ s => ((SQLITE_OK, db_handle), s);
  sqlite3_close := fun _ s => (SQLITE_OK, s);
  sqlite3_errmsg := fun _ s => ("not an error", s);
  sqlite3_exec := fun _ _ s => ((SQLITE_OK, EmptyString), s);
  sqlite3_free := fun s => (tt, s);
  sqlite3_prepare_v2 := fun _ sql _ s => prepare sql s;
  sqlite3_finalize := fun _ s => (SQLITE_OK, s);
  sqlite3_step := step;
  sqlite3_reset := rewind;
  sqlite3_column_count := fun _ s => (3, s);
  sqlite3_column_type := fun _ i s => (column_type (column i s), s);
  sqlite3_column_int64 := fun _ i s => (column_int64 (column i s), s);
  sqlite3_column_double := fun _ i s => (column_double (column i s), s);
  sqlite3_column_text := fun _ i s => (text_base + i, s);
  sqlite3_column_bytes := fun _ i s =>
    (Z.of_nat (String.length (column_text (column i s))), s);
  sqlite3_bind_int64 := fun stmt index value s => bind_parameter stmt index (Integer value) s;
  sqlite3_bind_double := fun stmt index value s => bind_parameter stmt index (Real value) s;
  sqlite3_bind_text := fun stmt index value n s => bind_parameter stmt index (Text (taken value n)) s;
  chars_at := memory
|}.



End Store.

(** [s], doubled [n] times: a text of 2^n times the bytes of [s]. *)
Fixpoint doubled (n : nat) (s : string) : string :=
  match n with
  | O => s
  | Datatypes.S n' => doubled n' (s +++ s)
  end.

Section RoundTrip.

Context {S : Type}.
Variable api : sqlite3_api S.



End RoundTrip.

(** ** not_null: construction and forwarding *)

Lemma ctor_spec (t : pointer) :
  NotNull.ctor t = if t =? nullptr then Thrown "Ensure failed" else Returned (Build t).
Proof.
  unfold NotNull.ctor, ensure_invariant, Ensure; simpl.
  destruct (t =? nullptr); reflexivity.
Qed.

Lemma ctor_returned (t : pointer) (nn : not_null) :
  NotNull.ctor t = Returned nn -> t <> nullptr /\ nn = Build t.
Proof.
  rewrite ctor_spec. destruct (Z.eqb_spec t nullptr) as [E | E]; intro H.
  - discriminate H.
  - injection H as <-. split; [exact E | reflexivity].
Qed.

Lemma ctor_not_null (t : pointer) :
  t <> nullptr -> NotNull.ctor t = Returned (Build t).
Proof.
  intro H. rewrite ctor_spec.
  destruct (Z.eqb_spec t nullptr) as [E | E]; [contradiction | reflexivity].
Qed.

(** C6: a not_null that was successfully constructed from a pointer [p]
    forwards every operation to [p]: [get ()], the conversion to [T] and
    [operator->] give [p], and [==] / [!=] with a pointer [q] compare [p]
    with [q]. *)
Theorem not_null_forwards (p q : pointer) (nn : not_null) :
  NotNull.ctor p = Returned nn ->
  get nn = p /\ to_T nn = p /\ arrow nn = p /\
  NotNull.eq nn q = (p =? q) /\ NotNull.ne nn q = negb (p =? q).
Proof.
  intro H. apply ctor_returned in H as [_ ->].
  repeat split; reflexivity.
Qed.

Lemma not_null_forwards_witness :
  NotNull.ctor 4096 = Returned (Build 4096) /\
  get (Build 4096) = 4096 /\ to_T (Build 4096) = 4096 /\ arrow (Build 4096) = 4096 /\
  NotNull.eq (Build 4096) 4100 = (4096 =? 4100) /\
  NotNull.ne (Build 4096) 4100 = negb (4096 =? 4100).
Proof.
  split; [reflexivity | apply (not_null_forwards 4096 4100 (Build 4096)); reflexivity].
Defined.

(** C5, as stated, makes the null check a compile-time assertion.  It is not:
    a null value of type [T] selects the constructor [not_null (T)], which
    is well-formed, and the check rejects it when the program runs, by
    throwing. *)
Lemma null_pointer_is_rejected_at_run_time :
  denotes_null (of_T nullptr) = true /\
  construct (of_T nullptr) = evaluated (Thrown "Ensure failed") /\
  construct (of_T nullptr) <> ill_formed.
Proof.
  repeat split; try reflexivity. discriminate.
Qed.

(** C5, amended: constructing a not_null from a pointer succeeds exactly
    when the pointer is not null; a null pointer value is rejected at run
    time, [ensure_invariant] throwing "Ensure failed"; only construction
    from the literal [nullptr] or from an [int] (the literal [0] among
    them) is rejected when the program is compiled. *)
Theorem not_null_construction (t : pointer) (n : Z) :
  (t <> nullptr -> construct (of_T t) = evaluated (Returned (Build t))) /\
  (t = nullptr -> construct (of_T t) = evaluated (Thrown "Ensure failed")) /\
  (forall nn, construct (of_T t) = evaluated (Returned nn) -> t <> nullptr /\ get nn = t) /\
  construct of_nullptr_t = ill_formed /\
  construct (of_int n) = ill_formed.
Proof.
  unfold construct. repeat split.
  - intro H. now rewrite ctor_not_null.
  - intros ->. reflexivity.
  - injection H as H. apply ctor_returned in H. tauto.
  - injection H as H. apply ctor_returned in H as [_ ->]. reflexivity.
Qed.

Lemma not_null_construction_witness :
  construct (of_T 4096) = evaluated (Returned (Build 4096)) /\
  construct (of_T 0) = evaluated (Thrown "Ensure failed") /\
  construct (of_int 0) = ill_formed.
Proof.
  destruct (not_null_construction 4096 0) as (A & _ & _ & _ & _).
  destruct (not_null_construction 0 0) as (_ & B & _ & _ & C).
  split; [apply A; discriminate | split; [apply B; reflexivity | exact C]].
Defined.

(** ** The transaction guard *)

Ltac unfold_monad :=
  unfold bind, invoke, ret, lift, throw, std_exit, print, eprint;
  cbn [fst snd engine calls cout cerr abrupt].

Section TransactionGuard.

Context {S : Type}.
Variable api : sqlite3_api S.

(** [execute], written out: one [sqlite3_exec]; when it does not answer
    [SQLITE_OK], the message on [std::cerr], [sqlite3_free] and the exit. *)
Lemma execute_unfold (db : not_null) (sql : string) (w : world S) :
  execute api db sql w =
    let r := sqlite3_exec api (get db) sql (engine w) in
    let seen := calls w ++ [call_exec (get db) sql] in
    if fst (fst r) =? SQLITE_OK
    then (Returned tt, World (snd r) seen (cout w) (cerr w))
    else (Exited EXIT_FAILURE,
          World (snd (sqlite3_free api (snd r))) (seen ++ [call_free]) (cout w)
                (cerr w +++ ("Unable to execute '" +++ sql +++ "': " +++ snd (fst r)))).
Proof.
  unfold execute, to_T. unfold_monad.
  destruct (fst (fst (sqlite3_exec api (get db) sql (engine w))) =? SQLITE_OK);
    reflexivity.
Qed.

Lemma execute_issues (db : not_null) (sql : string) (w : world S) :
  exists rest,
    calls (snd (execute api db sql w)) = calls w ++ call_exec (get db) sql :: rest.
Proof.
  rewrite execute_unfold. cbv zeta.
  destruct (fst (fst (sqlite3_exec api (get db) sql (engine w))) =? SQLITE_OK);
    cbn [snd calls].
  - exists []. reflexivity.
  - exists [call_free]. now rewrite <- app_assoc.
Qed.

Lemma execute_never_throws (db : not_null) (sql : string) (w : world S) (e : string) :
  fst (execute api db sql w) <> Thrown e.
Proof.
  rewrite execute_unfold. cbv zeta.
  destruct (fst (fst (sqlite3_exec api (get db) sql (engine w))) =? SQLITE_OK);
    discriminate.
Qed.

(** The destructor of a [Transaction] that holds [p], not null. *)
Lemma Transaction_dtor_holding (p : pointer) (w : world S) :
  p <> nullptr ->
  Transaction_dtor api {| _db := p |} w = execute api (Build p) "ROLLBACK TRANSACTION;" w.
Proof.
  intro H. unfold Transaction_dtor, destructor. cbn [_db].
  destruct (Z.eqb_spec p nullptr) as [E | _]; [contradiction |]. cbn [negb].
  unfold bind at 1. unfold lift. rewrite (ctor_not_null p H).
  pose proof (execute_never_throws (Build p) "ROLLBACK TRANSACTION;" w) as N.
  destruct (execute api (Build p) "ROLLBACK TRANSACTION;" w) as [[] w']; cbn [fst] in N;
    try reflexivity.
  now elim (N what).
Qed.

(** The destructor of a [Transaction] whose [_db] is null does nothing. *)
Lemma Transaction_dtor_released (w : world S) :
  Transaction_dtor api {| _db := nullptr |} w = (Returned tt, w).
Proof. reflexivity. Qed.

(** [commit] returns the released object, if it returns. *)
Lemma commit_returned (t t' : Transaction) (w w' : world S) :
  commit api t w = (Returned t', w') -> t' = {| _db := nullptr |}.
Proof.
  unfold commit. unfold bind at 1.
  destruct ((if negb (_db t =? nullptr)
             then nn <- lift (NotNull.ctor (_db t));; execute api nn "COMMIT TRANSACTION;"
             else ret tt) w) as [[] w1]; cbn [abrupt]; try discriminate.
  unfold ret. now intros [= <- _].
Qed.

Lemma commits_returned (n : nat) (t t' : Transaction) (w w' : world S) :
  commits api (Datatypes.S n) t w = (Returned t', w') -> t' = {| _db := nullptr |}.
Proof.
  revert t w. induction n as [| n IH]; intros t w; cbn [commits]; unfold bind at 1.
  - destruct (commit api t w) as [[] w1] eqn:E; cbn [abrupt]; try discriminate.
    unfold ret. intros [= <- _]. exact (commit_returned _ _ _ _ E).
  - destruct (commit api t w) as [[] w1] eqn:E; cbn [abrupt]; try discriminate.
    apply IH.
Qed.

(** The constructor gives an object that holds the handle it was given. *)
Lemma Transaction_ctor_returned (db : not_null) (t : Transaction) (w w' : world S) :
  Transaction_ctor api db w = (Returned t, w') -> t = {| _db := get db |}.
Proof.
  unfold Transaction_ctor. cbn [_db]. unfold bind at 1.
  destruct (lift (NotNull.ctor (to_T db)) w) as [[] w1]; cbn [abrupt]; try discriminate.
  unfold bind at 1.
  destruct (execute api a "BEGIN TRANSACTION;" w1) as [[] w2]; cbn [abrupt]; try discriminate.
  unfold ret. now intros [= <- _].
Qed.

(** C1: for a [Transaction] constructed on a database handle [p], if
    [commit ()] is never called, destroying the object (or an object
    move-constructed from it) issues [ROLLBACK TRANSACTION;] on [p]; once
    [commit ()] has been called, one or more times, the destructor issues
    nothing and leaves the world as it is. *)
Theorem Transaction_rolls_back_unless_committed
    (p : pointer) (db : not_null) (t : Transaction) (w0 w1 : world S) :
  NotNull.ctor p = Returned db ->
  Transaction_ctor api db w0 = (Returned t, w1) ->
  (forall w, exists rest,
      calls (snd (Transaction_dtor api t w)) =
        calls w ++ call_exec p "ROLLBACK TRANSACTION;" :: rest) /\
  (forall w, exists rest,
      calls (snd (Transaction_dtor api (Transaction_move t) w)) =
        calls w ++ call_exec p "ROLLBACK TRANSACTION;" :: rest) /\
  (forall n t' w w', commits api (Datatypes.S n) t w = (Returned t', w') ->
      forall w2, Transaction_dtor api t' w2 = (Returned tt, w2)).
Proof.
  intros Hdb Hctor.
  apply ctor_returned in Hdb as [Hp ->].
  apply Transaction_ctor_returned in Hctor as ->. cbn [get ptr_].
  split; [| split].
  - intro w. rewrite (Transaction_dtor_holding p w Hp).
    exact (execute_issues (Build p) _ w).
  - intro w. unfold Transaction_move. cbn [_db].
    rewrite (Transaction_dtor_holding p w Hp).
    exact (execute_issues (Build p) _ w).
  - intros n t' w w' Hc w2. apply commits_returned in Hc as ->.
    apply Transaction_dtor_released.
Qed.

End TransactionGuard.

Lemma Transaction_rolls_back_unless_committed_witness :
  let t := {| _db := 4096 |} in
  let begun := snd (Transaction_ctor Mock.things (Build 4096) Mock.empty_table) in
  let committed := snd (commit Mock.things t begun) in
  NotNull.ctor 4096 = Returned (Build 4096) /\
  Transaction_ctor Mock.things (Build 4096) Mock.empty_table = (Returned t, begun) /\
  (exists rest,
      calls (snd (Transaction_dtor Mock.things t begun)) =
        calls begun ++ call_exec 4096 "ROLLBACK TRANSACTION;" :: rest) /\
  commits Mock.things 1 t begun = (Returned {| _db := nullptr |}, committed) /\
  Transaction_dtor Mock.things {| _db := nullptr |} committed = (Returned tt, committed).
Proof.
  intros t begun committed.
  destruct (Transaction_rolls_back_unless_committed Mock.things
              4096 (Build 4096) t Mock.empty_table begun eq_refl eq_refl) as (A & _ & C).
  split; [reflexivity | split; [reflexivity | split; [| split; [reflexivity |]]]].
  - exact (A begun).
  - exact (C 0%nat {| _db := nullptr |} begun committed eq_refl committed).
Defined.

(** What the guard does on the table engine: a rollback when it was not
    committed, nothing after the commit. *)
Example Transaction_on_the_table_engine :
  let t := {| _db := 4096 |} in
  calls (snd (Transaction_dtor Mock.things t Mock.empty_table)) =
    [call_exec 4096 "ROLLBACK TRANSACTION;"] /\
  calls (snd ((t' <- commit Mock.things t ;; Transaction_dtor Mock.things t') Mock.empty_table)) =
    [call_exec 4096 "COMMIT TRANSACTION;"].
Proof. split; reflexivity. Qed.

(** ** What the helpers do when the engine reports an error *)

(** The engine's answer is known not to be [SQLITE_OK]: take the error
    branch of the test on it. *)
Ltac failed_code :=
  match goal with
  | |- context [?rc =? SQLITE_OK] =>
      destruct (Z.eqb_spec rc SQLITE_OK) as [? | _]; [contradiction |]
  end.

Section ErrorHandling.

Context {S : Type}.
Variable api : sqlite3_api S.

Lemma open_database_unfold (name : string) (w : world S) :
  open_database api name w =
    let r := sqlite3_open api name (engine w) in
    let db := snd (fst r) in
    let seen := calls w ++ [call_open name] in
    if fst (fst r) =? SQLITE_OK
    then (Returned db, World (snd r) seen (cout w) (cerr w))
    else
      let m := sqlite3_errmsg api db (snd r) in
      (Exited EXIT_FAILURE,
       World (snd (sqlite3_close api db (snd m)))
             ((seen ++ [call_errmsg db]) ++ [call_close db]) (cout w)
             (cerr w +++ ("Unable to open database '" +++ name +++ "': " +++ fst m))).
Proof.
  unfold open_database. unfold_monad.
  destruct (fst (fst (sqlite3_open api name (engine w))) =? SQLITE_OK); reflexivity.
Qed.

Lemma create_statement_unfold (db : not_null) (sql : string) (w : world S) :
  create_statement api db sql w =
    let nByte := int_of_size_t (Z.of_nat (String.length sql)) in
    let r := sqlite3_prepare_v2 api (get db) sql nByte (engine w) in
    let seen := calls w ++ [call_prepare_v2 (get db) sql nByte] in
    if fst (fst r) =? SQLITE_OK
    then (Returned (snd (fst r)), World (snd r) seen (cout w) (cerr w))
    else
      let m := sqlite3_errmsg api (get db) (snd r) in
      (Exited EXIT_FAILURE,
       World (snd m) (seen ++ [call_errmsg (get db)]) (cout w)
             (cerr w +++ ("Unable to create statement '" +++ sql +++ "': " +++ fst m))).
Proof.
  unfold create_statement, to_T. unfold_monad.
  destruct (fst (fst (sqlite3_prepare_v2 api (get db) sql
              (int_of_size_t (Z.of_nat (String.length sql))) (engine w))) =? SQLITE_OK);
    reflexivity.
Qed.

Lemma parameter_int64_unfold (stmt : not_null) (index value : Z) (w : world S) :
  parameter_int64 api stmt index value w =
    let r := sqlite3_bind_int64 api (get stmt) index value (engine w) in
    (if fst r =? SQLITE_OK then Returned tt else Thrown "TODO",
     World (snd r) (calls w ++ [call_bind_int64 (get stmt) index value]) (cout w) (cerr w)).
Proof.
  unfold parameter_int64, to_T. unfold_monad.
  destruct (fst (sqlite3_bind_int64 api (get stmt) index value (engine w)) =? SQLITE_OK);
    reflexivity.
Qed.

Lemma parameter_double_unfold (stmt : not_null) (index : Z) (value : double) (w : world S) :
  parameter_double api stmt index value w =
    let r := sqlite3_bind_double api (get stmt) index value (engine w) in
    (if fst r =? SQLITE_OK then Returned tt else Thrown "TODO",
     World (snd r) (calls w ++ [call_bind_double (get stmt) index value]) (cout w) (cerr w)).
Proof.
  unfold parameter_double, to_T. unfold_monad.
  destruct (fst (sqlite3_bind_double api (get stmt) index value (engine w)) =? SQLITE_OK);
    reflexivity.
Qed.

Lemma parameter_string_unfold (stmt : not_null) (index : Z) (value : string) (w : world S) :
  parameter_string api stmt index value w =
    let n := int_of_size_t (Z.of_nat (String.length value)) in
    let r := sqlite3_bind_text api (get stmt) index value n (engine w) in
    (if fst r =? SQLITE_OK then Returned tt else Thrown "TODO",
     World (snd r) (calls w ++ [call_bind_text (get stmt) index value n]) (cout w) (cerr w)).
Proof.
  unfold parameter_string. unfold_monad.
  destruct (fst (sqlite3_bind_text api (get stmt) index value
              (int_of_size_t (Z.of_nat (String.length value))) (engine w)) =? SQLITE_OK);
    reflexivity.
Qed.

(** C4, amended: when the engine reports an error, [open_database],
    [execute] and [create_statement] write a message to [std::cerr] (what
    could not be done, on what, and the engine's error text) and exit the
    process with [EXIT_FAILURE]; the three [parameter] overloads write
    nothing and do not exit: they throw the string "TODO". *)
Theorem errors_exit_or_throw :
  (forall name w,
      let r := sqlite3_open api name (engine w) in
      fst (fst r) <> SQLITE_OK ->
      exists w',
        open_database api name w = (Exited EXIT_FAILURE, w') /\
        cerr w' = cerr w +++ ("Unable to open database '" +++ name +++ "': "
                               +++ fst (sqlite3_errmsg api (snd (fst r)) (snd r)))) /\
  (forall db sql w,
      let r := sqlite3_exec api (get db) sql (engine w) in
      fst (fst r) <> SQLITE_OK ->
      exists w',
        execute api db sql w = (Exited EXIT_FAILURE, w') /\
        cerr w' = cerr w +++ ("Unable to execute '" +++ sql +++ "': " +++ snd (fst r))) /\
  (forall db sql w,
      let r := sqlite3_prepare_v2 api (get db) sql
                 (int_of_size_t (Z.of_nat (String.length sql))) (engine w) in
      fst (fst r) <> SQLITE_OK ->
      exists w',
        create_statement api db sql w = (Exited EXIT_FAILURE, w') /\
        cerr w' = cerr w +++ ("Unable to create statement '" +++ sql +++ "': "
                               +++ fst (sqlite3_errmsg api (get db) (snd r)))) /\
  (forall stmt index value w,
      fst (sqlite3_bind_int64 api (get stmt) index value (engine w)) <> SQLITE_OK ->
      exists w',
        parameter_int64 api stmt index value w = (Thrown "TODO", w') /\
        cerr w' = cerr w /\ cout w' = cout w) /\
  (forall stmt index value w,
      fst (sqlite3_bind_double api (get stmt) index value (engine w)) <> SQLITE_OK ->
      exists w',
        parameter_double api stmt index value w = (Thrown "TODO", w') /\
        cerr w' = cerr w /\ cout w' = cout w) /\
  (forall stmt index value w,
      fst (sqlite3_bind_text api (get stmt) index value
             (int_of_size_t (Z.of_nat (String.length value))) (engine w)) <> SQLITE_OK ->
      exists w',
        parameter_string api stmt index value w = (Thrown "TODO", w') /\
        cerr w' = cerr w /\ cout w' = cout w).
Proof.
  repeat apply conj.
  - intros name w r H. subst r. rewrite open_database_unfold. cbv zeta in *.
    failed_code. eexists. split; reflexivity.
  - intros db sql w r H. subst r. rewrite execute_unfold. cbv zeta in *.
    failed_code. eexists. split; reflexivity.
  - intros db sql w r H. subst r. rewrite create_statement_unfold. cbv zeta in *.
    failed_code. eexists. split; reflexivity.
  - intros stmt index value w H. rewrite parameter_int64_unfold. cbv zeta.
    failed_code. eexists. repeat split.
  - intros stmt index value w H. rewrite parameter_double_unfold. cbv zeta.
    failed_code. eexists. repeat split.
  - intros stmt index value w H. rewrite parameter_string_unfold. cbv zeta.
    failed_code. eexists. repeat split.
Qed.

End ErrorHandling.

(** C4, as stated, has every helper print a message and exit when the
    engine reports an error.  [parameter] does neither: bound to index 7 of
    a statement on an engine that answers [SQLITE_RANGE], it throws "TODO",
    and [std::cerr] stays empty. *)
Lemma parameter_throws_without_a_message :
  fst (sqlite3_bind_int64 Mock.refusing 8192 7 42 tt) <> SQLITE_OK /\
  parameter_int64 Mock.refusing (Build 8192) 7 42 (Mock.fresh tt) =
    (Thrown "TODO", World tt [call_bind_int64 8192 7 42] "" "") /\
  (forall status w,
      parameter_int64 Mock.refusing (Build 8192) 7 42 (Mock.fresh tt) <> (Exited status, w)).
Proof.
  split; [discriminate | split; [reflexivity | discriminate]].
Qed.

Lemma errors_exit_or_throw_witness :
  (exists w',
      execute Mock.refusing (Build 4096) "DROP TABLE things;" (Mock.fresh tt) =
        (Exited EXIT_FAILURE, w') /\
      cerr w' = "Unable to execute 'DROP TABLE things;': SQL logic error") /\
  (exists w',
      parameter_string Mock.refusing (Build 8192) 7 "seven" (Mock.fresh tt) =
        (Thrown "TODO", w') /\
      cerr w' = "" /\ cout w' = "").
Proof.
  destruct (errors_exit_or_throw Mock.refusing) as (_ & E & _ & _ & _ & P).
  split.
  - apply (E (Build 4096) "DROP TABLE things;" (Mock.fresh tt)). discriminate.
  - apply (P (Build 8192) 7 "seven" (Mock.fresh tt)). discriminate.
Defined.

(** ** run *)

Section Run.

Context {S : Type}.
Variable api : sqlite3_api S.

Lemma invoke_step (p : pointer) (w : world S) :
  invoke (call_step p) (sqlite3_step api p) w =
    (Returned (fst (sqlite3_step api p (engine w))), after_step api p w).
Proof. reflexivity. Qed.

(** One turn of the loop. *)
Lemma run_loop_unfold (fuel : nat) (stmt : not_null) (callback : stmt_callback) (w : world S) :
  run_loop api (Datatypes.S fuel) stmt callback w =
    match step_next stmt callback (fst (sqlite3_step api (get stmt) (engine w)))
                    (after_step api (get stmt) w) with
    | (Returned true, w2) => run_loop api fuel stmt callback w2
    | (Returned false, w2) => (Returned tt, w2)
    | (o, w2) => (abrupt o, w2)
    end.
Proof.
  cbn [run_loop]. unfold bind at 1. unfold to_T. rewrite invoke_step.
  unfold bind at 1.
  destruct (step_next stmt callback _ _) as [[[] | | | | |] w2]; reflexivity.
Qed.

(** The guard of [run] resets the statement; a not_null is never null. *)
Lemma reset_guard_dtor_unfold (p : pointer) (w : world S) :
  p <> nullptr ->
  destructor (reset_guard_dtor api (Build p)) w = (Returned tt, after_reset api p w).
Proof.
  intro H. unfold destructor, reset_guard_dtor, unique_ptr_dtor. cbn [get ptr_].
  destruct (Z.eqb_spec p nullptr) as [E | _]; [contradiction | reflexivity].
Qed.

Lemma run_unfold (fuel : nat) (p : pointer) (callback : stmt_callback) (w : world S) :
  p <> nullptr ->
  run api fuel (Build p) callback w =
    match run_loop api fuel (Build p) callback w with
    | (Returned a, w1) => (Returned a, after_reset api p w1)
    | (Thrown e, w1) => (Thrown e, after_reset api p w1)
    | r => r
    end.
Proof.
  intro H. unfold run, finally.
  destruct (run_loop api fuel (Build p) callback w) as [[] w1];
    try reflexivity; now rewrite (reset_guard_dtor_unfold p w1 H).
Qed.

(** The loop follows a row iteration to its end, given fuel for it. *)
Lemma run_loop_iterates (stmt : not_null) (f : not_null -> M S bool) (w w' : world S) :
  row_iteration api stmt f w w' ->
  exists n, forall fuel, (n <= fuel)%nat ->
    run_loop api fuel stmt (Some f) w = (Returned tt, w').
Proof.
  induction 1 as [w rc w1 Hs Hrc | w w1 w2 Hs Hf | w w1 w2 w3 Hs Hf _ [n IH]].
  - exists 1%nat. intros [| fuel] Hle; [lia |].
    rewrite run_loop_unfold. rewrite invoke_step in Hs. injection Hs as -> <-.
    unfold step_next, ret.
    destruct Hrc as [-> | ->]; reflexivity.
  - exists 1%nat. intros [| fuel] Hle; [lia |].
    rewrite run_loop_unfold. rewrite invoke_step in Hs. injection Hs as -> <-.
    unfold step_next. cbn [Z.eqb SQLITE_ROW SQLITE_OK SQLITE_DONE orb Pos.eqb].
    now rewrite Hf.
  - exists (Datatypes.S n). intros [| fuel] Hle; [lia |].
    rewrite run_loop_unfold. rewrite invoke_step in Hs. injection Hs as -> <-.
    unfold step_next. cbn [Z.eqb SQLITE_ROW SQLITE_OK SQLITE_DONE orb Pos.eqb].
    rewrite Hf. apply IH. lia.
Qed.

(** C2: [run] steps the statement repeatedly; it stops when the engine
    reports completion ([SQLITE_DONE] or [SQLITE_OK]), and it forwards the
    statement to the caller's callback for each row the engine reports
    ([SQLITE_ROW]), going on until the callback returns false or the rows
    are exhausted: whenever the row iteration of the specification leads
    from [w] to [w'], [run] returns, with enough fuel for the steps, in
    [w'] with the statement reset. *)
Theorem run_iterates_rows
    (p : pointer) (stmt : not_null) (f : not_null -> M S bool) (w w' : world S) :
  NotNull.ctor p = Returned stmt ->
  row_iteration api stmt f w w' ->
  exists n, forall fuel, (n <= fuel)%nat ->
    run api fuel stmt (Some f) w = (Returned tt, after_reset api p w').
Proof.
  intros Hp Hit. apply ctor_returned in Hp as [Hp ->].
  destruct (run_loop_iterates _ _ _ _ Hit) as [n Hn].
  exists n. intros fuel Hle. rewrite (run_unfold fuel p _ w Hp).
  now rewrite (Hn fuel Hle).
Qed.

(** C8: [run] resets the statement before it returns, on every path out of
    the loop: whatever world the loop ends in, by returning or by an
    exception of the callback, [sqlite3_reset] is the call made after it;
    this is so in particular when the callback stops the iteration at the
    first row. *)
Theorem run_resets_before_returning
    (p : pointer) (stmt : not_null) (fuel : nat) (callback : stmt_callback) :
  NotNull.ctor p = Returned stmt ->
  (forall w o w1,
      run_loop api fuel stmt callback w = (o, w1) ->
      o = Returned tt \/ (exists e, o = Thrown e) ->
      run api fuel stmt callback w = (o, after_reset api p w1)) /\
  (forall f w w2,
      fst (sqlite3_step api p (engine w)) = SQLITE_ROW ->
      f stmt (after_step api p w) = (Returned false, w2) ->
      run api (Datatypes.S fuel) stmt (Some f) w = (Returned tt, after_reset api p w2)).
Proof.
  intros Hp. apply ctor_returned in Hp as [Hp ->]. split.
  - intros w o w1 Hloop Ho. rewrite (run_unfold fuel p _ w Hp), Hloop.
    destruct Ho as [-> | [e ->]]; reflexivity.
  - intros f w w2 Hrow Hf. rewrite (run_unfold _ p _ w Hp), run_loop_unfold.
    cbn [get ptr_]. rewrite Hrow. unfold step_next.
    cbn [Z.eqb SQLITE_ROW SQLITE_OK SQLITE_DONE orb Pos.eqb].
    now rewrite Hf.
Qed.

(** C9: with no callback supplied, [run] stops stepping as soon as the
    engine reports the first row: it returns after that one
    [sqlite3_step], followed only by the reset; the rows that remain are
    not stepped through. *)
Theorem run_without_callback_stops_at_first_row
    (p : pointer) (stmt : not_null) (fuel : nat) (w : world S) :
  NotNull.ctor p = Returned stmt ->
  fst (sqlite3_step api p (engine w)) = SQLITE_ROW ->
  run api (Datatypes.S fuel) stmt None w =
    (Returned tt, after_reset api p (after_step api p w)) /\
  calls (snd (run api (Datatypes.S fuel) stmt None w)) =
    calls w ++ [call_step p; call_reset p].
Proof.
  intros Hp Hrow. apply ctor_returned in Hp as [Hp ->].
  assert (E : run api (Datatypes.S fuel) (Build p) None w =
              (Returned tt, after_reset api p (after_step api p w))).
  { rewrite (run_unfold _ p _ w Hp), run_loop_unfold. cbn [get ptr_].
    rewrite Hrow. reflexivity. }
  split; [exact E |]. rewrite E. cbn [snd after_reset after_step calls].
  now rewrite <- app_assoc.
Qed.

End Run.

Lemma run_iterates_rows_witness :
  let stmt := Build Mock.select_handle in
  let f := print_thing Mock.things Mock.show_double in
  let w' := snd (run_loop Mock.things 3 stmt (Some f) Mock.two_rows) in
  NotNull.ctor Mock.select_handle = Returned stmt /\
  cout w' = "0, , 0" +++ endl +++ "1, first, 0" +++ endl /\
  exists n, forall fuel, (n <= fuel)%nat ->
    run Mock.things fuel stmt (Some f) Mock.two_rows =
      (Returned tt, after_reset Mock.things Mock.select_handle w').
Proof.
  intros stmt f w'.
  split; [reflexivity | split; [vm_compute; reflexivity |]].
  apply (run_iterates_rows Mock.things Mock.select_handle stmt f Mock.two_rows w').
  - reflexivity.
  - eapply callback_continues; [cbv; reflexivity | cbv; reflexivity |].
    eapply callback_continues; [cbv; reflexivity | cbv; reflexivity |].
    eapply rows_exhausted; [cbv; reflexivity | left; reflexivity].
Defined.

Lemma run_resets_before_returning_witness :
  let stmt := Build Mock.select_handle in
  let stop := fun _ : not_null => ret (S := Mock.state) false in
  NotNull.ctor Mock.select_handle = Returned stmt /\
  calls (snd (run Mock.things 5 stmt (Some stop) Mock.two_rows)) =
    [call_step Mock.select_handle; call_reset Mock.select_handle] /\
  run Mock.things 5 stmt (Some stop) Mock.two_rows =
    (Returned tt,
     after_reset Mock.things Mock.select_handle
       (after_step Mock.things Mock.select_handle Mock.two_rows)).
Proof.
  intros stmt stop.
  split; [reflexivity | split; [vm_compute; reflexivity |]].
  destruct (run_resets_before_returning Mock.things Mock.select_handle stmt 4 (Some stop)
              eq_refl) as [_ H].
  apply (H stop Mock.two_rows); vm_compute; reflexivity.
Defined.

Lemma run_without_callback_stops_at_first_row_witness :
  let stmt := Build Mock.select_handle in
  NotNull.ctor Mock.select_handle = Returned stmt /\
  fst (sqlite3_step Mock.things Mock.select_handle (engine Mock.two_rows)) = SQLITE_ROW /\
  Mock.cursor (engine (after_step Mock.things Mock.select_handle Mock.two_rows)) = 1%nat /\
  calls (snd (run Mock.things 1 stmt None Mock.two_rows)) =
    calls Mock.two_rows ++ [call_step Mock.select_handle; call_reset Mock.select_handle].
Proof.
  intro stmt.
  split; [reflexivity | split; [reflexivity | split; [reflexivity |]]].
  apply (run_without_callback_stops_at_first_row
           Mock.things Mock.select_handle stmt 0 Mock.two_rows); reflexivity.
Defined.

(** ** Text columns *)

Section Text.

Context {S : Type}.
Variable api : sqlite3_api S.
Variable show_double : double -> string.

(** Reading a text column whose byte count is zero: the two calls into the
    engine, no [std::string (first, s)], and the empty string. *)
Lemma column_string_empty (stmt : not_null) (i : Z) (w : world S) :
  fst (sqlite3_column_bytes api (get stmt) i
         (snd (sqlite3_column_text api (get stmt) i (engine w)))) = 0 ->
  column_string api stmt i w =
    (Returned "",
     World (snd (sqlite3_column_bytes api (get stmt) i
                   (snd (sqlite3_column_text api (get stmt) i (engine w)))))
           (calls w ++ [call_column_text (get stmt) i; call_column_bytes (get stmt) i])
           (cout w) (cerr w)).
Proof.
  intro H. unfold column_string, to_T. unfold_monad. rewrite H.
  cbn. now rewrite <- app_assoc.
Qed.

(** C10: when the byte count of a text column is zero, [value] returns the
    empty string and the [SQLITE_TEXT] branch of [dump_current_row] prints
    the empty string between its quotes, and neither constructs a string
    from the data pointer of the column: the engine is asked for the
    pointer and the count, and nothing is read behind the pointer. *)
Theorem empty_text_is_not_read (stmt : not_null) (i : Z) (w : world S) :
  (fst (sqlite3_column_bytes api (get stmt) 1
          (snd (sqlite3_column_text api (get stmt) 1 (engine w)))) = 0 ->
   exists w',
     value api stmt w = (Returned "", w') /\
     calls w' = calls w ++ [call_column_text (get stmt) 1; call_column_bytes (get stmt) 1]) /\
  (let typed := sqlite3_column_type api (get stmt) i (engine w) in
   fst typed = SQLITE_TEXT ->
   fst (sqlite3_column_bytes api (get stmt) i
          (snd (sqlite3_column_text api (get stmt) i (snd typed)))) = 0 ->
   exists w',
     dump_column api show_double stmt i w = (Returned tt, w') /\
     cout w' = (cout w +++ "''") +++ "|" /\
     calls w' = calls w ++ [call_column_type (get stmt) i;
                            call_column_text (get stmt) i;
                            call_column_bytes (get stmt) i]).
Proof.
  split.
  - intro H. unfold value. rewrite (column_string_empty stmt 1 w H).
    eexists. split; reflexivity.
  - intros typed Ht Hb. subst typed.
    unfold dump_column, to_T. unfold bind at 1. unfold invoke at 1. cbv zeta.
    cbn [fst snd]. rewrite Ht.
    cbn [Z.eqb SQLITE_TEXT SQLITE_NULL SQLITE_INTEGER SQLITE_FLOAT Pos.eqb].
    unfold bind at 1. unfold bind at 1.
    rewrite column_string_empty by exact Hb.
    unfold print. cbn [engine calls cout cerr fst snd].
    eexists. split; [reflexivity |]. cbn [cout calls].
    split; [reflexivity |]. now rewrite <- app_assoc.
Qed.

End Text.

Lemma empty_text_is_not_read_witness :
  let stmt := Build Mock.select_handle in
  let on_row_0 := after_step Mock.things Mock.select_handle Mock.two_rows in
  Mock.memory (fst (sqlite3_column_text Mock.things Mock.select_handle 1 (engine on_row_0))) 0
    = None /\
  (exists w',
      value Mock.things stmt on_row_0 = (Returned "", w') /\
      calls w' = calls on_row_0 ++ [call_column_text Mock.select_handle 1;
                                    call_column_bytes Mock.select_handle 1]) /\
  (exists w',
      dump_column Mock.things Mock.show_double stmt 1 on_row_0 = (Returned tt, w') /\
      cout w' = (cout on_row_0 +++ "''") +++ "|" /\
      calls w' = calls on_row_0 ++ [call_column_type Mock.select_handle 1;
                                    call_column_text Mock.select_handle 1;
                                    call_column_bytes Mock.select_handle 1]).
Proof.
  intros stmt on_row_0.
  destruct (empty_text_is_not_read Mock.things Mock.show_double stmt 1 on_row_0) as [V D].
  split; [reflexivity | split].
  - apply V. reflexivity.
  - apply D; reflexivity.
Defined.

(** ** Following a computation that returns *)

Section Returning.

Context {S : Type}.
Variable api : sqlite3_api S.

Lemma bind_returned {A B : Type} (m : M S A) (k : A -> M S B) w a w1 :
  m w = (Returned a, w1) -> bind m k w = k a w1.
Proof. intro E. unfold bind. now rewrite E. Qed.

Lemma unwinding_returned {A : Type} (body : M S A) (cleanup : M S unit) w a w1 :
  body w = (Returned a, w1) -> unwinding body cleanup w = (Returned a, w1).
Proof. intro E. unfold unwinding. now rewrite E. Qed.

Lemma finally_returned {A : Type} (body : M S A) (cleanup : M S unit) w a w1 w2 :
  body w = (Returned a, w1) -> cleanup w1 = (Returned tt, w2) ->
  finally body cleanup w = (Returned a, w2).
Proof. intros E1 E2. unfold finally, destructor. now rewrite E1, E2. Qed.

Lemma on_return_returned {A : Type} (body : M S A) (cleanup : M S unit) w a w1 w2 :
  body w = (Returned a, w1) -> cleanup w1 = (Returned tt, w2) ->
  on_return body cleanup w = (Returned a, w2).
Proof. intros E1 E2. unfold on_return, destructor. now rewrite E1, E2. Qed.

Lemma lift_ctor (p : pointer) (w : world S) :
  p <> nullptr -> lift (NotNull.ctor p) w = (Returned (Build p), w).
Proof. intro H. unfold lift. now rewrite (ctor_not_null p H). Qed.

Lemma quietly_trans (w w1 w2 : world S) (cs cs' : list call) :
  quietly w cs w1 -> quietly w1 cs' w2 -> quietly w (cs ++ cs') w2.
Proof.
  intros (C1 & O1 & E1) (C2 & O2 & E2). repeat split; try congruence.
  rewrite C2, C1. now rewrite app_assoc.
Qed.

Lemma quietly_invoke {R : Type} (c : call) (f : S -> R * S) (w : world S) :
  quietly w [c] (snd (invoke c f w)).
Proof. repeat split. Qed.


End Returning.

(** What the program prints on the table engine. *)
Example main1_on_the_table_engine :
  let end_ := main1 Mock.things Mock.show_double 5 Mock.empty_table in
  fst end_ = Returned tt /\
  cout (snd end_) =
    "0|''|0|" +++ endl +++ "1|'first'|'second'|" +++ endl +++
    "0, , 0" +++ endl +++ "1, first, 0" +++ endl /\
  cerr (snd end_) = "" /\
  calls (snd
     (run Mock.things 5 (Build Mock.select_handle)
        (Some (dump_current_row Mock.things Mock.show_double 5)) Mock.two_rows)) =
    [ call_step 8200;
      call_column_count 8200; call_column_type 8200 0; call_column_int64 8200 0;
      call_column_count 8200; call_column_type 8200 1;
      call_column_text 8200 1; call_column_bytes 8200 1;
      call_column_count 8200; call_column_type 8200 2; call_column_double 8200 2;
      call_column_count 8200;
      call_step 8200;
      call_column_count 8200; call_column_type 8200 0; call_column_int64 8200 0;
      call_column_count 8200; call_column_type 8200 1;
      call_column_text 8200 1; call_column_bytes 8200 1; read_string 12305 5;
      call_column_count 8200; call_column_type 8200 2;
      call_column_text 8200 2; call_column_bytes 8200 2; read_string 12306 6;
      call_column_count 8200;
      call_step 8200;
      call_reset 8200 ].
Proof. vm_compute. repeat split. Qed.

(** ** not_null: what assignment and conversion keep *)

(** X1: [operator=] stores the pointer before it checks it: assigning
    [nullptr] to a not_null, also to an established one, throws "Ensure failed"
    and leaves the object holding [nullptr]; assigning a pointer that is
    not null returns and leaves the object holding it. *)
Theorem assignment_stores_before_it_checks (t : pointer) (this : not_null) :
  established this ->
  operator_assign this nullptr = (Thrown "Ensure failed", Build nullptr) /\
  get (snd (operator_assign this nullptr)) = nullptr /\
  (t <> nullptr -> operator_assign this t = (Returned tt, Build t)).
Proof.
  intros _. split; [reflexivity | split; [reflexivity |]].
  intro H. unfold operator_assign, ensure_invariant, Ensure. cbn [ptr_].
  destruct (Z.eqb_spec t nullptr); [contradiction | reflexivity].
Qed.

Lemma assignment_stores_before_it_checks_witness :
  established (Build 4096) /\
  operator_assign (Build 4096) nullptr = (Thrown "Ensure failed", Build nullptr) /\
  get (snd (operator_assign (Build 4096) nullptr)) = nullptr /\
  operator_assign (Build 4096) 8192 = (Returned tt, Build 8192).
Proof.
  assert (E : established (Build 4096)) by (apply (by_ctor 4096); reflexivity).
  destruct (assignment_stores_before_it_checks 8192 (Build 4096) E) as (A & B & C).
  split; [exact E | split; [exact A | split; [exact B | apply C; discriminate]]].
Defined.

(** X2: the invariant of not_null: an object built by the constructor,
    left by an assignment that returned, or converted or assigned from
    such an object never holds [nullptr], whatever it held before. *)
Theorem established_is_not_null (nn : not_null) :
  established nn -> get nn <> nullptr.
Proof.
  induction 1 as [t nn H | this t H | this other _ IH | ind other _ IH].
  - apply ctor_returned in H as [H ->]. exact H.
  - unfold operator_assign, ensure_invariant, Ensure in *. cbn [fst snd get ptr_] in *.
    destruct (Z.eqb_spec t nullptr) as [| N]; [discriminate H | exact N].
  - exact IH.
  - exact IH.
Qed.

Lemma established_is_not_null_witness :
  established (converting_ctor 0 (snd (operator_assign (Build 4096) 8192))) /\
  get (converting_ctor 0 (snd (operator_assign (Build 4096) 8192))) <> nullptr.
Proof.
  assert (E : established (converting_ctor 0 (snd (operator_assign (Build 4096) 8192)))).
  { apply by_conversion. apply by_assignment. reflexivity. }
  split; [exact E | exact (established_is_not_null _ E)].
Defined.

(** ** What a helper has done when it returns, and when it does not *)

Section Outcomes.

Context {S : Type}.
Variable api : sqlite3_api S.

Lemma bind_returned_inv {A B : Type} (m : M S A) (k : A -> M S B) w b w' :
  bind m k w = (Returned b, w') ->
  exists a w1, m w = (Returned a, w1) /\ k a w1 = (Returned b, w').
Proof.
  unfold bind. destruct (m w) as [[a | | | | |] w1]; cbn [abrupt]; try discriminate.
  intro H. exists a, w1. split; [reflexivity | exact H].
Qed.

(** X3: a helper returns only when the engine answered [SQLITE_OK]:
    [open_database] and [create_statement] then return the handle the
    engine gave, [execute] and the [parameter] overloads return nothing;
    each has made its one call into the engine and written nothing. *)
Theorem helpers_return_only_on_success :
  (forall name w db w',
      open_database api name w = (Returned db, w') ->
      sqlite3_open api name (engine w) = ((SQLITE_OK, db), engine w') /\
      quietly w [call_open name] w') /\
  (forall db sql w w',
      execute api db sql w = (Returned tt, w') ->
      fst (fst (sqlite3_exec api (get db) sql (engine w))) = SQLITE_OK /\
      quietly w [call_exec (get db) sql] w') /\
  (forall db sql w stmt w',
      create_statement api db sql w = (Returned stmt, w') ->
      sqlite3_prepare_v2 api (get db) sql
        (int_of_size_t (Z.of_nat (String.length sql))) (engine w) =
        ((SQLITE_OK, stmt), engine w') /\
      quietly w [call_prepare_v2 (get db) sql
                   (int_of_size_t (Z.of_nat (String.length sql)))] w') /\
  (forall stmt index value w w',
      parameter_int64 api stmt index value w = (Returned tt, w') ->
      sqlite3_bind_int64 api (get stmt) index value (engine w) = (SQLITE_OK, engine w') /\
      quietly w [call_bind_int64 (get stmt) index value] w') /\
  (forall stmt index value w w',
      parameter_double api stmt index value w = (Returned tt, w') ->
      sqlite3_bind_double api (get stmt) index value (engine w) = (SQLITE_OK, engine w') /\
      quietly w [call_bind_double (get stmt) index value] w') /\
  (forall stmt index value w w',
      parameter_string api stmt index value w = (Returned tt, w') ->
      sqlite3_bind_text api (get stmt) index value
        (int_of_size_t (Z.of_nat (String.length value))) (engine w) =
        (SQLITE_OK, engine w') /\
      quietly w [call_bind_text (get stmt) index value
                   (int_of_size_t (Z.of_nat (String.length value)))] w').
Proof.
  repeat apply conj.
  - intros name w db w'. rewrite open_database_unfold. cbv zeta.
    destruct (sqlite3_open api name (engine w)) as [[rc h] s] eqn:E. cbn [fst snd].
    destruct (Z.eqb_spec rc SQLITE_OK) as [-> |]; [| discriminate].
    intros [= <- <-]. split; [reflexivity | repeat split].
  - intros db sql w w'. rewrite execute_unfold. cbv zeta.
    destruct (Z.eqb_spec (fst (fst (sqlite3_exec api (get db) sql (engine w)))) SQLITE_OK)
      as [E |]; [| discriminate].
    intros [= <-]. split; [exact E | repeat split].
  - intros db sql w stmt w'. rewrite create_statement_unfold. cbv zeta.
    destruct (sqlite3_prepare_v2 api (get db) sql _ (engine w)) as [[rc h] s] eqn:E.
    cbn [fst snd].
    destruct (Z.eqb_spec rc SQLITE_OK) as [-> |]; [| discriminate].
    intros [= <- <-]. split; [reflexivity | repeat split].
  - intros stmt index value w w'. rewrite parameter_int64_unfold. cbv zeta.
    destruct (sqlite3_bind_int64 api (get stmt) index value (engine w)) as [rc s] eqn:E.
    cbn [fst snd].
    destruct (Z.eqb_spec rc SQLITE_OK) as [-> |]; [| discriminate].
    intros [= <-]. split; [reflexivity | repeat split].
  - intros stmt index value w w'. rewrite parameter_double_unfold. cbv zeta.
    destruct (sqlite3_bind_double api (get stmt) index value (engine w)) as [rc s] eqn:E.
    cbn [fst snd].
    destruct (Z.eqb_spec rc SQLITE_OK) as [-> |]; [| discriminate].
    intros [= <-]. split; [reflexivity | repeat split].
  - intros stmt index value w w'. rewrite parameter_string_unfold. cbv zeta.
    destruct (sqlite3_bind_text api (get stmt) index value _ (engine w)) as [rc s] eqn:E.
    cbn [fst snd].
    destruct (Z.eqb_spec rc SQLITE_OK) as [-> |]; [| discriminate].
    intros [= <-]. split; [reflexivity | repeat split].
Qed.

(** X4: on the error paths the helpers give back what the engine
    allocated, once, before the process exits: [open_database] asks for
    the message and then closes the handle [sqlite3_open] left,
    [execute] frees the message [sqlite3_exec] left; [create_statement]
    asks for the message and has nothing to release. *)
Theorem error_paths_release (w : world S) :
  (forall name,
      let r := sqlite3_open api name (engine w) in
      fst (fst r) <> SQLITE_OK ->
      calls (snd (open_database api name w)) =
        calls w ++ [call_open name; call_errmsg (snd (fst r)); call_close (snd (fst r))]) /\
  (forall db sql,
      fst (fst (sqlite3_exec api (get db) sql (engine w))) <> SQLITE_OK ->
      calls (snd (execute api db sql w)) =
        calls w ++ [call_exec (get db) sql; call_free]) /\
  (forall db sql,
      let n := int_of_size_t (Z.of_nat (String.length sql)) in
      fst (fst (sqlite3_prepare_v2 api (get db) sql n (engine w))) <> SQLITE_OK ->
      calls (snd (create_statement api db sql w)) =
        calls w ++ [call_prepare_v2 (get db) sql n; call_errmsg (get db)]).
Proof.
  repeat apply conj.
  - intros name r H. subst r. rewrite open_database_unfold. cbv zeta in *.
    failed_code. cbn [snd calls]. now rewrite <- !app_assoc.
  - intros db sql H. rewrite execute_unfold. cbv zeta.
    failed_code. cbn [snd calls]. now rewrite <- !app_assoc.
  - intros db sql n H. subst n. rewrite create_statement_unfold. cbv zeta.
    failed_code. cbn [snd calls]. now rewrite <- !app_assoc.
Qed.

End Outcomes.

Lemma helpers_return_only_on_success_witness :
  let opened := snd (open_database Mock.things ":memory:" Mock.empty_table) in
  open_database Mock.things ":memory:" Mock.empty_table = (Returned Mock.db_handle, opened) /\
  sqlite3_open Mock.things ":memory:" (engine Mock.empty_table) =
    ((SQLITE_OK, Mock.db_handle), engine opened) /\
  quietly Mock.empty_table [call_open ":memory:"] opened.
Proof.
  intro opened.
  destruct (helpers_return_only_on_success Mock.things) as (O & _).
  split; [reflexivity |].
  exact (O ":memory:" Mock.empty_table Mock.db_handle opened eq_refl).
Defined.

Lemma error_paths_release_witness :
  calls (snd (open_database Mock.refusing "/no/such/file" (Mock.fresh tt))) =
    [call_open "/no/such/file"; call_errmsg 4096; call_close 4096] /\
  calls (snd (execute Mock.refusing (Build 4096) "DROP TABLE things;" (Mock.fresh tt))) =
    [call_exec 4096 "DROP TABLE things;"; call_free].
Proof.
  destruct (error_paths_release Mock.refusing (Mock.fresh tt)) as (O & E & _).
  split.
  - apply (O "/no/such/file"). discriminate.
  - apply (E (Build 4096) "DROP TABLE things;"). discriminate.
Defined.

(** ** More about run *)

Section RunMore.

Context {S : Type}.
Variable api : sqlite3_api S.

(** X5: [run] does not report what went wrong with a step: whenever the
    first [sqlite3_step] answers anything but [SQLITE_ROW], completion or
    an error code alike, [run] returns normally after that one step and
    the reset; the callback is not called and nothing is written. *)
Theorem run_ignores_step_errors
    (p : pointer) (stmt : not_null) (fuel : nat) (callback : stmt_callback) (w : world S) :
  NotNull.ctor p = Returned stmt ->
  fst (sqlite3_step api p (engine w)) <> SQLITE_ROW ->
  run api (Datatypes.S fuel) stmt callback w =
    (Returned tt, after_reset api p (after_step api p w)) /\
  quietly w [call_step p; call_reset p] (snd (run api (Datatypes.S fuel) stmt callback w)).
Proof.
  intros Hp Hrc. apply ctor_returned in Hp as [Hp ->].
  assert (E : run api (Datatypes.S fuel) (Build p) callback w =
              (Returned tt, after_reset api p (after_step api p w))).
  { rewrite (run_unfold api _ p _ w Hp), run_loop_unfold. cbn [get ptr_].
    unfold step_next, ret.
    destruct (_ || _); [reflexivity |].
    destruct (Z.eqb_spec (fst (sqlite3_step api p (engine w))) SQLITE_ROW);
      [contradiction | reflexivity]. }
  split; [exact E |]. rewrite E. repeat split. cbn. now rewrite <- app_assoc.
Qed.

(** The loop returns only along a row iteration, on an engine whose steps
    answer a row or completion. *)
Lemma run_loop_returned_inv (stmt : not_null) (f : not_null -> M S bool) :
  (forall s, fst (sqlite3_step api (get stmt) s) = SQLITE_ROW \/
             fst (sqlite3_step api (get stmt) s) = SQLITE_DONE \/
             fst (sqlite3_step api (get stmt) s) = SQLITE_OK) ->
  forall fuel w w',
    run_loop api fuel stmt (Some f) w = (Returned tt, w') ->
    row_iteration api stmt f w w'.
Proof.
  intros Hsteps. induction fuel as [| fuel IH]; intros w w'; [discriminate |].
  rewrite run_loop_unfold.
  pose proof (invoke_step api (get stmt) w) as Hs.
  destruct (Hsteps (engine w)) as [Hrow | Hdone].
  - rewrite Hrow in *. unfold step_next.
    cbn [Z.eqb SQLITE_ROW SQLITE_OK SQLITE_DONE orb Pos.eqb].
    destruct (f stmt (after_step api (get stmt) w)) as [[[] | | | | |] w2] eqn:Ef;
      cbn [abrupt]; try discriminate.
    + intro H. exact (callback_continues api stmt f w _ w2 w' Hs Ef (IH _ _ H)).
    + intros [= <-]. exact (callback_stops api stmt f w _ w2 Hs Ef).
  - unfold step_next, ret.
    assert (E : (fst (sqlite3_step api (get stmt) (engine w)) =? SQLITE_OK)
                || (fst (sqlite3_step api (get stmt) (engine w)) =? SQLITE_DONE) = true).
    { destruct Hdone as [-> | ->]; reflexivity. }
    rewrite E. intros [= <-].
    refine (rows_exhausted api stmt f w _ _ Hs _). tauto.
Qed.

(** X6: [run] does nothing but the row iteration: on an engine whose
    steps answer a row or completion, whenever [run] returns, the world it
    returns in is the end of a row iteration from where it started,
    followed by the reset. *)
Theorem run_returns_only_by_row_iteration
    (p : pointer) (stmt : not_null) (f : not_null -> M S bool)
    (fuel : nat) (w w2 : world S) :
  NotNull.ctor p = Returned stmt ->
  (forall s, fst (sqlite3_step api p s) = SQLITE_ROW \/
             fst (sqlite3_step api p s) = SQLITE_DONE \/
             fst (sqlite3_step api p s) = SQLITE_OK) ->
  run api fuel stmt (Some f) w = (Returned tt, w2) ->
  exists w', row_iteration api stmt f w w' /\ w2 = after_reset api p w'.
Proof.
  intros Hp Hsteps. apply ctor_returned in Hp as [Hp ->].
  rewrite (run_unfold api fuel p _ w Hp).
  destruct (run_loop api fuel (Build p) (Some f) w) as [[[] | | | | |] w1] eqn:E;
    try discriminate.
  intros [= <-]. exists w1. split; [| reflexivity].
  exact (run_loop_returned_inv (Build p) f Hsteps fuel w w1 E).
Qed.

(** X7: the reset guard does not survive [std::exit]: when the callback
    ends the process at a row, [run] ends there too, and the statement is
    not reset. *)
Theorem run_does_not_reset_on_exit
    (p : pointer) (stmt : not_null) (f : not_null -> M S bool)
    (fuel : nat) (status : Z) (w w2 : world S) :
  NotNull.ctor p = Returned stmt ->
  fst (sqlite3_step api p (engine w)) = SQLITE_ROW ->
  f stmt (after_step api p w) = (Exited status, w2) ->
  run api (Datatypes.S fuel) stmt (Some f) w = (Exited status, w2).
Proof.
  intros Hp Hrow Hf. apply ctor_returned in Hp as [Hp ->].
  rewrite (run_unfold api _ p _ w Hp), run_loop_unfold. cbn [get ptr_].
  rewrite Hrow. unfold step_next.
  cbn [Z.eqb SQLITE_ROW SQLITE_OK SQLITE_DONE orb Pos.eqb].
  now rewrite Hf.
Qed.

End RunMore.

Lemma run_ignores_step_errors_witness :
  fst (sqlite3_step Mock.refusing 8192 tt) = 21 /\
  run Mock.refusing 3 (Build 8192)
      (Some (dump_current_row Mock.refusing Mock.show_double 3)) (Mock.fresh tt) =
    (Returned tt, World tt [call_step 8192; call_reset 8192] "" "").
Proof.
  split; [reflexivity |].
  apply (run_ignores_step_errors Mock.refusing 8192 (Build 8192) 2
           (Some (dump_current_row Mock.refusing Mock.show_double 3)) (Mock.fresh tt)).
  - reflexivity.
  - discriminate.
Defined.

Lemma run_returns_only_by_row_iteration_witness :
  let f := print_thing Mock.things Mock.show_double in
  let w2 := snd (run Mock.things 3 (Build Mock.select_handle) (Some f) Mock.two_rows) in
  exists w',
    row_iteration Mock.things (Build Mock.select_handle) f Mock.two_rows w' /\
    w2 = after_reset Mock.things Mock.select_handle w'.
Proof.
  intros f w2.
  apply (run_returns_only_by_row_iteration Mock.things Mock.select_handle
           (Build Mock.select_handle) f 3 Mock.two_rows w2).
  - reflexivity.
  - intro s. cbn. unfold Mock.step. cbn.
    destruct (Mock.cursor s); [right |]; left; reflexivity.
  - vm_compute. reflexivity.
Defined.

Lemma run_does_not_reset_on_exit_witness :
  let quit := fun _ : not_null => std_exit (S := Mock.state) (A := bool) 3 in
  run Mock.things 2 (Build Mock.select_handle) (Some quit) Mock.two_rows =
    (Exited 3, after_step Mock.things Mock.select_handle Mock.two_rows) /\
  calls (snd (run Mock.things 2 (Build Mock.select_handle) (Some quit) Mock.two_rows)) =
    [call_step Mock.select_handle].
Proof.
  intro quit.
  assert (E : run Mock.things 2 (Build Mock.select_handle) (Some quit) Mock.two_rows =
              (Exited 3, after_step Mock.things Mock.select_handle Mock.two_rows)).
  { apply (run_does_not_reset_on_exit Mock.things Mock.select_handle
             (Build Mock.select_handle) quit 1 3 Mock.two_rows); reflexivity. }
  split; [exact E | rewrite E; reflexivity].
Defined.

(** ** More about the callbacks and the column accessors *)

Section Callbacks.

Context {S : Type}.
Variable api : sqlite3_api S.
Variable show_double : double -> string.

(** X8: [dump_current_row] and [print_thing] never stop an iteration:
    whenever they return, they return true, whatever the engine gave
    for the row. *)
Theorem callbacks_always_continue (fuel : nat) (stmt : not_null) (b : bool) (w w' : world S) :
  (dump_current_row api show_double fuel stmt w = (Returned b, w') -> b = true) /\
  (print_thing api show_double stmt w = (Returned b, w') -> b = true).
Proof.
  split.
  - unfold dump_current_row. intro H.
    apply bind_returned_inv in H as (? & w1 & _ & H).
    apply bind_returned_inv in H as (? & w2 & _ & H).
    unfold ret in H. now injection H as <- _.
  - unfold print_thing. intro H.
    apply bind_returned_inv in H as (? & w1 & _ & H).
    apply bind_returned_inv in H as (? & w2 & _ & H).
    apply bind_returned_inv in H as (? & w3 & _ & H).
    apply bind_returned_inv in H as (? & w4 & _ & H).
    unfold ret in H. now injection H as <- _.
Qed.

Lemma adds_only_bind (ok : call -> bool) {A B : Type} (m : M S A) (k : A -> M S B) :
  adds_only ok m -> (forall a, adds_only ok (k a)) -> adds_only ok (bind m k).
Proof.
  intros Hm Hk w. destruct (Hm w) as (cs1 & E1 & F1). unfold bind.
  destruct (m w) as [[a | | | | |] w1]; cbn [snd abrupt] in *;
    try (exists cs1; split; [exact E1 | exact F1]).
  destruct (Hk a w1) as (cs2 & E2 & F2).
  exists (cs1 ++ cs2). split.
  - now rewrite E2, E1, app_assoc.
  - rewrite forallb_app, F1, F2. reflexivity.
Qed.

Lemma adds_only_ret (ok : call -> bool) {A : Type} (a : A) : adds_only ok (ret (S := S) a).
Proof. intro w. exists []. split; [now rewrite app_nil_r | reflexivity]. Qed.

Lemma adds_only_print (ok : call -> bool) (s : string) : adds_only ok (print (S := S) s).
Proof. intro w. exists []. split; [cbn; now rewrite app_nil_r | reflexivity]. Qed.

Lemma adds_only_invoke (ok : call -> bool) {R : Type} (c : call) (f : S -> R * S) :
  ok c = true -> adds_only ok (invoke c f).
Proof. intros H w. exists [c]. split; [reflexivity | cbn; now rewrite H]. Qed.

Lemma adds_only_std_string (ok : call -> bool) (first : pointer) (n : Z) :
  ok (read_string first n) = true -> adds_only ok (std_string api first n).
Proof.
  intros H w. exists [read_string first n]. unfold std_string.
  destruct (chars_at api first n (engine w)); (split; [reflexivity | cbn; now rewrite H]).
Qed.

Lemma column_string_reads_row (stmt : not_null) (i : Z) :
  adds_only (reads_row (get stmt)) (column_string api stmt i).
Proof.
  unfold column_string, to_T.
  apply adds_only_bind; [apply adds_only_invoke; cbn; apply Z.eqb_refl |]. intro first.
  apply adds_only_bind; [apply adds_only_invoke; cbn; apply Z.eqb_refl |]. intro n.
  cbv zeta. destruct (0 <? size_t_of_int n).
  - now apply adds_only_std_string.
  - apply adds_only_ret.
Qed.

Lemma dump_column_reads_row (stmt : not_null) (i : Z) :
  adds_only (reads_row (get stmt)) (dump_column api show_double stmt i).
Proof.
  unfold dump_column, to_T.
  apply adds_only_bind; [apply adds_only_invoke; cbn; apply Z.eqb_refl |]. intro ty.
  apply adds_only_bind; [| intros _; apply adds_only_print].
  destruct (ty =? SQLITE_NULL); [apply adds_only_print |].
  destruct (ty =? SQLITE_INTEGER).
  { apply adds_only_bind; [apply adds_only_invoke; cbn; apply Z.eqb_refl |].
    intro v. apply adds_only_print. }
  destruct (ty =? SQLITE_FLOAT).
  { apply adds_only_bind; [apply adds_only_invoke; cbn; apply Z.eqb_refl |].
    intro v. apply adds_only_print. }
  destruct (ty =? SQLITE_TEXT).
  { apply adds_only_bind; [apply column_string_reads_row |].
    intro text. apply adds_only_print. }
  destruct (ty =? SQLITE_BLOB); [apply adds_only_print | apply adds_only_ret].
Qed.

Lemma dump_columns_reads_row (stmt : not_null) (fuel : nat) :
  forall i, adds_only (reads_row (get stmt)) (dump_columns api show_double fuel stmt i).
Proof.
  induction fuel as [| fuel IH]; intro i; cbn [dump_columns].
  - intro w. exists []. split; [cbn; now rewrite app_nil_r | reflexivity].
  - unfold to_T.
    apply adds_only_bind; [apply adds_only_invoke; cbn; apply Z.eqb_refl |]. intro count.
    destruct (i <? count); [| apply adds_only_ret].
    apply adds_only_bind; [apply dump_column_reads_row | intros _; apply IH].
Qed.

(** X9: the two callbacks only read the row they are given: however they
    end, each call they add is a column accessor on that statement, or
    the read of a text behind a pointer; they never step, reset, bind,
    prepare, finalize or execute anything. *)
Theorem callbacks_only_read_the_row (fuel : nat) (stmt : not_null) (w : world S) :
  (exists cs,
      calls (snd (dump_current_row api show_double fuel stmt w)) = calls w ++ cs /\
      forallb (reads_row (get stmt)) cs = true) /\
  (exists cs,
      calls (snd (print_thing api show_double stmt w)) = calls w ++ cs /\
      forallb (reads_row (get stmt)) cs = true).
Proof.
  split.
  - revert w. unfold dump_current_row.
    apply adds_only_bind; [apply dump_columns_reads_row |]. intros _.
    apply adds_only_bind; [apply adds_only_print | intros _; apply adds_only_ret].
  - revert w. unfold print_thing, to_T.
    apply adds_only_bind; [apply adds_only_invoke; cbn; apply Z.eqb_refl |]. intro id.
    apply adds_only_bind; [apply column_string_reads_row |]. intro name.
    apply adds_only_bind; [apply adds_only_invoke; cbn; apply Z.eqb_refl |]. intro v.
    apply adds_only_bind; [apply adds_only_print | intros _; apply adds_only_ret].
Qed.

(** X10: a row without columns: when [sqlite3_column_count] gives zero or
    less, [dump_current_row] makes that one call, prints an empty line
    and returns true. *)
Theorem dump_current_row_without_columns (fuel : nat) (stmt : not_null) (w : world S) :
  fst (sqlite3_column_count api (get stmt) (engine w)) <= 0 ->
  exists w',
    dump_current_row api show_double (Datatypes.S fuel) stmt w = (Returned true, w') /\
    cout w' = cout w +++ endl /\
    calls w' = calls w ++ [call_column_count (get stmt)].
Proof.
  intro H.
  assert (E : dump_columns api show_double (Datatypes.S fuel) stmt 0 w =
              (Returned tt,
               snd (invoke (call_column_count (get stmt))
                      (sqlite3_column_count api (get stmt)) w))).
  { cbn [dump_columns]. unfold to_T, bind, invoke. cbv beta zeta. cbn [fst snd].
    destruct (Z.ltb_spec 0 (fst (sqlite3_column_count api (get stmt) (engine w))));
      [lia | reflexivity]. }
  unfold dump_current_row. rewrite (bind_returned _ _ _ _ _ E).
  eexists. split; [reflexivity | split; reflexivity].
Qed.

(** X11: [value] with a byte count that is positive: the text is the
    bytes behind the pointer [sqlite3_column_text] gave, as many as
    [sqlite3_column_bytes] says, read once, whatever the type of the
    column; where these bytes cannot be read (a null pointer among the
    cases) the behaviour is undefined. *)
Theorem value_reads_the_text (stmt : not_null) (w : world S) :
  let first := sqlite3_column_text api (get stmt) 1 (engine w) in
  let bytes := sqlite3_column_bytes api (get stmt) 1 (snd first) in
  0 < fst bytes < 2 ^ 31 ->
  calls (snd (value api stmt w)) =
    calls w ++ [call_column_text (get stmt) 1; call_column_bytes (get stmt) 1;
                read_string (fst first) (fst bytes)] /\
  (forall text, chars_at api (fst first) (fst bytes) (snd bytes) = Some text ->
                fst (value api stmt w) = Returned text) /\
  (chars_at api (fst first) (fst bytes) (snd bytes) = None ->
   fst (value api stmt w) = Undefined).
Proof.
  intros first bytes Hn. subst first bytes.
  unfold value, column_string, to_T. unfold_monad.
  assert (E : size_t_of_int (fst (sqlite3_column_bytes api (get stmt) 1
                (snd (sqlite3_column_text api (get stmt) 1 (engine w))))) =
              fst (sqlite3_column_bytes api (get stmt) 1
                (snd (sqlite3_column_text api (get stmt) 1 (engine w))))).
  { unfold size_t_of_int. apply Z.mod_small. lia. }
  rewrite E.
  destruct (Z.ltb_spec 0 (fst (sqlite3_column_bytes api (get stmt) 1
              (snd (sqlite3_column_text api (get stmt) 1 (engine w)))))); [| lia].
  unfold std_string. cbn [engine calls].
  split; [| split].
  - destruct (chars_at api _ _ _); cbn [snd calls]; now rewrite <- !app_assoc.
  - intros text Ht. now rewrite Ht.
  - intro Ht. now rewrite Ht.
Qed.

(** X12: a text is bound, and an SQL text is prepared, with its length in
    bytes, so that a NUL byte inside it does not cut it short, as long as
    the length fits an [int]; for a text of 2^31 bytes or more the length
    in the call is an [int] that is not the length of the text (the
    length less 2^32, a negative number, up to 2^32 - 1 bytes). *)
Theorem texts_are_passed_with_their_length
    (stmt db : not_null) (index : Z) (text : string) (w : world S) :
  let len := Z.of_nat (String.length text) in
  (len < 2 ^ 31 ->
   calls (snd (parameter_string api stmt index text w)) =
     calls w ++ [call_bind_text (get stmt) index text len] /\
   calls (snd (create_statement api db text w)) =
     calls w ++ call_prepare_v2 (get db) text len
             :: (if fst (fst (sqlite3_prepare_v2 api (get db) text len (engine w)))
                      =? SQLITE_OK
                 then [] else [call_errmsg (get db)])) /\
  (2 ^ 31 <= len ->
   exists n,
     calls (snd (parameter_string api stmt index text w)) =
       calls w ++ [call_bind_text (get stmt) index text n] /\
     calls (snd (create_statement api db text w)) =
       calls w ++ call_prepare_v2 (get db) text n
               :: (if fst (fst (sqlite3_prepare_v2 api (get db) text n (engine w)))
                        =? SQLITE_OK
                   then [] else [call_errmsg (get db)]) /\
     - 2 ^ 31 <= n < 2 ^ 31 /\
     n <> len /\
     (len < 2 ^ 32 -> n = len - 2 ^ 32)).
Proof.
  intro len.
  assert (P : calls (snd (parameter_string api stmt index text w)) =
              calls w ++ [call_bind_text (get stmt) index text (int_of_size_t len)])
    by (rewrite parameter_string_unfold; reflexivity).
  assert (C : calls (snd (create_statement api db text w)) =
              calls w ++ call_prepare_v2 (get db) text (int_of_size_t len)
                :: (if fst (fst (sqlite3_prepare_v2 api (get db) text (int_of_size_t len)
                                   (engine w))) =? SQLITE_OK
                    then [] else [call_errmsg (get db)])).
  { rewrite create_statement_unfold. cbv zeta. fold len.
    destruct (_ =? SQLITE_OK); cbn [snd calls]; [reflexivity | now rewrite <- app_assoc]. }
  split.
  - intro H.
    assert (E : int_of_size_t len = len) by (unfold int_of_size_t; rewrite Z.mod_small; lia).
    rewrite E in P, C. split; assumption.
  - intro H. exists (int_of_size_t len).
    assert (B : - 2 ^ 31 <= int_of_size_t len < 2 ^ 31).
    { unfold int_of_size_t.
      pose proof (Z.mod_pos_bound (len + 2 ^ 31) (2 ^ 32) ltac:(lia)). lia. }
    repeat split; try assumption; try lia.
    intro L. unfold int_of_size_t.
    assert (M : (len + 2 ^ 31) mod 2 ^ 32 = len + 2 ^ 31 - 2 ^ 32).
    { symmetry. apply (Z.mod_unique_pos _ _ 1); lia. }
    lia.
Qed.

Lemma append_empty (s : string) : s +++ "" = s.
Proof. induction s as [| c s IH]; [reflexivity | cbn; now rewrite IH]. Qed.

(** X20: [dump_current_row] asks for the value of a column only when its
    type is integer, float or text: for a NULL column it prints "<NULL>",
    for a BLOB column "<BLO000B>", for any other type code nothing, each
    followed by the separator, and [sqlite3_column_type] is the only call
    made for the column. *)
Theorem dump_column_without_value (stmt : not_null) (i : Z) (w : world S) :
  let ty := fst (sqlite3_column_type api (get stmt) i (engine w)) in
  ty <> SQLITE_INTEGER -> ty <> SQLITE_FLOAT -> ty <> SQLITE_TEXT ->
  exists w',
    dump_column api show_double stmt i w = (Returned tt, w') /\
    calls w' = calls w ++ [call_column_type (get stmt) i] /\
    cout w' = (cout w +++ (if ty =? SQLITE_NULL then "<NULL>"
                           else if ty =? SQLITE_BLOB then "<BLO000B>" else "")) +++ "|".
Proof.
  intros ty Hi Hf Ht. unfold dump_column, to_T.
  unfold bind at 1. unfold invoke at 1. cbv zeta. cbn [fst snd]. fold ty.
  destruct (Z.eqb_spec ty SQLITE_NULL).
  { eexists. split; [reflexivity |]. cbn [calls cout]. split; reflexivity. }
  destruct (Z.eqb_spec ty SQLITE_INTEGER); [contradiction |].
  destruct (Z.eqb_spec ty SQLITE_FLOAT); [contradiction |].
  destruct (Z.eqb_spec ty SQLITE_TEXT); [contradiction |].
  destruct (Z.eqb_spec ty SQLITE_BLOB).
  - eexists. split; [reflexivity |]. cbn [calls cout]. split; reflexivity.
  - eexists. split; [reflexivity |]. cbn [calls cout]. split; [reflexivity |].
    now rewrite append_empty.
Qed.

End Callbacks.

(** ** More about the transaction guard *)

Section GuardInScope.

Context {S : Type}.
Variable api : sqlite3_api S.

(** [execute] when the engine accepts the SQL. *)
Lemma execute_accepted (p : pointer) (sql : string) (w : world S) :
  fst (fst (sqlite3_exec api p sql (engine w))) = SQLITE_OK ->
  execute api (Build p) sql w =
    (Returned tt, snd (invoke (call_exec p sql) (sqlite3_exec api p sql) w)).
Proof.
  intro H. rewrite execute_unfold. cbv zeta. cbn [get ptr_]. now rewrite H.
Qed.

Lemma calls_invoke {R : Type} (c : call) (f : S -> R * S) (w : world S) :
  calls (snd (invoke c f w)) = calls w ++ [c].
Proof. reflexivity. Qed.

Lemma commit_accepted (p : pointer) (w : world S) :
  p <> nullptr ->
  fst (fst (sqlite3_exec api p "COMMIT TRANSACTION;" (engine w))) = SQLITE_OK ->
  commit api {| _db := p |} w =
    (Returned {| _db := nullptr |},
     snd (invoke (call_exec p "COMMIT TRANSACTION;")
            (sqlite3_exec api p "COMMIT TRANSACTION;") w)).
Proof.
  intros Hp H. unfold commit. cbn [_db].
  destruct (Z.eqb_spec p nullptr); [contradiction |]. cbn [negb].
  erewrite bind_returned; [reflexivity |].
  rewrite (bind_returned _ _ _ _ _ (lift_ctor p w Hp)).
  now apply execute_accepted.
Qed.

Lemma commits_released (n : nat) (w : world S) :
  commits api n {| _db := nullptr |} w = (Returned {| _db := nullptr |}, w).
Proof.
  induction n as [| n IH]; [reflexivity |]. cbn [commits].
  now erewrite bind_returned by reflexivity.
Qed.

Lemma Transaction_ctor_accepted (p : pointer) (w : world S) :
  p <> nullptr ->
  fst (fst (sqlite3_exec api p "BEGIN TRANSACTION;" (engine w))) = SQLITE_OK ->
  Transaction_ctor api (Build p) w =
    (Returned {| _db := p |},
     snd (invoke (call_exec p "BEGIN TRANSACTION;")
            (sqlite3_exec api p "BEGIN TRANSACTION;") w)).
Proof.
  intros Hp H. unfold Transaction_ctor. cbn [to_T get ptr_ _db].
  rewrite (bind_returned _ _ _ _ _ (lift_ctor p w Hp)).
  now rewrite (bind_returned _ _ _ _ _ (execute_accepted p _ w H)).
Qed.

Lemma Transaction_dtor_accepted (p : pointer) (w : world S) :
  p <> nullptr ->
  fst (fst (sqlite3_exec api p "ROLLBACK TRANSACTION;" (engine w))) = SQLITE_OK ->
  Transaction_dtor api {| _db := p |} w =
    (Returned tt,
     snd (invoke (call_exec p "ROLLBACK TRANSACTION;")
            (sqlite3_exec api p "ROLLBACK TRANSACTION;") w)).
Proof.
  intros Hp H. rewrite (Transaction_dtor_holding api p w Hp).
  now apply execute_accepted.
Qed.

(** X13: [COMMIT] is issued once: however often [commit ()] is called on
    a guard, the first call issues [COMMIT TRANSACTION;] and, once the
    engine has accepted it, the later calls issue nothing. *)
Theorem commit_is_issued_once (p : pointer) (db : not_null) (n : nat) (w : world S) :
  NotNull.ctor p = Returned db ->
  fst (fst (sqlite3_exec api p "COMMIT TRANSACTION;" (engine w))) = SQLITE_OK ->
  exists w',
    commits api (Datatypes.S n) {| _db := get db |} w = (Returned {| _db := nullptr |}, w') /\
    quietly w [call_exec p "COMMIT TRANSACTION;"] w'.
Proof.
  intros Hp H. apply ctor_returned in Hp as [Hp ->]. cbn [get ptr_].
  eexists. split.
  - cbn [commits]. rewrite (bind_returned _ _ _ _ _ (commit_accepted p w Hp H)).
    apply commits_released.
  - repeat split.
Qed.

(** X14: move construction does not disarm the guard it moves from:
    [_db] is a raw pointer, the defaulted move constructor copies it, and
    both objects hold the handle.  On an engine that accepts the SQL,
    destroying the two issues [ROLLBACK TRANSACTION;] twice, and after a
    commit through the new object the destruction of the old one still
    issues a rollback. *)
Theorem move_leaves_the_source_armed (p : pointer) (db : not_null) (t : Transaction)
    (w0 w1 w : world S) :
  NotNull.ctor p = Returned db ->
  Transaction_ctor api db w0 = (Returned t, w1) ->
  (forall sql s, fst (fst (sqlite3_exec api p sql s)) = SQLITE_OK) ->
  let moved := Transaction_move t in
  (exists w',
      (Transaction_dtor api moved ;; Transaction_dtor api t) w = (Returned tt, w') /\
      quietly w [call_exec p "ROLLBACK TRANSACTION;";
                 call_exec p "ROLLBACK TRANSACTION;"] w') /\
  (exists w',
      (moved' <- commit api moved ;; Transaction_dtor api moved' ;; Transaction_dtor api t) w
        = (Returned tt, w') /\
      quietly w [call_exec p "COMMIT TRANSACTION;";
                 call_exec p "ROLLBACK TRANSACTION;"] w').
Proof.
  intros Hp Hctor Hexec moved. subst moved.
  apply ctor_returned in Hp as [Hp ->].
  apply Transaction_ctor_returned in Hctor as ->. cbn [get ptr_].
  unfold Transaction_move. cbn [_db]. split.
  - eexists. split.
    + rewrite (bind_returned _ _ _ _ _ (Transaction_dtor_accepted p w Hp (Hexec _ _))).
      apply (Transaction_dtor_accepted p _ Hp (Hexec _ _)).
    + repeat split. rewrite !calls_invoke. now rewrite <- app_assoc.
  - eexists. split.
    + rewrite (bind_returned _ _ _ _ _ (commit_accepted p w Hp (Hexec _ _))).
      rewrite (bind_returned _ _ _ _ _ (Transaction_dtor_released api _)).
      apply (Transaction_dtor_accepted p _ Hp (Hexec _ _)).
    + repeat split. rewrite !calls_invoke. now rewrite <- app_assoc.
Qed.

(** X15: an exception that leaves the block of [main1] holding the second
    [Transaction] rolls the transaction back: on an engine that accepts
    the SQL, whenever [add_first_thing] ends by a throw (the stack being
    unwound), [ROLLBACK TRANSACTION;] on the database is the last call
    made. *)
Theorem exception_rolls_back (p ins : pointer) (fuel : nat) (e : string) (w w' : world S) :
  p <> nullptr ->
  (forall sql s, fst (fst (sqlite3_exec api p sql s)) = SQLITE_OK) ->
  add_first_thing api fuel p ins w = (Thrown e, w') ->
  exists front, calls w' = front ++ [call_exec p "ROLLBACK TRANSACTION;"].
Proof.
  intros Hp Hexec. unfold add_first_thing.
  rewrite (bind_returned _ _ _ _ _ (lift_ctor p w Hp)).
  rewrite (bind_returned _ _ _ _ _ (Transaction_ctor_accepted p w Hp (Hexec _ _))).
  set (w1 := snd (invoke (call_exec p "BEGIN TRANSACTION;") _ w)).
  unfold bind at 1. unfold unwinding.
  match goal with
  | |- context [match ?body w1 with _ => _ end] => destruct (body w1) as [[] w2]
  end.
  - cbn [abrupt].
    rewrite (bind_returned _ _ _ _ _ (commit_accepted p w2 Hp (Hexec _ _))).
    rewrite Transaction_dtor_released. discriminate.
  - unfold destructor. rewrite (Transaction_dtor_accepted p w2 Hp (Hexec _ _)).
    cbn [abrupt]. intros [= _ <-]. exists (calls w2). apply calls_invoke.
  - discriminate.
  - discriminate.
  - discriminate.
  - discriminate.
Qed.

(** X16: [create_things2] gives up what it holds in the reverse order of
    construction: on an engine that accepts the SQL, whenever it ends by a
    throw (the stack being unwound), the insert statement it prepared is
    finalized, unless its handle is null, and then the transaction is
    rolled back; these are the last calls made. *)
Theorem create_things2_unwinds_in_reverse_order
    (p : pointer) (fuel : nat) (e : string) (w w' : world S) :
  p <> nullptr ->
  (forall sql s, fst (fst (sqlite3_exec api p sql s)) = SQLITE_OK) ->
  create_things2 api fuel (Build p) w = (Thrown e, w') ->
  let s1 := snd (sqlite3_exec api p "BEGIN TRANSACTION;" (engine w)) in
  let s2 := snd (sqlite3_exec api p create_table_things s1) in
  let ins := snd (fst (sqlite3_prepare_v2 api p insert_into_things 44 s2)) in
  exists front,
    calls w' = front ++ (if ins =? nullptr then [] else [call_finalize ins])
                     ++ [call_exec p "ROLLBACK TRANSACTION;"].
Proof.
  intros Hp Hexec. unfold create_things2.
  rewrite (bind_returned _ _ _ _ _ (Transaction_ctor_accepted p w Hp (Hexec _ _))).
  set (w1 := snd (invoke (call_exec p "BEGIN TRANSACTION;") _ w)).
  unfold bind at 1. unfold unwinding at 1.
  rewrite (bind_returned _ _ _ _ _ (execute_accepted p create_table_things w1 (Hexec _ _))).
  set (w2 := snd (invoke (call_exec p create_table_things) _ w1)).
  unfold bind at 1. rewrite create_statement_unfold. cbv zeta. cbn [get ptr_].
  change (engine w2) with
    (snd (sqlite3_exec api p create_table_things
            (snd (sqlite3_exec api p "BEGIN TRANSACTION;" (engine w))))).
  change (int_of_size_t (Z.of_nat (String.length insert_into_things))) with 44.
  set (r := sqlite3_prepare_v2 api p insert_into_things 44 _).
  destruct (fst (fst r) =? SQLITE_OK); [| discriminate].
  set (ins := snd (fst r)).
  unfold unwinding at 1.
  match goal with
  | |- context [match ?body ?w3 with _ => _ end] =>
      match body with bind _ _ => destruct (body w3) as [[] w4] end
  end.
  - rewrite (bind_returned _ _ _ _ _ (commit_accepted p w4 Hp (Hexec _ _))).
    rewrite (bind_returned _ _ _ _ _ (Transaction_dtor_released api _)).
    discriminate.
  - unfold destructor at 1. unfold unique_ptr_dtor.
    destruct (ins =? nullptr).
    + unfold ret at 1. unfold destructor.
      rewrite (Transaction_dtor_accepted p w4 Hp (Hexec _ _)). cbn [abrupt].
      intros [= _ <-]. cbv zeta. exists (calls w4). apply calls_invoke.
    + unfold bind at 1. unfold invoke at 1. cbv zeta. unfold ret at 1.
      set (w5 := World _ _ _ _).
      unfold destructor. rewrite (Transaction_dtor_accepted p w5 Hp (Hexec _ _)).
      cbn [abrupt]. intros [= _ <-]. cbv zeta. exists (calls w4).
      cbn [calls]. now rewrite <- app_assoc.
  - discriminate.
  - discriminate.
  - discriminate.
  - discriminate.
Qed.


Lemma parameter_int64_accepted (p : pointer) (index value : Z) (w : world S) :
  fst (sqlite3_bind_int64 api p index value (engine w)) = SQLITE_OK ->
  parameter_int64 api (Build p) index value w =
    (Returned tt,
     snd (invoke (call_bind_int64 p index value) (sqlite3_bind_int64 api p index value) w)).
Proof.
  intro H. rewrite parameter_int64_unfold. cbv zeta. cbn [get ptr_]. now rewrite H.
Qed.

Lemma parameter_string_accepted (p : pointer) (index : Z) (value : string) (w : world S) :
  let n := int_of_size_t (Z.of_nat (String.length value)) in
  fst (sqlite3_bind_text api p index value n (engine w)) = SQLITE_OK ->
  parameter_string api (Build p) index value w =
    (Returned tt,
     snd (invoke (call_bind_text p index value n) (sqlite3_bind_text api p index value n) w)).
Proof.
  intros n H. subst n. rewrite parameter_string_unfold. cbv zeta. cbn [get ptr_].
  now rewrite H.
Qed.


End GuardInScope.

(** ** More about main1 *)

Section MainMore.

Context {S : Type}.
Variable api : sqlite3_api S.
Variable show_double : double -> string.

(** X18: not_null at work: when [sqlite3_open] answers [SQLITE_OK] and
    hands back a null handle, [main1] throws "Ensure failed" before it
    executes any SQL; [sqlite3_open] is the only call made (the owner of
    a null handle has nothing to close), and [main] ends in
    [std::terminate]. *)
Theorem null_handle_is_caught (fuel : nat) (w : world S) :
  fst (sqlite3_open api ":memory:" (engine w)) = (SQLITE_OK, nullptr) ->
  exists w',
    main1 api show_double fuel w = (Thrown "Ensure failed", w') /\
    main api show_double fuel w = (Terminated, w') /\
    quietly w [call_open ":memory:"] w'.
Proof.
  intro H.
  assert (E : main1 api show_double fuel w =
              (Thrown "Ensure failed",
               snd (invoke (call_open ":memory:") (sqlite3_open api ":memory:") w))).
  { unfold main1. unfold bind at 1. rewrite open_database_unfold. cbv zeta.
    rewrite H. cbn [fst snd Z.eqb SQLITE_OK]. unfold finally.
    unfold bind at 1. unfold lift at 1. rewrite ctor_spec. reflexivity. }
  assert (E' : main1_unhandled api show_double fuel w =
               (Thrown "Ensure failed",
                snd (invoke (call_open ":memory:") (sqlite3_open api ":memory:") w))).
  { unfold main1_unhandled. unfold bind at 1. rewrite open_database_unfold. cbv zeta.
    rewrite H. cbn [fst snd Z.eqb SQLITE_OK]. unfold on_return.
    unfold bind at 1. unfold lift at 1. rewrite ctor_spec. reflexivity. }
  eexists. split; [exact E | split].
  - unfold main. now rewrite E'.
  - repeat split.
Qed.

(** X19: the database does not stay open: whenever [main1] returns, or
    ends by a throw (the stack being unwound), and the handle
    [sqlite3_open] gave is not null, closing that handle is the last call
    made. *)
Theorem main1_closes_the_database (fuel : nat) (o : outcome unit) (w w' : world S) :
  let db := snd (fst (sqlite3_open api ":memory:" (engine w))) in
  db <> nullptr ->
  main1 api show_double fuel w = (o, w') ->
  o = Returned tt \/ (exists e, o = Thrown e) ->
  exists front, calls w' = front ++ [call_close db].
Proof.
  intros db Hdb. subst db. unfold main1. unfold bind at 1.
  rewrite open_database_unfold. cbv zeta.
  destruct (fst (fst (sqlite3_open api ":memory:" (engine w))) =? SQLITE_OK).
  - set (db := snd (fst (sqlite3_open api ":memory:" (engine w)))) in *.
    set (w1 := World _ _ _ _).
    assert (D : forall w2, destructor (unique_ptr_dtor call_close (sqlite3_close api) db) w2 =
                           (Returned tt, snd (invoke (call_close db) (sqlite3_close api db) w2))).
    { intro w2. unfold destructor, unique_ptr_dtor.
      destruct (Z.eqb_spec db nullptr); [contradiction | reflexivity]. }
    unfold finally.
    match goal with
    | |- context [match ?body w1 with _ => _ end] => destruct (body w1) as [[] w2]
    end; rewrite ?D.
    + intros [= <- <-] _. exists (calls w2). reflexivity.
    + intros [= <- <-] _. exists (calls w2). reflexivity.
    + intros [= <- _] [? | [? ?]]; discriminate.
    + intros [= <- _] [? | [? ?]]; discriminate.
    + intros [= <- _] [? | [? ?]]; discriminate.
    + intros [= <- _] [? | [? ?]]; discriminate.
  - cbn [abrupt]. intros [= <- _] [? | [? ?]]; discriminate.
Qed.

(** X21: when the database cannot be opened the program stops there:
    [main1], and [main] with it, exits with [EXIT_FAILURE] after the
    message on [std::cerr] and the closing of the handle; no SQL is
    executed and nothing is printed on [std::cout]. *)
Theorem main1_exits_when_open_fails (fuel : nat) (w : world S) :
  let r := sqlite3_open api ":memory:" (engine w) in
  fst (fst r) <> SQLITE_OK ->
  exists w',
    main1 api show_double fuel w = (Exited EXIT_FAILURE, w') /\
    main api show_double fuel w = (Exited EXIT_FAILURE, w') /\
    calls w' = calls w ++ [call_open ":memory:"; call_errmsg (snd (fst r));
                           call_close (snd (fst r))] /\
    cout w' = cout w /\
    cerr w' = cerr w +++ ("Unable to open database ':memory:': "
                           +++ fst (sqlite3_errmsg api (snd (fst r)) (snd r))).
Proof.
  intros r H. subst r.
  assert (E : exists w',
             open_database api ":memory:" w = (Exited EXIT_FAILURE, w') /\
             calls w' = calls w ++ [call_open ":memory:";
                 call_errmsg (snd (fst (sqlite3_open api ":memory:" (engine w))));
                 call_close (snd (fst (sqlite3_open api ":memory:" (engine w))))] /\
             cout w' = cout w /\
             cerr w' = cerr w +++ ("Unable to open database ':memory:': "
                 +++ fst (sqlite3_errmsg api
                            (snd (fst (sqlite3_open api ":memory:" (engine w))))
                            (snd (sqlite3_open api ":memory:" (engine w)))))).
  { rewrite open_database_unfold. cbv zeta. failed_code.
    eexists. split; [reflexivity |]. cbn [calls cout cerr].
    split; [now rewrite <- !app_assoc | split; reflexivity]. }
  destruct E as (w' & E & C & O & R).
  assert (E1 : main1 api show_double fuel w = (Exited EXIT_FAILURE, w')).
  { unfold main1. unfold bind at 1. now rewrite E. }
  exists w'. split; [exact E1 | split; [| split; [exact C | split; [exact O | exact R]]]].
  unfold main, main1_unhandled. unfold bind at 1. now rewrite E.
Qed.

End MainMore.

(** ** main1: what it calls and what it prints *)

Lemma append_assoc (a b c : string) : (a +++ b) +++ c = a +++ (b +++ c).
Proof. induction a as [| x a IH]; [reflexivity | cbn; now rewrite IH]. Qed.

Lemma length_zero_empty (s : string) : String.length s = 0%nat -> s = "".
Proof. destruct s; [reflexivity | discriminate]. Qed.

Lemma skipn_cons_nth {A : Type} (k : nat) :
  forall (l : list A) (x : A) (rest : list A),
    skipn k l = x :: rest -> nth_error l k = Some x /\ skipn (Datatypes.S k) l = rest.
Proof.
  induction k as [| k IH]; intros [| y l] x rest H; try discriminate.
  - cbn in H. injection H as -> ->. split; reflexivity.
  - cbn in H. apply IH in H. exact H.
Qed.

Lemma skipn_nil_length {A : Type} (k : nat) :
  forall l : list A, skipn k l = [] -> (List.length l <= k)%nat.
Proof.
  induction k as [| k IH]; intros [| y l] H; cbn in *; try lia; try discriminate.
  apply IH in H. lia.
Qed.

Section Presented.

Context {S : Type}.
Variable api : sqlite3_api S.
Variable show_double : double -> string.

Lemma wrote_nothing (w w' : world S) :
  engine w' = engine w -> cout w' = cout w -> cerr w' = cerr w -> wrote w "" w'.
Proof. intros E O R. repeat split; try assumption. now rewrite append_empty. Qed.

Lemma wrote_trans (w w1 w2 : world S) (a b : string) :
  wrote w a w1 -> wrote w1 b w2 -> wrote w (a +++ b) w2.
Proof.
  intros (E1 & O1 & R1) (E2 & O2 & R2). repeat split; try congruence.
  now rewrite O2, O1, append_assoc.
Qed.

(** An accessor that leaves the state as it is. *)
Lemma invoke_reading {R : Type} (c : call) (f : S -> R * S) (x : R) (w : world S) :
  f (engine w) = (x, engine w) ->
  exists w', invoke c f w = (Returned x, w') /\ wrote w "" w'.
Proof.
  intro H. eexists. split; [unfold invoke; cbv zeta; rewrite H; reflexivity |].
  apply wrote_nothing; reflexivity.
Qed.

Lemma print_wrote (out : string) (w : world S) :
  exists w', print out w = (Returned tt, w') /\ wrote w out w'.
Proof. eexists. split; [reflexivity | repeat split]. Qed.

(** Running [m] then [k]: what they wrote, one after the other. *)
Lemma bind_wrote {A B : Type} (m : M S A) (k : A -> M S B) w a out1 w1 b out2 w2 :
  m w = (Returned a, w1) -> wrote w out1 w1 ->
  k a w1 = (Returned b, w2) -> wrote w1 out2 w2 ->
  bind m k w = (Returned b, w2) /\ wrote w (out1 +++ out2) w2.
Proof.
  intros E1 W1 E2 W2. split; [now rewrite (bind_returned _ _ _ _ _ E1) |].
  exact (wrote_trans _ _ _ _ _ W1 W2).
Qed.

Lemma column_string_presented (stmt : pointer) (r : list cell) (i : nat) (c : cell)
    (w : world S) :
  presents api stmt (engine w) r -> nth_error r i = Some c ->
  exists w',
    column_string api (Build stmt) (Z.of_nat i) w = (Returned (as_text c), w') /\
    wrote w "" w'.
Proof.
  intros P Hc. destruct (presents_text _ _ _ _ P i c Hc) as (first & Ht & Hb & Hlen & Hread).
  destruct (invoke_reading (call_column_text stmt (Z.of_nat i))
              (sqlite3_column_text api stmt (Z.of_nat i)) first w Ht) as (w1 & E1 & W1).
  assert (Hb1 : sqlite3_column_bytes api stmt (Z.of_nat i) (engine w1) =
                (Z.of_nat (String.length (as_text c)), engine w1)).
  { destruct W1 as (-> & _). exact Hb. }
  destruct (invoke_reading (call_column_bytes stmt (Z.of_nat i))
              (sqlite3_column_bytes api stmt (Z.of_nat i)) _ w1 Hb1) as (w2 & E2 & W2).
  assert (Hsz : size_t_of_int (Z.of_nat (String.length (as_text c))) =
                Z.of_nat (String.length (as_text c))).
  { unfold size_t_of_int. apply Z.mod_small. lia. }
  unfold column_string, to_T. cbn [get ptr_].
  rewrite (bind_returned _ _ _ _ _ E1), (bind_returned _ _ _ _ _ E2).
  cbv zeta. rewrite Hsz.
  destruct (Z.ltb_spec 0 (Z.of_nat (String.length (as_text c)))) as [Hpos | Hzero].
  - assert (Hne : as_text c <> "") by (intros Heq; rewrite Heq in Hpos; cbn in Hpos; lia).
    specialize (Hread Hne). unfold std_string.
    assert (Heng : engine w2 = engine w)
      by (destruct W1 as (E & _); destruct W2 as (E' & _); congruence).
    rewrite Heng, Hread. eexists. split; [reflexivity |].
    apply wrote_nothing; cbn [engine cout cerr].
    + reflexivity.
    + destruct W1 as (_ & O1 & _), W2 as (_ & O2 & _).
      rewrite O2, O1, !append_empty. reflexivity.
    + destruct W1 as (_ & _ & R1), W2 as (_ & _ & R2). congruence.
  - assert (Hempty : as_text c = "") by (apply length_zero_empty; lia).
    rewrite Hempty. exists w2. split; [reflexivity |].
    pose proof (wrote_trans _ _ _ _ _ W1 W2) as W. exact W.
Qed.

Lemma dump_column_presented (stmt : pointer) (r : list cell) (i : nat) (c : cell)
    (w : world S) :
  presents api stmt (engine w) r -> nth_error r i = Some c ->
  exists w',
    dump_column api show_double (Build stmt) (Z.of_nat i) w = (Returned tt, w') /\
    wrote w (dumped_cell show_double c +++ "|") w'.
Proof.
  intros P Hc.
  destruct (invoke_reading (call_column_type stmt (Z.of_nat i))
              (sqlite3_column_type api stmt (Z.of_nat i)) _ w
              (presents_type _ _ _ _ P i c Hc)) as (w1 & E1 & W1).
  assert (P1 : presents api stmt (engine w1) r) by (destruct W1 as (-> & _); exact P).
  assert (Cell : exists w2,
             (if sql_type c =? SQLITE_NULL then print "<NULL>"
              else if sql_type c =? SQLITE_INTEGER then
                v <- invoke (call_column_int64 stmt (Z.of_nat i))
                            (sqlite3_column_int64 api stmt (Z.of_nat i)) ;;
                print (show_int64 v)
              else if sql_type c =? SQLITE_FLOAT then
                v <- invoke (call_column_double stmt (Z.of_nat i))
                            (sqlite3_column_double api stmt (Z.of_nat i)) ;;
                print (show_double v)
              else if sql_type c =? SQLITE_TEXT then
                text <- column_string api (Build stmt) (Z.of_nat i) ;;
                print ("'" +++ text +++ "'")
              else if sql_type c =? SQLITE_BLOB then print "<BLO000B>"
              else ret tt) w1 = (Returned tt, w2) /\
             wrote w1 (dumped_cell show_double c) w2).
  { unfold dumped_cell.
    destruct (sql_type c =? SQLITE_NULL); [apply print_wrote |].
    destruct (sql_type c =? SQLITE_INTEGER).
    { destruct (invoke_reading (call_column_int64 stmt (Z.of_nat i))
                  (sqlite3_column_int64 api stmt (Z.of_nat i)) _ w1
                  (presents_int64 _ _ _ _ P1 i c Hc)) as (w2 & E2 & W2).
      destruct (print_wrote (show_int64 (as_int64 c)) w2) as (w3 & E3 & W3).
      exists w3. exact (bind_wrote _ _ _ _ _ _ _ _ _ E2 W2 E3 W3). }
    destruct (sql_type c =? SQLITE_FLOAT).
    { destruct (invoke_reading (call_column_double stmt (Z.of_nat i))
                  (sqlite3_column_double api stmt (Z.of_nat i)) _ w1
                  (presents_double _ _ _ _ P1 i c Hc)) as (w2 & E2 & W2).
      destruct (print_wrote (show_double (as_double c)) w2) as (w3 & E3 & W3).
      exists w3. exact (bind_wrote _ _ _ _ _ _ _ _ _ E2 W2 E3 W3). }
    destruct (sql_type c =? SQLITE_TEXT).
    { destruct (column_string_presented stmt r i c w1 P1 Hc) as (w2 & E2 & W2).
      destruct (print_wrote ("'" +++ as_text c +++ "'") w2) as (w3 & E3 & W3).
      exists w3. exact (bind_wrote _ _ _ _ _ _ _ _ _ E2 W2 E3 W3). }
    destruct (sql_type c =? SQLITE_BLOB); [apply print_wrote |].
    exists w1. split; [reflexivity | apply wrote_nothing; reflexivity]. }
  destruct Cell as (w2 & E2 & W2).
  destruct (print_wrote "|" w2) as (w3 & E3 & W3).
  exists w3. unfold dump_column, to_T. cbn [get ptr_].
  rewrite (bind_returned _ _ _ _ _ E1).
  destruct (bind_wrote _ (fun _ => print "|") _ _ _ _ _ _ _ E2 W2 E3 W3) as [E W].
  rewrite E. split; [reflexivity |].
  pose proof (wrote_trans _ _ _ _ _ W1 W) as W'. exact W'.
Qed.

Lemma dump_columns_presented (stmt : pointer) (r : list cell) :
  forall (rest : list cell) (k : nat) (w : world S),
    presents api stmt (engine w) r -> skipn k r = rest ->
    exists w',
      (forall fuel, (List.length rest < fuel)%nat ->
         dump_columns api show_double fuel (Build stmt) (Z.of_nat k) w = (Returned tt, w')) /\
      wrote w (String.concat "" (map (fun c => dumped_cell show_double c +++ "|") rest)) w'.
Proof.
  induction rest as [| c rest IH]; intros k w P Hk;
    destruct (invoke_reading (call_column_count stmt) (sqlite3_column_count api stmt) _ w
                (presents_count _ _ _ _ P)) as (w1 & E1 & W1).
  - exists w1. split; [| exact W1].
    intros [| fuel] Hf; [cbn in Hf; lia |]. cbn [dump_columns]. unfold to_T. cbn [get ptr_].
    rewrite (bind_returned _ _ _ _ _ E1).
    apply skipn_nil_length in Hk.
    destruct (Z.ltb_spec (Z.of_nat k) (Z.of_nat (List.length r))); [lia | reflexivity].
  - destruct (skipn_cons_nth k r c rest Hk) as [Hc Hrest].
    assert (Hlt : (k < List.length r)%nat).
    { apply nth_error_Some. rewrite Hc. discriminate. }
    assert (P1 : presents api stmt (engine w1) r) by (destruct W1 as (-> & _); exact P).
    destruct (dump_column_presented stmt r k c w1 P1 Hc) as (w2 & E2 & W2).
    assert (P2 : presents api stmt (engine w2) r) by (destruct W2 as (-> & _); exact P1).
    destruct (IH (Datatypes.S k) w2 P2 Hrest) as (w3 & E3 & W3).
    exists w3. split.
    + intros [| fuel] Hf; [cbn in Hf; lia |]. cbn [dump_columns]. unfold to_T. cbn [get ptr_].
      rewrite (bind_returned _ _ _ _ _ E1).
      destruct (Z.ltb_spec (Z.of_nat k) (Z.of_nat (List.length r))); [| lia].
      rewrite (bind_returned _ _ _ _ _ E2).
      replace (Z.of_nat k + 1) with (Z.of_nat (Datatypes.S k)) by lia.
      apply E3. cbn in Hf. lia.
    + cbn [map String.concat].
      pose proof (wrote_trans _ _ _ _ _ W1 (wrote_trans _ _ _ _ _ W2 W3)) as W.
      cbn [String.append] in W.
      destruct rest; cbn [map String.concat] in *.
      * rewrite append_empty in W. exact W.
      * exact W.
Qed.

(** [dump_current_row] on a row the statement presents: the row as
    [dumped] has it. *)
Lemma dump_current_row_presented (stmt : pointer) (r : list cell) (w : world S) :
  presents api stmt (engine w) r ->
  exists w',
    (forall fuel, (List.length r < fuel)%nat ->
       dump_current_row api show_double fuel (Build stmt) w = (Returned true, w')) /\
    wrote w (dumped show_double r) w'.
Proof.
  intros P.
  destruct (dump_columns_presented stmt r r 0 w P eq_refl) as (w1 & E1 & W1).
  destruct (print_wrote endl w1) as (w2 & E2 & W2).
  exists w2. split; [| exact (wrote_trans _ _ _ _ _ W1 W2)].
  intros fuel Hf. unfold dump_current_row.
  now rewrite (bind_returned _ _ _ _ _ (E1 fuel Hf)), (bind_returned _ _ _ _ _ E2).
Qed.

(** [print_thing] on a row of at least three columns: the row as
    [printed] has it. *)
Lemma print_thing_presented (stmt : pointer) (r : list cell) (w : world S) :
  presents api stmt (engine w) r -> (3 <= List.length r)%nat ->
  exists w',
    print_thing api show_double (Build stmt) w = (Returned true, w') /\
    wrote w (printed show_double r) w'.
Proof.
  intros P Hlen. destruct r as [| id [| name [| value rest]]]; cbn in Hlen; try lia.
  destruct (invoke_reading (call_column_int64 stmt 0) (sqlite3_column_int64 api stmt 0) _ w
              (presents_int64 _ _ _ _ P 0%nat id eq_refl)) as (w1 & E1 & W1).
  assert (P1 : presents api stmt (engine w1) (id :: name :: value :: rest))
    by (destruct W1 as (-> & _); exact P).
  destruct (column_string_presented stmt _ 1 name w1 P1 eq_refl) as (w2 & E2 & W2).
  assert (P2 : presents api stmt (engine w2) (id :: name :: value :: rest))
    by (destruct W2 as (-> & _); exact P1).
  destruct (invoke_reading (call_column_double stmt 2) (sqlite3_column_double api stmt 2) _ w2
              (presents_double _ _ _ _ P2 2%nat value eq_refl)) as (w3 & E3 & W3).
  destruct (print_wrote (printed show_double (id :: name :: value :: rest)) w3)
    as (w4 & E4 & W4).
  exists w4. unfold print_thing, to_T. cbn [get ptr_].
  rewrite (bind_returned _ _ _ _ _ E1), (bind_returned _ _ _ _ _ E2),
          (bind_returned _ _ _ _ _ E3), (bind_returned _ _ _ _ _ E4).
  split; [reflexivity |].
  pose proof (wrote_trans _ _ _ _ _ W1
               (wrote_trans _ _ _ _ _ W2 (wrote_trans _ _ _ _ _ W3 W4))) as W.
  exact W.
Qed.

Lemma dump_current_row_reads_row (fuel : nat) (stmt : not_null) :
  adds_only (reads_row (get stmt)) (dump_current_row api show_double fuel stmt).
Proof.
  unfold dump_current_row.
  apply adds_only_bind; [apply dump_columns_reads_row |]. intros _.
  apply adds_only_bind; [apply adds_only_print | intros _; apply adds_only_ret].
Qed.

Lemma print_thing_reads_row (stmt : not_null) :
  adds_only (reads_row (get stmt)) (print_thing api show_double stmt).
Proof.
  unfold print_thing, to_T.
  apply adds_only_bind; [apply adds_only_invoke; cbn; apply Z.eqb_refl |]. intro id.
  apply adds_only_bind; [apply column_string_reads_row |]. intro name.
  apply adds_only_bind; [apply adds_only_invoke; cbn; apply Z.eqb_refl |]. intro v.
  apply adds_only_bind; [apply adds_only_print | intros _; apply adds_only_ret].
Qed.

Lemma filter_out_all (p : call -> bool) (cs : list call) :
  forallb p cs = true -> filter (fun c => negb (p c)) cs = [].
Proof.
  induction cs as [| c cs IH]; [reflexivity |]. cbn.
  intro H. apply andb_prop in H as [Hc Hcs]. rewrite Hc. cbn. exact (IH Hcs).
Qed.

(** The loop of [run] over the rows a statement reports, with a callback
    that writes each row and only reads it: every row is written, in
    order; besides the reads, the calls are a step for each row and the
    one that finds no more.  The callback may have a budget [k] of its
    own, of [n0] at least. *)
Lemma run_loop_reports (sel : pointer) (f : nat -> not_null -> M S bool) (n0 : nat)
    (text : list cell -> string) (good : list cell -> Prop) :
  (forall r w, presents api sel (engine w) r -> good r ->
     exists w',
       (forall k, (n0 <= k)%nat -> f k (Build sel) w = (Returned true, w')) /\
       wrote w (text r) w') ->
  (forall k, adds_only (reads_row sel) (f k (Build sel))) ->
  forall rows s s',
    reports api sel rows s s' -> Forall good rows ->
    forall w, engine w = s ->
    exists w' q,
      (forall fuel k, (List.length rows < fuel)%nat -> (n0 <= k)%nat ->
         run_loop api fuel (Build sel) (Some (f k)) w = (Returned tt, w')) /\
      engine w' = s' /\
      cout w' = cout w +++ String.concat "" (map text rows) /\
      cerr w' = cerr w /\
      calls w' = calls w ++ q /\
      filter (fun c => negb (reads_row sel c)) q =
        repeat (call_step sel) (Datatypes.S (List.length rows)).
Proof.
  intros Hf Hreads rows s s'.
  induction 1 as [s Hrc | s r rows s' Hrow P _ IH]; intros Hgood w Hw; subst s.
  - exists (after_step api sel w), [call_step sel].
    split; [| split; [reflexivity | split; [| split; [reflexivity | split]]]].
    + intros [| fuel] k Hfuel _; [cbn in Hfuel; lia |].
      rewrite run_loop_unfold. cbn [get ptr_]. unfold step_next, ret.
      destruct (_ || _); [reflexivity |].
      destruct (Z.eqb_spec (fst (sqlite3_step api sel (engine w))) SQLITE_ROW);
        [contradiction | reflexivity].
    + cbn. now rewrite append_empty.
    + reflexivity.
    + reflexivity.
  - inversion Hgood as [| ? ? Hr Hrest]; subst.
    destruct (Hf r (after_step api sel w) P Hr) as (w2 & E2 & (G2 & O2 & R2)).
    destruct (Hreads n0 (after_step api sel w)) as (cs & C2 & F2).
    rewrite (E2 n0 (Nat.le_refl n0)) in C2. cbn [snd] in C2.
    destruct (IH Hrest w2 G2) as (w3 & q & E3 & G3 & O3 & R3 & C3 & F3).
    exists w3, (call_step sel :: cs ++ q).
    split; [| split; [exact G3 | split; [| split; [| split]]]].
    + intros [| fuel] k Hfuel Hk; [cbn in Hfuel; lia |].
      rewrite run_loop_unfold. cbn [get ptr_]. rewrite Hrow. unfold step_next.
      cbn [Z.eqb SQLITE_ROW SQLITE_OK SQLITE_DONE orb Pos.eqb].
      rewrite (E2 k Hk). apply E3; [cbn in Hfuel; lia | exact Hk].
    + rewrite O3, O2. cbn [after_step cout]. rewrite append_assoc.
      cbn [map String.concat]. destruct rows; cbn [map String.concat].
      * now rewrite append_empty.
      * reflexivity.
    + rewrite R3, R2. reflexivity.
    + rewrite C3, C2. cbn [after_step calls]. rewrite <- !app_assoc. reflexivity.
    + cbn [filter reads_row negb repeat List.length].
      rewrite filter_app, (filter_out_all _ cs F2), F3. reflexivity.
Qed.

(** What [run] makes of a loop that returns, with or without a handler
    up the stack. *)
Lemma run_of_loop_returned (fuel : nat) (p : pointer) (callback : stmt_callback)
    (w w1 : world S) :
  p <> nullptr ->
  run_loop api fuel (Build p) callback w = (Returned tt, w1) ->
  run api fuel (Build p) callback w = (Returned tt, after_reset api p w1) /\
  run_unhandled api fuel (Build p) callback w = (Returned tt, after_reset api p w1).
Proof.
  intros Hp E. split.
  - now rewrite (run_unfold api fuel p _ w Hp), E.
  - unfold run_unhandled, on_return. rewrite E.
    now rewrite (reset_guard_dtor_unfold api p w1 Hp).
Qed.

End Presented.

Section WhatMainDoes.

Context {S : Type}.
Variable api : sqlite3_api S.
Variable show_double : double -> string.

Lemma execute_takes (p : pointer) (sql : string) (w : world S) (s' : S) :
  accepted api (call_exec p sql) (engine w) s' ->
  exists w',
    execute api (Build p) sql w = (Returned tt, w') /\
    engine w' = s' /\ quietly w [call_exec p sql] w'.
Proof.
  intros [H ->]. eexists. split; [apply (execute_accepted api p sql w H) |].
  split; [reflexivity | repeat split].
Qed.

Lemma parameter_int64_takes (p : pointer) (index value : Z) (w : world S) (s' : S) :
  accepted api (call_bind_int64 p index value) (engine w) s' ->
  exists w',
    parameter_int64 api (Build p) index value w = (Returned tt, w') /\
    engine w' = s' /\ quietly w [call_bind_int64 p index value] w'.
Proof.
  intros [H ->]. eexists. split; [apply (parameter_int64_accepted api p index value w H) |].
  split; [reflexivity | repeat split].
Qed.

Lemma parameter_double_takes (p : pointer) (index : Z) (value : double) (w : world S)
    (s' : S) :
  accepted api (call_bind_double p index value) (engine w) s' ->
  exists w',
    parameter_double api (Build p) index value w = (Returned tt, w') /\
    engine w' = s' /\ quietly w [call_bind_double p index value] w'.
Proof.
  intros [H ->]. eexists. split.
  - rewrite parameter_double_unfold. cbv zeta. cbn [get ptr_]. rewrite H. reflexivity.
  - split; [reflexivity | repeat split].
Qed.

Lemma parameter_string_takes (p : pointer) (index : Z) (value : string) (w : world S)
    (s' : S) :
  accepted api (call_bind_text p index value
                  (int_of_size_t (Z.of_nat (String.length value)))) (engine w) s' ->
  exists w',
    parameter_string api (Build p) index value w = (Returned tt, w') /\
    engine w' = s' /\
    quietly w [call_bind_text p index value
                 (int_of_size_t (Z.of_nat (String.length value)))] w'.
Proof.
  intros [H ->]. eexists. split; [apply (parameter_string_accepted api p index value w H) |].
  split; [reflexivity | repeat split].
Qed.

Lemma create_statement_takes (p : pointer) (sql : string) (w : world S)
    (stmt : pointer) (s' : S) :
  sqlite3_prepare_v2 api p sql (int_of_size_t (Z.of_nat (String.length sql))) (engine w) =
    ((SQLITE_OK, stmt), s') ->
  exists w',
    create_statement api (Build p) sql w = (Returned stmt, w') /\
    engine w' = s' /\
    quietly w [call_prepare_v2 p sql (int_of_size_t (Z.of_nat (String.length sql)))] w'.
Proof.
  intro H. eexists. split.
  - rewrite create_statement_unfold. cbv zeta. cbn [get ptr_]. rewrite H. reflexivity.
  - split; [reflexivity | repeat split].
Qed.

Lemma run_without_callback_takes (p : pointer) (w : world S) (s' : S) :
  p <> nullptr ->
  accepts api [call_step p; call_reset p] (engine w) s' ->
  exists w',
    (forall fuel,
        run api (Datatypes.S fuel) (Build p) None w = (Returned tt, w') /\
        run_unhandled api (Datatypes.S fuel) (Build p) None w = (Returned tt, w')) /\
    engine w' = s' /\ quietly w [call_step p; call_reset p] w'.
Proof.
  intros Hp (s1 & -> & s2 & -> & ->).
  exists (after_reset api p (after_step api p w)). split; [| split].
  - intro fuel. apply run_of_loop_returned; [exact Hp |].
    rewrite run_loop_unfold. cbn [get ptr_]. unfold step_next, ret.
    destruct (_ || _); [reflexivity |]. destruct (_ =? SQLITE_ROW); reflexivity.
  - reflexivity.
  - repeat split. cbn. now rewrite <- app_assoc.
Qed.

Lemma Transaction_ctor_takes (p : pointer) (w : world S) (s' : S) :
  p <> nullptr ->
  accepted api (call_exec p "BEGIN TRANSACTION;") (engine w) s' ->
  exists w',
    Transaction_ctor api (Build p) w = (Returned {| _db := p |}, w') /\
    engine w' = s' /\ quietly w [call_exec p "BEGIN TRANSACTION;"] w'.
Proof.
  intros Hp [H ->]. eexists. split; [apply (Transaction_ctor_accepted api p w Hp H) |].
  split; [reflexivity | repeat split].
Qed.

Lemma commit_takes (p : pointer) (w : world S) (s' : S) :
  p <> nullptr ->
  accepted api (call_exec p "COMMIT TRANSACTION;") (engine w) s' ->
  exists w',
    commit api {| _db := p |} w = (Returned {| _db := nullptr |}, w') /\
    engine w' = s' /\ quietly w [call_exec p "COMMIT TRANSACTION;"] w'.
Proof.
  intros Hp [H ->]. eexists. split; [apply (commit_accepted api p w Hp H) |].
  split; [reflexivity | repeat split].
Qed.

Lemma create_things2_takes (p ins : pointer) (w : world S) (s2 s3 s4 : S) :
  p <> nullptr -> ins <> nullptr ->
  accepts api [ call_exec p "BEGIN TRANSACTION;";
                call_exec p create_table_things ] (engine w) s2 ->
  sqlite3_prepare_v2 api p insert_into_things 44 s2 = ((SQLITE_OK, ins), s3) ->
  accepts api [ call_bind_int64 ins 1 0;
                call_bind_text ins 2 "" 0;
                call_bind_double ins 3 0%float;
                call_step ins;
                call_reset ins;
                call_exec p "COMMIT TRANSACTION;" ] s3 s4 ->
  exists w',
    (forall fuel,
        create_things2 api (Datatypes.S fuel) (Build p) w = (Returned ins, w') /\
        create_things2_unhandled api (Datatypes.S fuel) (Build p) w = (Returned ins, w')) /\
    engine w' = s4 /\
    quietly w [ call_exec p "BEGIN TRANSACTION;";
                call_exec p create_table_things;
                call_prepare_v2 p insert_into_things 44;
                call_bind_int64 ins 1 0;
                call_bind_text ins 2 "" 0;
                call_bind_double ins 3 0%float;
                call_step ins;
                call_reset ins;
                call_exec p "COMMIT TRANSACTION;" ] w'.
Proof.
  intros Hp Hins (sa & A1 & sb & A2 & ->) Hprep
         (sc & A3 & sd & A4 & se & A5 & sf & A6 & sg & A7 & sh & A8 & ->).
  destruct (Transaction_ctor_takes p w sa Hp A1) as (w1 & E1 & <- & Q1).
  destruct (execute_takes p create_table_things w1 _ A2) as (w2 & E2 & <- & Q2).
  destruct (create_statement_takes p insert_into_things w2 ins s3 Hprep)
    as (w3 & E3 & <- & Q3).
  destruct (parameter_int64_takes ins 1 0 w3 _ A3) as (w4 & E4 & <- & Q4).
  destruct (parameter_string_takes ins 2 "" w4 _ A4) as (w5 & E5 & <- & Q5).
  destruct (parameter_double_takes ins 3 0%float w5 _ A5) as (w6 & E6 & <- & Q6).
  assert (A67 : accepts api [call_step ins; call_reset ins] (engine w6) sg).
  { exists sf. split; [exact A6 |]. exists sg. split; [exact A7 | reflexivity]. }
  destruct (run_without_callback_takes ins w6 sg Hins A67) as (w7 & E7 & <- & Q7).
  destruct (commit_takes p w7 _ Hp A8) as (w8 & E8 & <- & Q8).
  exists w8. split; [| split; [reflexivity |]].
  - intro fuel. destruct (E7 fuel) as [E7a E7b]. split.
    + unfold create_things2.
      rewrite (bind_returned _ _ _ _ _ E1).
      erewrite bind_returned.
      2:{ apply unwinding_returned.
          rewrite (bind_returned _ _ _ _ _ E2), (bind_returned _ _ _ _ _ E3).
          apply unwinding_returned.
          rewrite (bind_returned _ _ _ _ _ (lift_ctor ins w3 Hins)),
                  (bind_returned _ _ _ _ _ E4),
                  (bind_returned _ _ _ _ _ (lift_ctor ins w4 Hins)),
                  (bind_returned _ _ _ _ _ E5),
                  (bind_returned _ _ _ _ _ (lift_ctor ins w5 Hins)),
                  (bind_returned _ _ _ _ _ E6),
                  (bind_returned _ _ _ _ _ (lift_ctor ins w6 Hins)),
                  (bind_returned _ _ _ _ _ E7a).
          reflexivity. }
      rewrite (bind_returned _ _ _ _ _ E8).
      rewrite (bind_returned _ _ _ _ _ (Transaction_dtor_released api w8)).
      reflexivity.
    + unfold create_things2_unhandled.
      rewrite (bind_returned _ _ _ _ _ E1), (bind_returned _ _ _ _ _ E2),
              (bind_returned _ _ _ _ _ E3),
              (bind_returned _ _ _ _ _ (lift_ctor ins w3 Hins)),
              (bind_returned _ _ _ _ _ E4),
              (bind_returned _ _ _ _ _ (lift_ctor ins w4 Hins)),
              (bind_returned _ _ _ _ _ E5),
              (bind_returned _ _ _ _ _ (lift_ctor ins w5 Hins)),
              (bind_returned _ _ _ _ _ E6),
              (bind_returned _ _ _ _ _ (lift_ctor ins w6 Hins)),
              (bind_returned _ _ _ _ _ E7b),
              (bind_returned _ _ _ _ _ E8),
              (bind_returned _ _ _ _ _ (Transaction_dtor_released api w8)).
      reflexivity.
  - exact (quietly_trans _ _ _ _ _ Q1
            (quietly_trans _ _ _ _ _ Q2
            (quietly_trans _ _ _ _ _ Q3
            (quietly_trans _ _ _ _ _ Q4
            (quietly_trans _ _ _ _ _ Q5
            (quietly_trans _ _ _ _ _ Q6
            (quietly_trans _ _ _ _ _ Q7 Q8))))))).
Qed.

Lemma add_first_thing_takes (p ins : pointer) (w : world S) (s' : S) :
  p <> nullptr -> ins <> nullptr ->
  accepts api [ call_exec p "BEGIN TRANSACTION;";
                call_bind_int64 ins 1 1;
                call_bind_text ins 2 "first" 5;
                call_bind_text ins 3 "second" 6;
                call_step ins;
                call_reset ins;
                call_exec p "COMMIT TRANSACTION;" ] (engine w) s' ->
  exists w',
    (forall fuel,
        add_first_thing api (Datatypes.S fuel) p ins w = (Returned tt, w') /\
        add_first_thing_unhandled api (Datatypes.S fuel) p ins w = (Returned tt, w')) /\
    engine w' = s' /\
    quietly w [ call_exec p "BEGIN TRANSACTION;";
                call_bind_int64 ins 1 1;
                call_bind_text ins 2 "first" 5;
                call_bind_text ins 3 "second" 6;
                call_step ins;
                call_reset ins;
                call_exec p "COMMIT TRANSACTION;" ] w'.
Proof.
  intros Hp Hins
         (sa & A1 & sb & A2 & sc & A3 & sd & A4 & se & A5 & sf & A6 & sg & A7 & ->).
  destruct (Transaction_ctor_takes p w sa Hp A1) as (w1 & E1 & <- & Q1).
  destruct (parameter_int64_takes ins 1 1 w1 _ A2) as (w2 & E2 & <- & Q2).
  destruct (parameter_string_takes ins 2 "first" w2 _ A3) as (w3 & E3 & <- & Q3).
  destruct (parameter_string_takes ins 3 "second" w3 _ A4) as (w4 & E4 & <- & Q4).
  assert (A56 : accepts api [call_step ins; call_reset ins] (engine w4) sf).
  { exists se. split; [exact A5 |]. exists sf. split; [exact A6 | reflexivity]. }
  destruct (run_without_callback_takes ins w4 sf Hins A56) as (w5 & E5 & <- & Q5).
  destruct (commit_takes p w5 _ Hp A7) as (w6 & E6 & <- & Q6).
  exists w6. split; [| split; [reflexivity |]].
  - intro fuel. destruct (E5 fuel) as [E5a E5b]. split.
    + unfold add_first_thing.
      rewrite (bind_returned _ _ _ _ _ (lift_ctor p w Hp)),
              (bind_returned _ _ _ _ _ E1).
      erewrite bind_returned.
      2:{ apply unwinding_returned.
          rewrite (bind_returned _ _ _ _ _ (lift_ctor ins w1 Hins)),
                  (bind_returned _ _ _ _ _ E2),
                  (bind_returned _ _ _ _ _ (lift_ctor ins w2 Hins)),
                  (bind_returned _ _ _ _ _ E3),
                  (bind_returned _ _ _ _ _ (lift_ctor ins w3 Hins)),
                  (bind_returned _ _ _ _ _ E4),
                  (bind_returned _ _ _ _ _ (lift_ctor ins w4 Hins)).
          exact E5a. }
      rewrite (bind_returned _ _ _ _ _ E6).
      apply Transaction_dtor_released.
    + unfold add_first_thing_unhandled.
      rewrite (bind_returned _ _ _ _ _ (lift_ctor p w Hp)),
              (bind_returned _ _ _ _ _ E1),
              (bind_returned _ _ _ _ _ (lift_ctor ins w1 Hins)),
              (bind_returned _ _ _ _ _ E2),
              (bind_returned _ _ _ _ _ (lift_ctor ins w2 Hins)),
              (bind_returned _ _ _ _ _ E3),
              (bind_returned _ _ _ _ _ (lift_ctor ins w3 Hins)),
              (bind_returned _ _ _ _ _ E4),
              (bind_returned _ _ _ _ _ (lift_ctor ins w4 Hins)),
              (bind_returned _ _ _ _ _ E5b),
              (bind_returned _ _ _ _ _ E6).
      apply Transaction_dtor_released.
  - exact (quietly_trans _ _ _ _ _ Q1
            (quietly_trans _ _ _ _ _ Q2
            (quietly_trans _ _ _ _ _ Q3
            (quietly_trans _ _ _ _ _ Q4
            (quietly_trans _ _ _ _ _ Q5 Q6))))).
Qed.

(** The two runs of the select statement. *)
Lemma query_things_takes (sel : pointer) (rows rows' : list (list cell))
    (w : world S) (s6 s7 : S) :
  sel <> nullptr ->
  reports api sel rows (engine w) s6 ->
  reports api sel rows' (snd (sqlite3_reset api sel s6)) s7 ->
  Forall (fun r => (3 <= List.length r)%nat) rows' ->
  exists n w' q,
    (forall fuel, (n <= fuel)%nat ->
        query_things api show_double fuel sel w = (Returned tt, w') /\
        query_things_unhandled api show_double fuel sel w = (Returned tt, w')) /\
    engine w' = snd (sqlite3_reset api sel s7) /\
    calls w' = calls w ++ q /\
    filter (fun c => negb (reads_row sel c)) q =
      steps_of_query sel (List.length rows) (List.length rows') /\
    cout w' = cout w +++ String.concat "" (map (dumped show_double) rows)
                     +++ String.concat "" (map (printed show_double) rows') /\
    cerr w' = cerr w.
Proof.
  intros Hsel Hrows Hrows' Hthree.
  set (n0 := Datatypes.S (list_max (map (@List.length cell) rows))).
  assert (Hwide : Forall (fun r => (List.length r < n0)%nat) rows).
  { assert (L : (list_max (map (@List.length cell) rows) <= n0 - 1)%nat) by (unfold n0; lia).
    apply list_max_le in L. rewrite Forall_map in L.
    eapply Forall_impl; [| exact L]. cbn. intros r Hr. unfold n0 in *. lia. }
  destruct (run_loop_reports api sel
              (fun k => dump_current_row api show_double k) n0
              (dumped show_double) (fun r => (List.length r < n0)%nat)) with
    (rows := rows) (s := engine w) (s' := s6) (w := w)
    as (w1 & q1 & E1 & G1 & O1 & R1 & C1 & F1); try assumption; try reflexivity.
  { intros r w0 P G.
    destruct (dump_current_row_presented api show_double sel r w0 P) as (w' & E & W).
    exists w'. split; [| exact W]. intros k Hk. apply E. lia. }
  { intro k. exact (dump_current_row_reads_row api show_double k (Build sel)). }
  set (w2 := after_reset api sel w1).
  assert (Hrows2 : reports api sel rows' (engine w2) s7).
  { unfold w2. cbn [after_reset engine]. rewrite G1. exact Hrows'. }
  destruct (run_loop_reports api sel
              (fun _ => print_thing api show_double) 0
              (printed show_double) (fun r => (3 <= List.length r)%nat)) with
    (rows := rows') (s := engine w2) (s' := s7) (w := w2)
    as (w3 & q2 & E3 & G3 & O3 & R3 & C3 & F3); try assumption; try reflexivity.
  { intros r w0 P G.
    destruct (print_thing_presented api show_double sel r w0 P G) as (w' & E & W).
    exists w'. split; [intros; exact E | exact W]. }
  { intros _. exact (print_thing_reads_row api show_double (Build sel)). }
  exists (Nat.max n0 (Datatypes.S (Nat.max (List.length rows) (List.length rows')))),
         (after_reset api sel w3), (q1 ++ [call_reset sel] ++ q2 ++ [call_reset sel]).
  split; [| split; [| split; [| split; [| split]]]].
  - intros fuel Hfuel.
    destruct (run_of_loop_returned api fuel sel _ w w1 Hsel
                (E1 fuel fuel ltac:(lia) ltac:(lia))) as [Ra Rb].
    destruct (run_of_loop_returned api fuel sel _ w2 w3 Hsel
                (E3 fuel 0%nat ltac:(lia) ltac:(lia))) as [Rc Rd].
    split.
    + unfold query_things.
      rewrite (bind_returned _ _ _ _ _ (lift_ctor sel w Hsel)),
              (bind_returned _ _ _ _ _ Ra),
              (bind_returned _ _ _ _ _ (lift_ctor sel _ Hsel)).
      exact Rc.
    + unfold query_things_unhandled.
      rewrite (bind_returned _ _ _ _ _ (lift_ctor sel w Hsel)),
              (bind_returned _ _ _ _ _ Rb),
              (bind_returned _ _ _ _ _ (lift_ctor sel _ Hsel)).
      exact Rd.
  - cbn [after_reset engine]. now rewrite G3.
  - cbn [after_reset calls]. rewrite C3. unfold w2. cbn [after_reset calls].
    rewrite C1. rewrite <- !app_assoc. reflexivity.
  - unfold steps_of_query. rewrite !filter_app, F1, F3. cbn [filter reads_row negb].
    reflexivity.
  - cbn [after_reset cout]. rewrite O3. unfold w2. cbn [after_reset cout].
    rewrite O1. now rewrite append_assoc.
  - cbn [after_reset cerr]. rewrite R3. unfold w2. cbn [after_reset cerr]. exact R1.
Qed.

(** C7: run on an engine that lets it get as far as the query
    ([sets_up]) and whose select statement reports the rows [rows] to the
    first run and the rows [rows'] (of three columns at least) to the
    second, the program opens the database [":memory:"], creates the table
    [things], inserts two rows (it binds and steps the insert statement
    twice, each time inside a transaction it commits), queries the rows
    back and prints the results of the query: with enough fuel [main1]
    returns, and [main] returns 0; the calls made are [calls_of_setup],
    then those of the query, which besides the reads of the current row
    are a step for every row and one more, and the reset, for each run,
    then [calls_of_teardown]; [std::cout] has received every row of the
    first run as [dump_current_row] writes it and then every row of the
    second as [print_thing] writes it, and nothing else; nothing has gone
    to [std::cerr]. *)
Theorem main1_opens_creates_inserts_queries_prints
    (w0 : world S) (db ins sel : pointer) (s5 s6 s7 : S) (rows rows' : list (list cell)) :
  sets_up api (engine w0) db ins sel s5 ->
  reports api sel rows s5 s6 ->
  reports api sel rows' (snd (sqlite3_reset api sel s6)) s7 ->
  Forall (fun r => (3 <= List.length r)%nat) rows' ->
  exists (n : nat) (w4 : world S) (query : list call),
    (forall fuel, (n <= fuel)%nat ->
        main1 api show_double fuel w0 = (Returned tt, w4) /\
        main api show_double fuel w0 = (Returned 0, w4)) /\
    calls w4 = calls w0 ++ calls_of_setup db ins sel ++ query
                        ++ calls_of_teardown db ins sel /\
    filter (fun c => negb (reads_row sel c)) query =
      steps_of_query sel (List.length rows) (List.length rows') /\
    cout w4 = cout w0 +++ String.concat "" (map (dumped show_double) rows)
                      +++ String.concat "" (map (printed show_double) rows') /\
    cerr w4 = cerr w0.
Proof.
  intros [Hdb Hins Hsel (s1 & s2 & s3 & s4 & s4' & Hopen & A12 & Hprep & A34 & A44 & Hprep')]
         Hrows Hrows' Hthree.
  assert (Ea : open_database api ":memory:" w0 =
               (Returned db, snd (invoke (call_open ":memory:")
                                    (sqlite3_open api ":memory:") w0))).
  { rewrite open_database_unfold. unfold invoke. cbv zeta. rewrite Hopen. reflexivity. }
  set (wa := snd (invoke (call_open ":memory:") (sqlite3_open api ":memory:") w0)) in *.
  assert (Ga : engine wa = s1) by (unfold wa; cbn; now rewrite Hopen).
  rewrite <- Ga in A12.
  destruct (create_things2_takes db ins wa s2 s3 s4 Hdb Hins A12 Hprep A34)
    as (wb & Eb & Gb & Qb).
  rewrite <- Gb in A44.
  destruct (add_first_thing_takes db ins wb s4' Hdb Hins A44) as (wc & Ec & Gc & Qc).
  rewrite <- Gc in Hprep'.
  destruct (create_statement_takes db select_things wc sel s5 Hprep')
    as (w1 & E1 & G1 & Q1).
  rewrite <- G1 in Hrows.
  destruct (query_things_takes sel rows rows' w1 s6 s7 Hsel Hrows Hrows' Hthree)
    as (n & w3 & query & E3 & _ & C3 & F3 & O3 & R3).
  set (w4 := snd (invoke (call_finalize sel) (sqlite3_finalize api sel) w3)).
  set (w5 := snd (invoke (call_finalize ins) (sqlite3_finalize api ins) w4)).
  set (w6 := snd (invoke (call_close db) (sqlite3_close api db) w5)).
  assert (D : forall (c : pointer -> call) (d : pointer -> S -> Z * S) p w,
             p <> nullptr ->
             unique_ptr_dtor c d p w = (Returned tt, snd (invoke (c p) (d p) w))).
  { intros c d p w H. unfold unique_ptr_dtor.
    destruct (Z.eqb_spec p nullptr); [contradiction | reflexivity]. }
  assert (Qsetup : quietly w0 (calls_of_setup db ins sel) w1).
  { exact (quietly_trans _ _ _ _ _ (quietly_invoke _ _ w0)
            (quietly_trans _ _ _ _ _ Qb (quietly_trans _ _ _ _ _ Qc Q1))). }
  destruct Qsetup as (Cs & Os & Rs).
  exists (Nat.max 1 n), w6, query.
  split; [| split; [| split; [exact F3 | split]]].
  - intros fuel Hle. destruct (E3 fuel ltac:(lia)) as [E3a E3b].
    destruct fuel as [| fuel']; [lia |].
    destruct (Eb fuel') as [Eba Ebb]. destruct (Ec fuel') as [Eca Ecb].
    assert (M1 : main1_unhandled api show_double (Datatypes.S fuel') w0 = (Returned tt, w6)).
    { unfold main1_unhandled. rewrite (bind_returned _ _ _ _ _ Ea).
      apply on_return_returned with (w1 := w5); [| apply (D _ _ db w5 Hdb)].
      rewrite (bind_returned _ _ _ _ _ (lift_ctor db wa Hdb)),
              (bind_returned _ _ _ _ _ Ebb).
      apply on_return_returned with (w1 := w4); [| apply (D _ _ ins w4 Hins)].
      rewrite (bind_returned _ _ _ _ _ Ecb),
              (bind_returned _ _ _ _ _ (lift_ctor db wc Hdb)),
              (bind_returned _ _ _ _ _ E1).
      apply on_return_returned with (w1 := w3); [| apply (D _ _ sel w3 Hsel)].
      exact E3b. }
    split; [| unfold main; now rewrite M1].
    unfold main1. rewrite (bind_returned _ _ _ _ _ Ea).
    apply finally_returned with (w1 := w5); [| apply (D _ _ db w5 Hdb)].
    rewrite (bind_returned _ _ _ _ _ (lift_ctor db wa Hdb)),
            (bind_returned _ _ _ _ _ Eba).
    apply finally_returned with (w1 := w4); [| apply (D _ _ ins w4 Hins)].
    rewrite (bind_returned _ _ _ _ _ Eca),
            (bind_returned _ _ _ _ _ (lift_ctor db wc Hdb)),
            (bind_returned _ _ _ _ _ E1).
    apply finally_returned with (w1 := w3); [| apply (D _ _ sel w3 Hsel)].
    exact E3a.
  - unfold w6, w5, w4. rewrite !calls_invoke, C3, Cs. unfold calls_of_teardown.
    rewrite <- !app_assoc. reflexivity.
  - unfold w6, w5, w4. cbn [invoke snd cout]. rewrite O3, Os. reflexivity.
  - unfold w6, w5, w4. cbn [invoke snd cerr]. rewrite R3, Rs. reflexivity.
Qed.

End WhatMainDoes.

(** ** The round trip of bound values *)

Lemma length_append (a b : string) :
  String.length (a +++ b) = (String.length a + String.length b)%nat.
Proof. induction a as [| c a IH]; cbn; [reflexivity | now rewrite IH]. Qed.

Lemma doubled_length (n : nat) (s : string) :
  Z.of_nat (String.length (doubled n s)) = 2 ^ Z.of_nat n * Z.of_nat (String.length s).
Proof.
  revert s. induction n as [| n IH]; intro s.
  - cbn [doubled]. change (Z.of_nat 0) with 0. lia.
  - cbn [doubled]. rewrite IH, length_append.
    rewrite Nat2Z.inj_succ, Z.pow_succ_r by lia. lia.
Qed.






Section OnTheStore.

Import Store.



End OnTheStore.
Section RoundTripOnTheStore.

Import Store.


End RoundTripOnTheStore.



(** ** The properties above, on the engines at hand *)

Lemma callbacks_always_continue_witness :
  let stmt := Build Mock.select_handle in
  let on_row := after_step Mock.things Mock.select_handle Mock.two_rows in
  dump_current_row Mock.things Mock.show_double 5 stmt on_row <>
    (Returned false, snd (dump_current_row Mock.things Mock.show_double 5 stmt on_row)) /\
  fst (dump_current_row Mock.things Mock.show_double 5 stmt on_row) = Returned true.
Proof.
  intros stmt on_row. split; [| vm_compute; reflexivity].
  intro H.
  destruct (callbacks_always_continue Mock.things Mock.show_double 5 stmt false on_row
              (snd (dump_current_row Mock.things Mock.show_double 5 stmt on_row))) as [D _].
  specialize (D H). discriminate D.
Defined.

Lemma dump_current_row_without_columns_witness :
  exists w',
    dump_current_row Mock.refusing Mock.show_double 1 (Build 8192) (Mock.fresh tt) =
      (Returned true, w') /\
    cout w' = endl /\
    calls w' = [call_column_count 8192].
Proof.
  apply (dump_current_row_without_columns Mock.refusing Mock.show_double 0
           (Build 8192) (Mock.fresh tt)).
  cbn. lia.
Defined.

Lemma value_reads_the_text_witness :
  let stmt := Build Mock.select_handle in
  let on_row_1 :=
    after_step Mock.things Mock.select_handle
      (after_step Mock.things Mock.select_handle Mock.two_rows) in
  calls (snd (value Mock.things stmt on_row_1)) =
    calls on_row_1 ++ [call_column_text Mock.select_handle 1;
                       call_column_bytes Mock.select_handle 1;
                       read_string 12305 5] /\
  fst (value Mock.things stmt on_row_1) = Returned "first".
Proof.
  intros stmt on_row_1.
  destruct (value_reads_the_text Mock.things stmt on_row_1) as (C & T & _).
  { vm_compute. split; reflexivity. }
  split; [exact C | apply T; vm_compute; reflexivity].
Defined.

Lemma texts_are_passed_with_their_length_witness :
  (calls (snd (parameter_string Mock.things (Build Mock.insert_handle) 2 "first"
                 Mock.empty_table)) =
     [call_bind_text Mock.insert_handle 2 "first" 5] /\
   calls (snd (create_statement Mock.things (Build Mock.db_handle) "SELECT * FROM things;"
                 Mock.empty_table)) =
     [call_prepare_v2 Mock.db_handle "SELECT * FROM things;" 21]) /\
  calls (snd (parameter_string Mock.things (Build Mock.insert_handle) 2 (doubled 31 "a")
                Mock.empty_table)) =
    [call_bind_text Mock.insert_handle 2 (doubled 31 "a") (- 2 ^ 31)].
Proof.
  split; [split |].
  - destruct (texts_are_passed_with_their_length Mock.things
                (Build Mock.insert_handle) (Build Mock.db_handle) 2 "first" Mock.empty_table)
      as [[P _] _]; [vm_compute; reflexivity | exact P].
  - destruct (texts_are_passed_with_their_length Mock.things
                (Build Mock.insert_handle) (Build Mock.db_handle) 2 "SELECT * FROM things;"
                Mock.empty_table)
      as [[_ C] _]; [vm_compute; reflexivity | exact C].
  - pose proof (doubled_length 31 "a") as D.
    change (2 ^ Z.of_nat 31 * Z.of_nat (String.length "a")) with (2 ^ 31) in D.
    destruct (texts_are_passed_with_their_length Mock.things
                (Build Mock.insert_handle) (Build Mock.db_handle) 2 (doubled 31 "a")
                Mock.empty_table)
      as [_ L].
    destruct L as (n & P & _ & _ & _ & N); [rewrite D; lia |].
    rewrite D in N. rewrite P, N by lia. reflexivity.
Defined.

Lemma commit_is_issued_once_witness :
  exists w',
    commits Mock.things 3 {| _db := 4096 |} Mock.empty_table =
      (Returned {| _db := nullptr |}, w') /\
    quietly Mock.empty_table [call_exec 4096 "COMMIT TRANSACTION;"] w'.
Proof.
  apply (commit_is_issued_once Mock.things 4096 (Build 4096) 2 Mock.empty_table);
    reflexivity.
Defined.

Lemma move_leaves_the_source_armed_witness :
  let t := {| _db := 4096 |} in
  let moved := Transaction_move t in
  (exists w',
      (Transaction_dtor Mock.things moved ;; Transaction_dtor Mock.things t) Mock.empty_table
        = (Returned tt, w') /\
      quietly Mock.empty_table [call_exec 4096 "ROLLBACK TRANSACTION;";
                                call_exec 4096 "ROLLBACK TRANSACTION;"] w') /\
  (exists w',
      (moved' <- commit Mock.things moved ;;
       Transaction_dtor Mock.things moved' ;; Transaction_dtor Mock.things t) Mock.empty_table
        = (Returned tt, w') /\
      quietly Mock.empty_table [call_exec 4096 "COMMIT TRANSACTION;";
                                call_exec 4096 "ROLLBACK TRANSACTION;"] w').
Proof.
  intros t moved.
  apply (move_leaves_the_source_armed Mock.things 4096 (Build 4096) t Mock.empty_table
           (snd (Transaction_ctor Mock.things (Build 4096) Mock.empty_table))
           Mock.empty_table); reflexivity.
Defined.

Lemma exception_rolls_back_witness :
  let api := Faulty.engine Faulty.no_parameters in
  let w' := snd (add_first_thing api 1 4096 8192 (Mock.fresh tt)) in
  add_first_thing api 1 4096 8192 (Mock.fresh tt) = (Thrown "TODO", w') /\
  calls w' = [call_exec 4096 "BEGIN TRANSACTION;"; call_bind_int64 8192 1 1;
              call_exec 4096 "ROLLBACK TRANSACTION;"] /\
  exists front, calls w' = front ++ [call_exec 4096 "ROLLBACK TRANSACTION;"].
Proof.
  intros api w'.
  split; [vm_compute; reflexivity | split; [vm_compute; reflexivity |]].
  apply (exception_rolls_back api 4096 8192 1 "TODO" (Mock.fresh tt) w').
  - discriminate.
  - reflexivity.
  - vm_compute. reflexivity.
Defined.

Lemma create_things2_unwinds_in_reverse_order_witness :
  let api := Faulty.engine Faulty.two_parameters in
  let w' := snd (create_things2 api 1 (Build 4096) (Mock.fresh tt)) in
  create_things2 api 1 (Build 4096) (Mock.fresh tt) = (Thrown "TODO", w') /\
  calls w' = [call_exec 4096 "BEGIN TRANSACTION;";
              call_exec 4096 create_table_things;
              call_prepare_v2 4096 insert_into_things 44;
              call_bind_int64 8192 1 0;
              call_bind_text 8192 2 "" 0;
              call_bind_double 8192 3 0%float;
              call_finalize 8192;
              call_exec 4096 "ROLLBACK TRANSACTION;"] /\
  exists front,
    calls w' = front ++ [call_finalize 8192] ++ [call_exec 4096 "ROLLBACK TRANSACTION;"].
Proof.
  intros api w'.
  split; [vm_compute; reflexivity | split; [vm_compute; reflexivity |]].
  apply (create_things2_unwinds_in_reverse_order api 4096 1 "TODO" (Mock.fresh tt) w').
  - discriminate.
  - reflexivity.
  - vm_compute. reflexivity.
Defined.


Lemma null_handle_is_caught_witness :
  let api := Faulty.engine Faulty.no_handle in
  exists w',
    main1 api Mock.show_double 5 (Mock.fresh tt) = (Thrown "Ensure failed", w') /\
    main api Mock.show_double 5 (Mock.fresh tt) = (Terminated, w') /\
    quietly (Mock.fresh tt) [call_open ":memory:"] w'.
Proof.
  intro api.
  apply (null_handle_is_caught api Mock.show_double 5 (Mock.fresh tt)). reflexivity.
Defined.

Lemma main1_closes_the_database_witness :
  let api := Faulty.engine Faulty.two_parameters in
  let w' := snd (main1 api Mock.show_double 5 (Mock.fresh tt)) in
  main1 api Mock.show_double 5 (Mock.fresh tt) = (Thrown "TODO", w') /\
  exists front, calls w' = front ++ [call_close 4096].
Proof.
  intros api w'. split; [vm_compute; reflexivity |].
  apply (main1_closes_the_database api Mock.show_double 5 (Thrown "TODO")
           (Mock.fresh tt) w').
  - discriminate.
  - vm_compute. reflexivity.
  - right. exists "TODO". reflexivity.
Defined.

Lemma dump_column_without_value_witness :
  exists w',
    dump_column Mock.refusing Mock.show_double (Build 8192) 0 (Mock.fresh tt) =
      (Returned tt, w') /\
    calls w' = [call_column_type 8192 0] /\
    cout w' = "<NULL>|".
Proof.
  apply (dump_column_without_value Mock.refusing Mock.show_double (Build 8192) 0
           (Mock.fresh tt)); discriminate.
Defined.

Lemma main1_exits_when_open_fails_witness :
  exists w',
    main1 Mock.refusing Mock.show_double 5 (Mock.fresh tt) = (Exited EXIT_FAILURE, w') /\
    main Mock.refusing Mock.show_double 5 (Mock.fresh tt) = (Exited EXIT_FAILURE, w') /\
    calls w' = [call_open ":memory:"; call_errmsg 4096; call_close 4096] /\
    cout w' = "" /\
    cerr w' = "Unable to open database ':memory:': unable to open database file".
Proof.
  apply (main1_exits_when_open_fails Mock.refusing Mock.show_double 5 (Mock.fresh tt)).
  discriminate.
Defined.

(** A property of each of three cells is one of every cell of the row. *)
Lemma by_three_cells (P : nat -> cell -> Prop) (a b c : cell) :
  P 0%nat a -> P 1%nat b -> P 2%nat c ->
  forall i x, nth_error [a; b; c] i = Some x -> P i x.
Proof.
  intros Pa Pb Pc [| [| [| i]]] x E; cbn in E; try (injection E as <-; assumption).
  destruct i; discriminate E.
Qed.

(** The table engine, from the empty table, sets [main1] up and reports
    its two rows to either run. *)
Lemma things_presents (s : Mock.state) (r : list cell) :
  (Mock.row s = 0 /\ r = identity_thing) \/ (Mock.row s = 1 /\ r = first_thing) ->
  presents Mock.things Mock.select_handle s r.
Proof.
  intros [[R ->] | [R ->]]; constructor;
    try (apply by_three_cells);
    cbn; unfold Mock.column_type, Mock.text_of; rewrite ?R; cbn;
    try reflexivity;
    eexists; repeat split; try reflexivity; try (intro N; now elim N);
    unfold Mock.memory; rewrite R; reflexivity.
Qed.

Lemma things_reports :
  reports Mock.things Mock.select_handle [identity_thing; first_thing]
    {| Mock.stored := 2; Mock.cursor := 2 |} {| Mock.stored := 2; Mock.cursor := 0 |}.
Proof.
  apply reports_row; [reflexivity | apply things_presents; left; split; reflexivity |].
  apply reports_row; [reflexivity | apply things_presents; right; split; reflexivity |].
  apply (reports_end Mock.things Mock.select_handle {| Mock.stored := 2; Mock.cursor := 0 |}).
  discriminate.
Qed.

Lemma things_sets_up :
  sets_up Mock.things (engine Mock.empty_table)
    Mock.db_handle Mock.insert_handle Mock.select_handle
    {| Mock.stored := 2; Mock.cursor := 2 |}.
Proof.
  constructor; try discriminate.
  cbn. unfold Mock.prepare. cbn.
  repeat eexists.
Qed.

Lemma main1_opens_creates_inserts_queries_prints_witness :
  exists (n : nat) (w4 : world Mock.state) (query : list call),
    (forall fuel, (n <= fuel)%nat ->
        main1 Mock.things Mock.show_double fuel Mock.empty_table = (Returned tt, w4) /\
        main Mock.things Mock.show_double fuel Mock.empty_table = (Returned 0, w4)) /\
    calls w4 = calls_of_setup 4096 8192 8200 ++ query ++ calls_of_teardown 4096 8192 8200 /\
    filter (fun c => negb (reads_row 8200 c)) query = steps_of_query 8200 2 2 /\
    cout w4 = "0|''|0|" +++ endl +++ "1|'first'|'second'|" +++ endl +++
              "0, , 0" +++ endl +++ "1, first, 0" +++ endl /\
    cerr w4 = "".
Proof.
  apply (main1_opens_creates_inserts_queries_prints Mock.things Mock.show_double
           Mock.empty_table Mock.db_handle Mock.insert_handle Mock.select_handle
           {| Mock.stored := 2; Mock.cursor := 2 |}
           {| Mock.stored := 2; Mock.cursor := 0 |}
           {| Mock.stored := 2; Mock.cursor := 0 |}
           [identity_thing; first_thing] [identity_thing; first_thing]).
  - exact things_sets_up.
  - exact things_reports.
  - exact things_reports.
  - repeat constructor.
Defined.

